(* ===== verification/_CoqProject ===== *)
-Q . S2P
Prelude.v
JsNumber.v
Float32.v
Quantizer.v
Resampler.v
Amplitude.v
Drift.v
ArrayStore.v
Upsampling.v
ChunkBuffer.v
Worklet.v
Host.v
Dashboard.v
Constants.v
Prompts.v
PopUp.v
