(* ===== verification/Prelude.v ===== *)
(** * TalkToMap: a verified model of the audio capture worklet

    ** The program

    The repository (yhinai/TalkToMap) is a React front end that talks to
    a remote speech model.  Its one algorithmic part is the AudioWorklet
    processor [AudioProcessingWorklet], whose source is the string
    [AudioRecordingWorklet] of [src/lib/worklets/audio-processing.ts].
    The audio host calls [process] once per render quantum with a block
    of native-rate float samples.  [processChunk]:
    - resamples the block to the target rate by linear interpolation
      ([resample]), holding unconsumed samples over to the next call;
    - converts each sample to int16 (the clamp of line 129 and the
      [Int16Array] store);
    - appends it to a 2048-slot buffer, which [sendAndClearBuffer]
      posts on the message port whenever it fills.
    [src/lib/constants.ts] holds the live-model and voice configuration
    and two system prompts for the remote model.  [src/components] holds two React views, the
    dashboard of metrics and charts and an onboarding pop-up.

    ** Files and what they model

    - [Prelude] (this file): the error monad [outcome] for JS exceptions,
      the [eventually] combinator over a branching step,
      [js_slice_from] ([TypedArray.prototype.slice]), lemmas on [Q]
      floors and lists, the rewrite databases [lens] and [qb], the
      tactic [case_qtest], and [ok_pair_exists], which turns a test
      decided by [vm_compute] into an existence statement.
    - [JsNumber], module [Js]: the JS number operations the worklet uses.
      These are [Math.floor], [Math.min], [Math.max], the truthiness of a
      rate, the ToInt16 conversion of an [Int16Array] store ([ToInt16],
      [Qtrunc]) and the round-to-nearest-even binary32 conversion of a
      [Float32Array] store ([round_f32]).
    - [Float32]: the theory of [round_f32]: [Qlog2_floor] computes the
      binade, the rounding is monotone and stays between binary32
      bounds.
    - [Quantizer], module [Quantizer]: [int16Value] (line 129) and
      [quantize] (the value the [Int16Array] slot holds, line 130).
    - [Resampler], module [Resampler]: [ResampleState] (the fields
      [_resampleRatio], [_resampleBuffer]) and the constructor's
      [init_resample] (lines 28-41).  [resample] (lines 67-113) is built
      from the helpers [prepend_leftover], [output_length],
      [interp_index], [interpolate] and [leftover_of], one per step of
      the method.  [resample_blocks] is a sequence of calls.
      [decimate] is the reference behaviour for integer ratios.
    - [Amplitude], module [Amplitude]: the range of the resampled signal.
    - [Drift], module [Drift]: the number of samples [resample] produces
      over a stream of calls.
    - [ArrayStore], module [ArrayStore]: [resample] again, over a store
      of [Float32Array] objects ([Store]: a [gmap] from locations with a
      bump allocator).  [_resampleBuffer] holds a location ([HState]),
      and [resample_h] performs the method's allocations and keeps the
      reference of line 89.  A [host] hands over each block either as a
      new array ([fresh_host]) or by refilling one array
      ([reuse_host]).
    - [Upsampling], module [Upsampling]: [resample] for a ratio [1/k]
      (capture below the target rate).
    - [ChunkBuffer], module [ChunkBuffer]: [buffer], [bufferWriteIndex]
      and the port (the list of posted [PortMessage]s), with
      [sendAndClearBuffer] (lines 55-65), [store_sample] (lines 130-133)
      and [store_all] (the loop of lines 127-134).  [batch_push] is the
      abstract FIFO batcher that the buffer refines.
    - [Worklet], module [Worklet]: the processor state [Worklet]
      (buffer, resampler, [hasAudio]), [init_worklet], [processChunk]
      (lines 115-135) and [process] (lines 43-53).  The host is
      modelled by [run_blocks] (one mono block per quantum) and by the
      rule-induction closure [reachable].
    - [Host], module [Host]: the interface [AudioWorkletProcessor]
      that the Web Audio host needs of a processor (a class, with
      [Worklet] as an instance), and the node that drives it.  While
      [process] is callable the node calls it once per quantum; after
      an exception it never calls it again ([render_quantum],
      [render]).
    - [Dashboard], module [Dashboard]: the [Chart] and [Dashboard]
      components of [src/components/dashboard/Dashboard.tsx] as
      functions from the store's data to the rendered view, with JS
      objects as association lists and the object spread [obj_spread].
      [chartComponents[chart.type]] is a JS property read
      ([lookup_component]): an own property of the literal, else a
      method inherited from [Object.prototype], else [undefined].
      [call_inherited] is what React renders when the component is
      such a method.  The Chart.js registry that the imports and
      [ChartJS.register] (lines 8-29) build is [dashboard_registry].
    - [Constants], module [Constants]: the data of lines 21-80 of
      [src/lib/constants.ts].
    - [Prompts], module [Prompts]: the two prompt strings of lines
      82-161 of [src/lib/constants.ts], exactly.
    - [PopUp], module [PopUp]: [src/components/popup/PopUp.tsx] as a
      function from its [onClose] callback to the rendered dialog.

    The components interact as in the code: [processChunk] calls
    [resample], maps [int16Value] over the result and feeds it to
    [store_all].  [store_sample] calls [sendAndClearBuffer].  The only
    shared state is the processor record, threaded explicitly.  The
    host sees the processor through the [AudioWorkletProcessor]
    interface only.  The consumer of the port is outside the model.

    ** What the theorems show

    - Quantizer (C8, C16, C17, C23): the stored int16 is the saturating
      truncation of [s * 32768], so the store never wraps.  Full scale
      saturates, the map is monotone, and [v / 32768] quantizes back
      to [v].
    - Resampler (C2, C3, C10, C12, C13, C27):
      - a call with a positive ratio never throws and returns
        [floor (n / ratio)] samples;
      - every interpolation read is in bounds, and each output is the
        rounded interpolation of the two samples read;
      - the leftover is exactly the unconsumed suffix and holds fewer
        than [ratio + 1] samples;
      - for integer ratios, calls on consecutive blocks equal one call
        on their concatenation ([resample_blocks_integer]);
      - the constructor's ratio is positive whenever both rates are.
    - Arrays as objects (C6, C24): with a new input array per quantum,
      the store-based [resample_h] refines the value model
      ([resample_heap_refines], a simulation over any stream of blocks,
      errors included).  The state comes to reference the caller's
      array only through an undersized call with nothing held over.  A
      host that refills that array changes the held-over samples
      ([retained_reference_diverges]).
    - Upsampling (C20, C21): for a ratio [1/k] the resampler keeps
      nothing between calls, interpolates each block on its own, and
      holds the last sample of each block flat for [k] outputs.
    - Amplitude (C11): samples between two binary32 bounds (such as
      [-1] and [1]) stay between them through any stream of calls.
    - Where the code departs from the spec (C4, C5, C25, C26): for
      non-integer ratios the fractional phase is lost at every call.
      Over [k] calls the outputs exceed the consumed input by up to [k]
      source samples ([resample_blocks_count]).  At 44.1 kHz the excess
      grows linearly over any stream of 128-sample quanta, by at least
      [5/8] of a source sample per call ([drift_44100_linear]); one
      second yields 16053 samples at 16 kHz instead of 15975.  A call
      on exactly [m] strides of an integer ratio keeps no leftover
      where the spec's scenario expects one ([resample_boundaries]).
      After any [3 + 3k] quanta at 44.1 kHz the leftover holds 3
      samples, more than one stride, and an empty block then stores a
      sample ([empty_quantum_after_stream_44100]).
    - ChunkBuffer (C7, C14, C15): a store refines a push of the
      abstract batcher.  Storing [2048 + m] samples posts exactly one
      chunk of the first 2048, in order, and keeps [m] pending.
      Liveness: whatever samples follow, the samples pending now are
      eventually posted ([eventually], an omnisemantics-style
      combinator).
    - Worklet (C1, C9, C18, C19), in terms of the constructed
      processor:
      - with positive rates, any stream of quanta runs without an
        exception, and the posted chunks followed by the buffered
        samples are the quantized resampler output
        ([pipeline_stream]);
      - for integer ratios that output is the quantized decimation of
        the whole stream;
      - for equal rates it is the quantized input, the resampler
        passing the stream through unchanged;
      - every reachable state keeps the buffer invariant and the
        constructed ratio, and has posted only full chunks (rule
        induction on [reachable]).
    - Host (C22): the constructor accepts rates of opposite signs.  The
      first non-empty block then throws a [RangeError], and the node,
      which never calls a processor that threw again (proved against
      the interface), is silenced: no chunk is ever posted.
    - Dashboard (C28): the view renders exactly when every chart type
      is [bar], [doughnut], [pie] or [toString], the one inherited
      [Object.prototype] method that React renders (as the text
      ["[object Undefined]"]).

    ** Modelling choices and bounds

    - JS doubles are exact rationals [Q].  For ratios that are dyadic
      rationals with small denominators (48 kHz or 32 kHz to 16 kHz,
      ratios 3 and 2) every double operation of [resample] is exact, and
      the model is bit-exact.  For other ratios (44.1 kHz: 2.75625) it
      is the exact-arithmetic idealisation of the code.  NaN and the
      infinities are not values of the model; their handling is
      recorded as a finding.  The [RangeError] that [new
      Float32Array(n)] raises for [n] above [2^53 - 1] is not modelled:
      [n] is [floor (length / ratio)], which reaches that bound only for
      ratios below about [1.4e-14], far from any pair of sample rates.
    - The two typed-array stores are modelled bit-exactly, because they
      change values.  Above the binary32 range, [round_f32] keeps the
      rounded magnitude where JS stores an infinity.  The only later
      use is the clamp, which treats both alike.
    - [resample] depends on the ratio's value only: its helpers
      [output_length] and [interpolate] are [Proper] for [Qeq].  The
      integer-ratio theorems therefore take [ratio == k] and apply to
      the constructor's [source / target].
    - The counts over streams of 128-sample quanta are computed by
      [quanta_counts] and [call_counts] ([Drift]), which reduce a
      stream of any length to the cycle of held-over counts; the one
      concrete run (one second of audio: 344 quanta) is decided by
      [vm_compute] through [ok_pair_exists].
    - No fuel is needed: every loop of the code is a [map] over [seq] or
      a structural recursion over the samples.  The capacity 2048 stays
      folded as [BUFFER_LENGTH] in proofs, so unary [nat]s are never
      unfolded.

    ** Not modelled

    Not modelled in [Dashboard.tsx] and [PopUp.tsx]: the markup, the CSS
    classes, and what Chart.js does with the registry and the options
    once a chart is constructed (scale resolution and drawing), whose
    behaviour depends on the Chart.js version.  The dashboard's store
    ([@/lib/state]) is not among the sources, so only the fields the
    component reads are modelled.  React keys (metric labels and chart
    titles) only steer how React reconciles a list; they do not change
    what is rendered, so they are not modelled.  The consumer of posted
    messages is repository code outside [src/], and the spec does not
    describe what it does with the chunks (encoding, the network), so
    it is not modelled.  When a call throws, the partial state the code
    leaves behind is not modelled, because the host never calls
    [process] again ([Host]).  The linear lower bound on the drift is
    proved for the 44.1 kHz configuration and 128-sample quanta, the
    case the Web Audio API produces.  For other rates, the cycle of
    held-over counts differs and is not derived in general.
*)

From Stdlib Require Import List ZArith QArith Qround Lia Lqa Setoid Morphisms.
Import ListNotations.

Declare Scope js_scope.
Delimit Scope js_scope with js.

(** ** Exceptions: a small error monad

    The exceptions the modelled code can raise: the [RangeError] of a
    typed-array constructor called with a negative length, and the
    error React raises when asked to render an element whose type is
    [undefined] or an object, the error it raises when a component
    returns an object that is not a valid child, and the [TypeError] of a
    built-in method called on [undefined]. *)

Inductive js_error : Type :=
| RangeError
| InvalidElementType
| InvalidChild
| TypeError.

Inductive outcome (A : Type) : Type :=
| Ok (a : A)
| Throw (e : js_error).
Arguments Ok {A} a.
Arguments Throw {A} e.

Definition obind {A B : Type} (c : outcome A) (k : A -> outcome B) : outcome B :=
  match c with
  | Ok a => k a
  | Throw e => Throw e
  end.

Notation "'let*' x ':=' c 'in' k" := (obind c (fun x => k))
  (at level 200, x pattern, c at level 100, k at level 200) : js_scope.

(** A successful result with a property, from a test of the result
    that [vm_compute] decides: large concrete runs are checked by the
    kernel's virtual machine instead of by unfolding. *)
Lemma ok_pair_exists {A B : Type} (P : A -> B -> Prop) (c : outcome (A * B)) :
  match c with Ok (a, b) => P a b | Throw _ => False end ->
  exists a b, c = Ok (a, b) /\ P a b.
Proof. destruct c as [[a b]|e]; [eauto | contradiction]. Qed.

(** ** Rationals *)

(** A strict comparison test on [Q]; the Standard Library has only
    [Qle_bool] and [Qeq_bool]. *)
Definition Qltb (x y : Q) : bool := negb (Qle_bool y x).

(** A natural number (an array length or a loop index) as a JS number. *)
Definition Qnat (n : nat) : Q := inject_Z (Z.of_nat n).

Lemma Qltb_iff (x y : Q) : Qltb x y = true <-> x < y.
Proof.
  unfold Qltb. rewrite Bool.negb_true_iff.
  split; intro H.
  - apply Qnot_le_lt. intro H'. apply Qle_bool_iff in H'. congruence.
  - destruct (Qle_bool y x) eqn:E; [|reflexivity].
    apply Qle_bool_iff in E. exfalso. apply (Qlt_not_le x y); assumption.
Qed.

Lemma Qltb_false (x y : Q) : Qltb x y = false <-> y <= x.
Proof.
  unfold Qltb. rewrite Bool.negb_false_iff. apply Qle_bool_iff.
Qed.

(** The strict test depends on the values only. *)
Lemma Qltb_compat (x x' y y' : Q) : x == x' -> y == y' -> Qltb x y = Qltb x' y'.
Proof. intros Hx Hy. unfold Qltb. rewrite (Qleb_comp y y' Hy x x' Hx). reflexivity. Qed.

Lemma Qle_bool_false (x y : Q) : Qle_bool x y = false <-> y < x.
Proof.
  split; intro H.
  - apply Qnot_le_lt. intro H'. apply Qle_bool_iff in H'. congruence.
  - destruct (Qle_bool x y) eqn:E; [|reflexivity].
    apply Qle_bool_iff in E. exfalso. apply (Qlt_not_le y x); assumption.
Qed.

Lemma Qeq_bool_false (x y : Q) : Qeq_bool x y = false <-> ~ x == y.
Proof.
  split; intro H.
  - intro H'. apply Qeq_bool_iff in H'. congruence.
  - destruct (Qeq_bool x y) eqn:E; [|reflexivity].
    apply Qeq_bool_iff in E. contradiction.
Qed.

(** [Qle] and [Qlt] between injected integers are the integer orders. *)
Lemma inject_Z_le (a b : Z) : inject_Z a <= inject_Z b <-> (a <= b)%Z.
Proof. rewrite Zle_Qle. reflexivity. Qed.

Lemma inject_Z_lt (a b : Z) : inject_Z a < inject_Z b <-> (a < b)%Z.
Proof. rewrite Zlt_Qlt. reflexivity. Qed.

Lemma inject_Z_minus (a b : Z) : inject_Z (a - b) = inject_Z a - inject_Z b.
Proof. unfold Z.sub. rewrite inject_Z_plus, inject_Z_opp. reflexivity. Qed.

Lemma Qnat_nonneg (n : nat) : 0 <= Qnat n.
Proof. unfold Qnat. change 0 with (inject_Z 0). apply inject_Z_le. lia. Qed.

Lemma Qnat_add (a b : nat) : Qnat (a + b) = Qnat a + Qnat b.
Proof. unfold Qnat. rewrite Nat2Z.inj_add, inject_Z_plus. reflexivity. Qed.

Lemma Qnat_sub (a b : nat) : (b <= a)%nat -> Qnat (a - b) = Qnat a - Qnat b.
Proof. intros H. unfold Qnat. rewrite Nat2Z.inj_sub, inject_Z_minus by exact H. reflexivity. Qed.

Lemma Qnat_Z2Nat (z : Z) : (0 <= z)%Z -> Qnat (Z.to_nat z) = inject_Z z.
Proof. intros H. unfold Qnat. rewrite Z2Nat.id by exact H. reflexivity. Qed.

(** The floor of a quotient by a positive rational brackets the
    dividend: [k * r <= x < (k + 1) * r] for [k = floor (x / r)]. *)
Lemma Qfloor_div_bounds (x r : Q) :
  0 < r ->
  inject_Z (Qfloor (x / r)) * r <= x /\ x < inject_Z (Qfloor (x / r) + 1) * r.
Proof.
  intros Hr.
  pose proof (Qfloor_le (x / r)) as Hle.
  pose proof (Qlt_floor (x / r)) as Hlt.
  assert (Hx : x / r * r == x) by (field; intro E; rewrite E in Hr; discriminate).
  split.
  - rewrite <- Hx at 2. apply Qmult_le_compat_r; [assumption | apply Qlt_le_weak; assumption].
  - rewrite <- Hx at 1. apply Qmult_lt_compat_r; assumption.
Qed.

Lemma Qfloor_nonneg (x : Q) : 0 <= x -> (0 <= Qfloor x)%Z.
Proof.
  intros H. change 0%Z with (Qfloor 0). apply Qfloor_resp_le. assumption.
Qed.

(** A positive number divided by a negative one is negative. *)
Lemma Qdiv_pos_neg (x r : Q) : 0 < x -> r < 0 -> x / r < 0.
Proof.
  intros Hx Hr.
  assert (E : x / r * r == x) by (field; intro E; rewrite E in Hr; discriminate).
  destruct (Qlt_le_dec (x / r) 0) as [L | L]; [assumption|].
  exfalso. assert (x / r * r <= 0) by nra. lra.
Qed.

(** [Qfloor] characterised by its two bounds. *)
Lemma Qfloor_unique (x : Q) (k : Z) :
  inject_Z k <= x -> x < inject_Z (k + 1) -> Qfloor x = k.
Proof.
  intros H1 H2.
  pose proof (Qfloor_le x) as H3. pose proof (Qlt_floor x) as H4.
  assert (A : (k < Qfloor x + 1)%Z) by (apply inject_Z_lt; eapply Qle_lt_trans; eauto).
  assert (B : (Qfloor x < k + 1)%Z) by (apply inject_Z_lt; eapply Qle_lt_trans; eauto).
  lia.
Qed.

(** [TypedArray.prototype.slice(start)]: a fresh copy of the elements
    from the relative index [start] (counted from the end when
    negative) to the end. *)
Definition js_slice_from {A : Type} (start : Z) (l : list A) : list A :=
  let len := Z.of_nat (length l) in
  let k := if (start <? 0)%Z then Z.max (len + start) 0 else Z.min start len in
  skipn (Z.to_nat k) l.

Lemma js_slice_from_nonneg {A : Type} (start : Z) (l : list A) :
  (0 <= start)%Z -> js_slice_from start l = skipn (Z.to_nat start) l.
Proof.
  intros H. unfold js_slice_from.
  destruct (start <? 0)%Z eqn:E; [apply Z.ltb_lt in E; lia|].
  destruct (Z.le_gt_cases start (Z.of_nat (length l))) as [L | L].
  - rewrite Z.min_l by assumption. reflexivity.
  - rewrite Z.min_r by lia. rewrite Nat2Z.id.
    rewrite !skipn_all2; [reflexivity | lia | lia].
Qed.

(** Mapping over [seq q m] is mapping over [seq 0 m] shifted by [q]. *)
Lemma map_seq_offset {A : Type} (f : nat -> A) (q m : nat) :
  map f (seq q m) = map (fun j => f (q + j)%nat) (seq 0 m).
Proof.
  revert q. induction m as [|m IH]; intros q; [reflexivity|].
  simpl. rewrite Nat.add_0_r. f_equal.
  rewrite (IH (S q)), <- seq_shift, map_map. apply map_ext. intros j. f_equal. lia.
Qed.

(** Dropping a whole prefix and then some. *)
Lemma skipn_app_plus {A : Type} (a b : list A) (m : nat) :
  skipn (length a + m) (a ++ b) = skipn m b.
Proof. rewrite skipn_app, skipn_all2 by lia. simpl. f_equal. lia. Qed.

Lemma Forall_skipn_l {A : Type} (P : A -> Prop) (n : nat) (l : list A) :
  Forall P l -> Forall P (skipn n l).
Proof. intros H. rewrite <- (firstn_skipn n l) in H. apply Forall_app in H. apply H. Qed.

(** Concatenating blocks of one length. *)
Lemma length_concat_uniform {A : Type} (n : nat) (cs : list (list A)) :
  Forall (fun c => length c = n) cs -> length (concat cs) = (n * length cs)%nat.
Proof. induction 1; simpl; [lia|]. rewrite length_app. lia. Qed.

(** Two lists related pointwise satisfy related predicates together. *)
Lemma Forall2_Forall_iff {A B : Type} (R : A -> B -> Prop) (P : A -> Prop) (Q : B -> Prop)
  (xs : list A) (ys : list B) :
  Forall2 R xs ys -> (forall x y, R x y -> P x <-> Q y) -> (Forall P xs <-> Forall Q ys).
Proof.
  intros F PQ. induction F as [|x y xs ys Rxy F IH]; [split; constructor|].
  rewrite !Forall_cons_iff, (PQ x y Rxy), IH. reflexivity.
Qed.

(** ** Eventually and always, over a step that may branch

    [step s mid] says that every possible successor of [s] satisfies
    [mid] (an "omnisemantics" step: the environment picks the
    successor, here the next input sample). *)

Section Combinators.
Context {State : Type} (step : State -> (State -> Prop) -> Prop).

Inductive eventually (P : State -> Prop) (s : State) : Prop :=
| eventually_done : P s -> eventually P s
| eventually_step (mid : State -> Prop) :
    step s mid -> (forall s', mid s' -> eventually P s') -> eventually P s.

Lemma eventually_weaken (P Q : State -> Prop) (s : State) :
  eventually P s -> (forall s', P s' -> Q s') -> eventually Q s.
Proof.
  induction 1 as [s H | s mid S _ IH]; intros W;
    [apply eventually_done, W, H | apply (eventually_step _ s mid S); intros; apply IH; auto].
Qed.

End Combinators.

(** ** Automation *)

Create Rewrite HintDb lens.
#[export] Hint Rewrite @length_app @length_map @length_seq @length_skipn
  @length_firstn @repeat_length : lens.

(** The boolean tests of the code, as propositions. *)
Create Rewrite HintDb qb.
#[export] Hint Rewrite Qle_bool_iff Qle_bool_false Qltb_iff Qltb_false
  Qeq_bool_iff Qeq_bool_false : qb.

(** Case analysis on a boolean rational test of the code, turning its
    two outcomes into propositions. *)
Ltac case_qtest t :=
  let E := fresh "E" in
  destruct t eqn:E;
  [ try (apply Qltb_iff in E); try (apply Qle_bool_iff in E); try (apply Qeq_bool_iff in E)
  | try (apply Qltb_false in E); try (apply Qle_bool_false in E); try (apply Qeq_bool_false in E) ].


