(* ===== verification/JsNumber.v ===== *)
(** * JS number semantics used by the worklet

    The worklet's arithmetic is on JS numbers (IEEE doubles), which this
    development models as exact rationals [Q] (see the root header for
    when that is exact).  What is modelled bit-exactly are the two typed
    array stores of [src/lib/worklets/audio-processing.ts], which change
    values:
    - a store into an [Int16Array] applies ECMA-262 ToInt16 (truncate
      toward zero, then wrap modulo 2^16): [ToInt16];
    - a store into a [Float32Array] rounds to the nearest binary32 value,
      ties to even: [round_f32];
    and the [Math.floor], [Math.min], [Math.max] calls and the truthiness
    test of an optional number. *)

From Stdlib Require Import List ZArith QArith Qround Qabs Lia Lqa.
From S2P Require Import Prelude.

Module Js.

(** ** Math functions on non-NaN numbers *)

Definition Math_floor (x : Q) : Z := Qfloor x.

(** [Math.min(x, y)] and [Math.max(x, y)] *)
Definition Math_min (x y : Q) : Q := if Qle_bool x y then x else y.
Definition Math_max (x y : Q) : Q := if Qle_bool y x then x else y.

(** A property that may be [undefined] is truthy when it is present
    and not [0] ([NaN] is not a value of the model). *)
Definition truthy_num (o : option Q) : bool :=
  match o with
  | None => false
  | Some q => negb (Qeq_bool q 0)
  end.

(** ** ToInt16 (ECMA-262, 7.1.9), applied by an [Int16Array] store *)

(** Truncation toward zero of a finite number. *)
Definition Qtrunc (x : Q) : Z :=
  if Qle_bool 0 x then Qfloor x else (- Qfloor (- x))%Z.

Definition ToInt16 (x : Q) : Z :=
  let int := Qtrunc x in
  let int16bit := (int mod 65536)%Z in
  if (32768 <=? int16bit)%Z then (int16bit - 65536)%Z else int16bit.

(** The values an [Int16Array] element can hold. *)
Definition is_int16 (v : Z) : Prop := (-32768 <= v <= 32767)%Z.

(** ** Round to binary32, applied by a [Float32Array] store *)

(** [Qlog2_floor q] is [e] with [2^e <= q < 2^(e+1)], for [q > 0] in
    lowest terms. *)
Definition Qlog2_floor (q : Q) : Z :=
  let k := (Z.log2 (Qnum q) - Z.log2 (Zpos (Qden q)))%Z in
  if Qle_bool (Qpower 2 k) q then k else (k - 1)%Z.

(** Round to the nearest integer, ties to even. *)
Definition round_half_even (m : Q) : Z :=
  let f := Qfloor m in
  let d := m - inject_Z f in
  if Qltb d (1 # 2) then f
  else if Qltb (1 # 2) d then (f + 1)%Z
  else if Z.even f then f else (f + 1)%Z.

(** Exponent of the unit in the last place of a nonzero binary32 value
    of magnitude [|q|]: 24-bit significands, subnormals below [2^-126]. *)
Definition f32_ulp_exp (q : Q) : Z :=
  Z.max (Qlog2_floor (Qabs q) - 23) (-149).

(** The value a [Float32Array] element holds after [a[i] = x].  Above
    the binary32 range JS stores an infinity; the model keeps the
    rounded magnitude, which every later use in the worklet (the
    clamp to [-32768, 32767]) treats the same way. *)
Definition round_f32 (x : Q) : Q :=
  let q := Qred x in
  if Qeq_bool q 0 then 0
  else let e := f32_ulp_exp q in
       Qred (inject_Z (round_half_even (q * Qpower 2 (- e))) * Qpower 2 e).

(** [x] is a binary32 value (in lowest terms). *)
Definition is_f32 (x : Q) : Prop := round_f32 x = x.

End Js.

(** ** Lemmas *)

Section JsLemmas.
Import Js.

(** The store depends on the value only, not on its representation. *)
Lemma round_f32_compat (x y : Q) : x == y -> round_f32 x = round_f32 y.
Proof. intros H. unfold round_f32. rewrite (Qred_complete x y H). reflexivity. Qed.

(** ** Truncation and ToInt16 *)

Lemma Qtrunc_nonneg (x : Q) : 0 <= x -> Qtrunc x = Qfloor x.
Proof.
  intros H. unfold Qtrunc. apply Qle_bool_iff in H. rewrite H. reflexivity.
Qed.

Lemma Qtrunc_neg (x : Q) : x < 0 -> Qtrunc x = (- Qfloor (- x))%Z.
Proof.
  intros H. unfold Qtrunc. destruct (Qle_bool 0 x) eqn:E; [|reflexivity].
  apply Qle_bool_iff in E. exfalso. apply (Qlt_not_le x 0); assumption.
Qed.

Lemma Qtrunc_compat (x y : Q) : x == y -> Qtrunc x = Qtrunc y.
Proof.
  intros H. unfold Qtrunc. rewrite (Qleb_comp 0 0 (Qeq_refl 0) x y H).
  rewrite (Qfloor_comp x y H), (Qfloor_comp (- x) (- y)) by (rewrite H; reflexivity).
  reflexivity.
Qed.

Lemma Qtrunc_inject_Z (z : Z) : Qtrunc (inject_Z z) = z.
Proof.
  destruct (Z_lt_le_dec z 0) as [Hz | Hz].
  - rewrite Qtrunc_neg by (change 0 with (inject_Z 0); apply inject_Z_lt; lia).
    rewrite <- inject_Z_opp, Qfloor_Z. lia.
  - rewrite Qtrunc_nonneg by (change 0 with (inject_Z 0); apply inject_Z_le; lia).
    apply Qfloor_Z.
Qed.

(** Truncation stays between the integer bounds of its argument. *)
Lemma Qtrunc_bounds (x : Q) (lo hi : Z) :
  inject_Z lo <= x -> x <= inject_Z hi -> (lo <= Qtrunc x <= hi)%Z.
Proof.
  intros Hlo Hhi. unfold Qtrunc.
  destruct (Qle_bool 0 x) eqn:E.
  - pose proof (Qfloor_resp_le _ _ Hlo) as A. pose proof (Qfloor_resp_le _ _ Hhi) as B.
    rewrite Qfloor_Z in A, B. split; [assumption|].
    lia.
  - apply Qle_bool_false in E.
    assert (C : - inject_Z hi <= - x) by lra.
    assert (D : - x <= - inject_Z lo) by lra.
    rewrite <- inject_Z_opp in C, D.
    pose proof (Qfloor_resp_le _ _ C) as A. pose proof (Qfloor_resp_le _ _ D) as B.
    rewrite Qfloor_Z in A, B. lia.
Qed.

(** Truncation is monotone, hence commutes with [Math.min] and
    [Math.max]. *)
Lemma Qtrunc_mono (x y : Q) : x <= y -> (Qtrunc x <= Qtrunc y)%Z.
Proof.
  intros H. unfold Qtrunc.
  destruct (Qle_bool 0 x) eqn:Ex, (Qle_bool 0 y) eqn:Ey;
    autorewrite with qb in Ex, Ey.
  - apply Qfloor_resp_le. assumption.
  - exfalso. lra.
  - pose proof (Qfloor_nonneg y Ey). pose proof (Qfloor_nonneg (- x) ltac:(lra)). lia.
  - assert (- y <= - x) by lra. pose proof (Qfloor_resp_le _ _ H0). lia.
Qed.

Lemma Qtrunc_min (x y : Q) : Qtrunc (Math_min x y) = Z.min (Qtrunc x) (Qtrunc y).
Proof.
  unfold Math_min. destruct (Qle_bool x y) eqn:E; autorewrite with qb in E.
  - pose proof (Qtrunc_mono x y E). lia.
  - pose proof (Qtrunc_mono y x ltac:(lra)). lia.
Qed.

Lemma Qtrunc_max (x y : Q) : Qtrunc (Math_max x y) = Z.max (Qtrunc x) (Qtrunc y).
Proof.
  unfold Math_max. destruct (Qle_bool y x) eqn:E; autorewrite with qb in E.
  - pose proof (Qtrunc_mono y x E). lia.
  - pose proof (Qtrunc_mono x y ltac:(lra)). lia.
Qed.

(** ToInt16 is the identity on the int16 range: the wrap-around of
    the store never fires there. *)
Lemma ToInt16_small (x : Q) :
  (-32768 <= Qtrunc x <= 32767)%Z -> ToInt16 x = Qtrunc x.
Proof.
  intros H. unfold ToInt16.
  destruct (Z_lt_le_dec (Qtrunc x) 0) as [N | P].
  - assert (Hm : (Qtrunc x mod 65536 = Qtrunc x + 65536)%Z)
      by (symmetry; apply Z.mod_unique with (-1)%Z; lia).
    rewrite Hm. destruct (32768 <=? Qtrunc x + 65536)%Z eqn:E;
      apply Z.leb_le in E || apply Z.leb_gt in E; lia.
  - rewrite Z.mod_small by lia.
    destruct (32768 <=? Qtrunc x)%Z eqn:E; apply Z.leb_le in E || apply Z.leb_gt in E; lia.
Qed.

Lemma ToInt16_range (x : Q) : (-32768 <= ToInt16 x <= 32767)%Z.
Proof.
  unfold ToInt16.
  pose proof (Z.mod_pos_bound (Qtrunc x) 65536 ltac:(lia)).
  destruct (32768 <=? Qtrunc x mod 65536)%Z eqn:E;
    apply Z.leb_le in E || apply Z.leb_gt in E; lia.
Qed.

(** The values an [Int16Array] store leaves are int16 values. *)
Lemma ToInt16_is_int16 (v : Q) : is_int16 (ToInt16 v).
Proof. apply ToInt16_range. Qed.

(** ** Math.min and Math.max *)

Lemma Math_min_le_r (x y : Q) : Math_min x y <= y.
Proof.
  unfold Math_min. destruct (Qle_bool x y) eqn:E.
  - apply Qle_bool_iff in E. assumption.
  - apply Qle_refl.
Qed.

Lemma Math_min_le_l (x y : Q) : Math_min x y <= x.
Proof.
  unfold Math_min. destruct (Qle_bool x y) eqn:E.
  - apply Qle_refl.
  - apply Qle_bool_false in E. apply Qlt_le_weak. assumption.
Qed.

Lemma Math_max_ge_l (x y : Q) : x <= Math_max x y.
Proof.
  unfold Math_max. destruct (Qle_bool y x) eqn:E.
  - apply Qle_refl.
  - apply Qle_bool_false in E. apply Qlt_le_weak. assumption.
Qed.

Lemma Math_max_ge_r (x y : Q) : y <= Math_max x y.
Proof.
  unfold Math_max. destruct (Qle_bool y x) eqn:E.
  - apply Qle_bool_iff in E. assumption.
  - apply Qle_refl.
Qed.

End JsLemmas.

#[export] Hint Resolve Math_min_le_r Math_min_le_l Math_max_ge_l Math_max_ge_r : core.
