(* ===== verification/Float32.v ===== *)
(** * Binary32 rounding: the store into a [Float32Array]

    Theory of [Js.round_f32], the rounding that the store
    [output[i] = ...] of line 103 of
    [src/lib/worklets/audio-processing.ts] applies to every resampled
    sample (and that the copies into the [Float32Array]s of lines 80-82
    and 109 leave unchanged, since their values already are binary32).
    The results: the exponent computed by [Qlog2_floor] is the binade of
    its argument; [round_half_even] stays within [1/2] and is monotone;
    hence [round_f32] is monotone and keeps every value between two
    binary32 bounds. *)

From Stdlib Require Import ZArith QArith Qround Qabs Qpower Lia Lqa Setoid Morphisms.
From S2P Require Import Prelude JsNumber.
Import Js.

Section Float32.

(** ** Powers of two *)

Lemma pow2_pos (k : Z) : 0 < 2 ^ k.
Proof. apply Qpower_0_lt. lra. Qed.

Lemma pow2_lt (k l : Z) : (k < l)%Z -> 2 ^ k < 2 ^ l.
Proof. intros H. apply Qpower_lt_compat_l; [assumption | lra]. Qed.

Lemma pow2_le (k l : Z) : (k <= l)%Z -> 2 ^ k <= 2 ^ l.
Proof. intros H. apply Qpower_le_compat_l; [assumption | lra]. Qed.

Lemma pow2_plus (k l : Z) : 2 ^ (k + l) == 2 ^ k * 2 ^ l.
Proof. apply Qpower_plus. lra. Qed.

Lemma pow2_Z (a : Z) : (0 <= a)%Z -> 2 ^ a == inject_Z (2 ^ a).
Proof. intros H. rewrite Zpower_Qpower by assumption. reflexivity. Qed.

Lemma pow2_minus (a b : Z) :
  (0 <= a)%Z -> (0 <= b)%Z -> 2 ^ (a - b) == inject_Z (2 ^ a) / inject_Z (2 ^ b).
Proof.
  intros Ha Hb. unfold Z.sub. rewrite pow2_plus, Qpower_opp, !pow2_Z by assumption.
  reflexivity.
Qed.

(** Comparison of two fractions of integers with positive
    denominators, by cross-multiplication. *)
Lemma Qdiv_lt_cross (a b c d : Z) :
  (0 < b)%Z -> (0 < d)%Z -> (a * d < c * b)%Z ->
  inject_Z a / inject_Z b < inject_Z c / inject_Z d.
Proof.
  intros Hb Hd H.
  assert (B : 0 < inject_Z b) by (change 0 with (inject_Z 0); apply inject_Z_lt; lia).
  assert (D : 0 < inject_Z d) by (change 0 with (inject_Z 0); apply inject_Z_lt; lia).
  apply Qlt_shift_div_r; [assumption|].
  setoid_replace (inject_Z c / inject_Z d * inject_Z b)
    with (inject_Z (c * b) / inject_Z d) by (rewrite inject_Z_mult; field; lra).
  apply Qlt_shift_div_l; [assumption|].
  rewrite <- inject_Z_mult. apply inject_Z_lt. assumption.
Qed.

(** ** The binade computed by [Qlog2_floor] *)

Lemma Qlog2_floor_spec (q : Q) :
  0 < q -> 2 ^ Qlog2_floor q <= q < 2 ^ (Qlog2_floor q + 1).
Proof.
  intros Hq. destruct q as [n d].
  assert (Hn : (0 < n)%Z) by (unfold Qlt in Hq; simpl in Hq; lia).
  pose proof (Z.log2_spec n Hn) as [N1 N2].
  pose proof (Z.log2_spec (Zpos d) eq_refl) as [D1 D2].
  pose proof (Z.log2_nonneg n). pose proof (Z.log2_nonneg (Zpos d)).
  set (a := Z.log2 n) in *. set (b := Z.log2 (Zpos d)) in *.
  assert (Eq : n # d == inject_Z n / inject_Z (Zpos d)) by apply Qmake_Qdiv.
  assert (Lo : 2 ^ (a - b - 1) < n # d).
  { replace (a - b - 1)%Z with (a - Z.succ b)%Z by lia.
    rewrite pow2_minus, Eq by lia. apply Qdiv_lt_cross; try lia.
    pose proof (Z.pow_pos_nonneg 2 (Z.succ b)). nia. }
  assert (Hi : n # d < 2 ^ (a - b + 1)).
  { replace (a - b + 1)%Z with (Z.succ a - b)%Z by lia.
    rewrite pow2_minus, Eq by lia. apply Qdiv_lt_cross; try lia.
    pose proof (Z.pow_pos_nonneg 2 b). nia. }
  unfold Qlog2_floor. cbn [Qnum Qden]. fold a b.
  case_qtest (Qle_bool (2 ^ (a - b)) (n # d)).
  - split; assumption.
  - replace (a - b - 1 + 1)%Z with (a - b)%Z by lia. split; [lra | assumption].
Qed.

Lemma Qlog2_floor_unique (q : Q) (e : Z) :
  2 ^ e <= q -> q < 2 ^ (e + 1) -> Qlog2_floor q = e.
Proof.
  intros H1 H2.
  assert (Hq : 0 < q) by (pose proof (pow2_pos e); lra).
  destruct (Qlog2_floor_spec q Hq) as [S1 S2].
  destruct (Z.lt_trichotomy (Qlog2_floor q) e) as [L | [E | L]]; [| exact E |].
  - pose proof (pow2_le (Qlog2_floor q + 1) e ltac:(lia)). lra.
  - pose proof (pow2_le (e + 1) (Qlog2_floor q) ltac:(lia)). lra.
Qed.

Lemma Qlog2_floor_compat (q q' : Q) : 0 < q -> q == q' -> Qlog2_floor q = Qlog2_floor q'.
Proof.
  intros Hq E. destruct (Qlog2_floor_spec q Hq) as [S1 S2].
  symmetry. apply Qlog2_floor_unique; rewrite <- E; assumption.
Qed.

Lemma Qlog2_floor_mono (x y : Q) : 0 < x -> x <= y -> (Qlog2_floor x <= Qlog2_floor y)%Z.
Proof.
  intros Hx H. destruct (Qlog2_floor_spec x Hx) as [X1 X2].
  destruct (Qlog2_floor_spec y ltac:(lra)) as [Y1 Y2].
  destruct (Z_le_gt_dec (Qlog2_floor x) (Qlog2_floor y)) as [L | L]; [exact L|].
  pose proof (pow2_le (Qlog2_floor y + 1) (Qlog2_floor x) ltac:(lia)). lra.
Qed.

End Float32.

Section RoundHalfEven.

(** ** Rounding to the nearest integer, ties to even *)

Lemma round_half_even_compat (m m' : Q) : m == m' -> round_half_even m = round_half_even m'.
Proof.
  intros H. unfold round_half_even. rewrite (Qfloor_comp m m' H).
  assert (D : m - inject_Z (Qfloor m') == m' - inject_Z (Qfloor m')) by (rewrite H; reflexivity).
  rewrite (Qltb_compat _ _ _ _ D (Qeq_refl (1 # 2))).
  rewrite (Qltb_compat _ _ _ _ (Qeq_refl (1 # 2)) D). reflexivity.
Qed.

Lemma round_half_even_bounds (m : Q) :
  m - (1 # 2) <= inject_Z (round_half_even m) <= m + (1 # 2).
Proof.
  pose proof (Qfloor_le m). pose proof (Qlt_floor m).
  unfold round_half_even.
  rewrite inject_Z_plus in *. change (inject_Z 1) with 1 in *.
  case_qtest (Qltb (m - inject_Z (Qfloor m)) (1 # 2)); [lra|].
  case_qtest (Qltb (1 # 2) (m - inject_Z (Qfloor m)));
    [| destruct (Z.even (Qfloor m))]; rewrite ?inject_Z_plus; change (inject_Z 1) with 1; lra.
Qed.

Lemma round_half_even_inject_Z (z : Z) : round_half_even (inject_Z z) = z.
Proof.
  unfold round_half_even. rewrite Qfloor_Z.
  case_qtest (Qltb (inject_Z z - inject_Z z) (1 # 2)); [reflexivity | lra].
Qed.

(** Two values in order round in order: the rounding of the larger one
    is at least the smaller one's, since both are within [1/2] and
    equal values round equally. *)
Lemma round_half_even_mono (m m' : Q) : m <= m' -> (round_half_even m <= round_half_even m')%Z.
Proof.
  intros H. destruct (Z_le_gt_dec (round_half_even m) (round_half_even m')) as [L | L]; [exact L|].
  pose proof (round_half_even_bounds m). pose proof (round_half_even_bounds m').
  assert (I : inject_Z (round_half_even m') + 1 <= inject_Z (round_half_even m)).
  { change 1 with (inject_Z 1). rewrite <- inject_Z_plus. apply inject_Z_le. lia. }
  assert (E : m == m') by lra. rewrite (round_half_even_compat m m' E) in L. lia.
Qed.

Lemma round_half_even_le_Z (m : Q) (z : Z) : m <= inject_Z z -> (round_half_even m <= z)%Z.
Proof.
  intros H. pose proof (round_half_even_mono _ _ H) as M.
  rewrite round_half_even_inject_Z in M. exact M.
Qed.

Lemma round_half_even_ge_Z (m : Q) (z : Z) : inject_Z z <= m -> (z <= round_half_even m)%Z.
Proof.
  intros H. pose proof (round_half_even_mono _ _ H) as M.
  rewrite round_half_even_inject_Z in M. exact M.
Qed.

End RoundHalfEven.

Section RoundF32.

(** ** The binary32 rounding *)

(** The rounding of a nonzero value, without the normalisation [Qred]
    that makes the result canonical. *)
Local Abbreviation rnd q :=
  (inject_Z (round_half_even (q * 2 ^ (- f32_ulp_exp q))) * 2 ^ f32_ulp_exp q).

Lemma round_f32_zero (x : Q) : x == 0 -> round_f32 x = 0.
Proof.
  intros H. unfold round_f32.
  assert (E : Qeq_bool (Qred x) 0 = true) by (apply Qeq_bool_iff; rewrite Qred_correct; exact H).
  rewrite E. reflexivity.
Qed.

Lemma round_f32_eq (x : Q) : ~ x == 0 -> round_f32 x == rnd (Qred x).
Proof.
  intros H. unfold round_f32.
  assert (E : Qeq_bool (Qred x) 0 = false) by (apply Qeq_bool_false; rewrite Qred_correct; exact H).
  rewrite E. apply Qred_correct.
Qed.

Lemma f32_ulp_exp_ge (q : Q) : (-149 <= f32_ulp_exp q)%Z.
Proof. unfold f32_ulp_exp. lia. Qed.

Lemma Qabs_pos_neq (q : Q) : ~ q == 0 -> 0 < Qabs q.
Proof.
  intros H. apply Qabs_case; intros; [| lra].
  destruct (Qlt_le_dec 0 q) as [L | L]; [exact L | exfalso; apply H; lra].
Qed.

(** A nonzero value scaled by its unit in the last place has fewer than
    24 integer bits, and exactly 24 when it is not subnormal. *)
Lemma scaled_bounds (q : Q) :
  ~ q == 0 ->
  Qabs (q * 2 ^ (- f32_ulp_exp q)) < 2 ^ 24 /\
  (f32_ulp_exp q <> (-149)%Z -> 2 ^ 23 <= Qabs (q * 2 ^ (- f32_ulp_exp q))).
Proof.
  intros Hq. pose proof (Qlog2_floor_spec (Qabs q) (Qabs_pos_neq q Hq)) as [L1 L2].
  assert (A : Qabs (q * 2 ^ (- f32_ulp_exp q)) == Qabs q * 2 ^ (- f32_ulp_exp q)).
  { rewrite Qabs_Qmult. rewrite (Qabs_pos (2 ^ _)) by (apply Qlt_le_weak, pow2_pos). reflexivity. }
  rewrite A. pose proof (pow2_pos (- f32_ulp_exp q)) as P.
  unfold f32_ulp_exp in *. set (l := Qlog2_floor (Qabs q)) in *. split.
  - apply Qlt_le_trans with (2 ^ (l + 1) * 2 ^ (- Z.max (l - 23) (-149))).
    + apply Qmult_lt_compat_r; assumption.
    + rewrite <- pow2_plus. apply pow2_le. lia.
  - intros N. replace (Z.max (l - 23) (-149)) with (l - 23)%Z in * by lia.
    setoid_replace (2 ^ 23) with (2 ^ l * 2 ^ (- (l - 23))) by (rewrite <- pow2_plus; f_equal; ring_simplify (l + - (l - 23))%Z; reflexivity).
    apply Qmult_le_compat_r; [assumption | lra].
Qed.

Lemma f32_ulp_exp_mono (x y : Q) :
  ~ x == 0 -> Qabs x <= Qabs y -> (f32_ulp_exp x <= f32_ulp_exp y)%Z.
Proof.
  intros Hx H. unfold f32_ulp_exp.
  pose proof (Qlog2_floor_mono _ _ (Qabs_pos_neq x Hx) H). lia.
Qed.

(** Rounding at a common exponent is monotone. *)
Lemma rnd_same_exp (x y : Q) :
  f32_ulp_exp x = f32_ulp_exp y -> x <= y -> rnd x <= rnd y.
Proof.
  intros E H. rewrite E. set (e := f32_ulp_exp y).
  pose proof (pow2_pos e). pose proof (pow2_pos (- e)).
  apply Qmult_le_compat_r; [| lra]. apply inject_Z_le, round_half_even_mono.
  apply Qmult_le_compat_r; lra.
Qed.

(** The rounding of a scaled value against the integer bounds of
    [scaled_bounds], as a bound on the rounded value. *)
Lemma rnd_le_pow (q : Q) (z : Z) (k : Z) :
  (0 <= k)%Z -> q * 2 ^ (- f32_ulp_exp q) <= inject_Z z * 2 ^ k ->
  rnd q <= inject_Z z * 2 ^ (k + f32_ulp_exp q).
Proof.
  intros Hk H. rewrite (pow2_Z k Hk), <- inject_Z_mult in H.
  pose proof (round_half_even_le_Z _ _ H) as R.
  rewrite pow2_plus, (pow2_Z k Hk), Qmult_assoc, <- inject_Z_mult.
  apply Qmult_le_compat_r; [apply inject_Z_le; exact R | apply Qlt_le_weak, pow2_pos].
Qed.

Lemma rnd_ge_pow (q : Q) (z : Z) (k : Z) :
  (0 <= k)%Z -> inject_Z z * 2 ^ k <= q * 2 ^ (- f32_ulp_exp q) ->
  inject_Z z * 2 ^ (k + f32_ulp_exp q) <= rnd q.
Proof.
  intros Hk H. rewrite (pow2_Z k Hk), <- inject_Z_mult in H.
  pose proof (round_half_even_ge_Z _ _ H) as R.
  rewrite pow2_plus, (pow2_Z k Hk), Qmult_assoc, <- inject_Z_mult.
  apply Qmult_le_compat_r; [apply inject_Z_le; exact R | apply Qlt_le_weak, pow2_pos].
Qed.

Lemma rnd_pos_mono (x y : Q) : 0 < x -> x <= y -> rnd x <= rnd y.
Proof.
  intros Hx H.
  assert (Nx : ~ x == 0) by lra. assert (Ny : ~ y == 0) by lra.
  pose proof (f32_ulp_exp_mono x y Nx ltac:(rewrite !Qabs_pos; lra)) as M.
  destruct (Z.eq_dec (f32_ulp_exp x) (f32_ulp_exp y)) as [E | E]; [apply rnd_same_exp; assumption|].
  destruct (scaled_bounds x Nx) as [Ux _]. destruct (scaled_bounds y Ny) as [_ Ly].
  pose proof (f32_ulp_exp_ge x). pose proof (pow2_pos (- f32_ulp_exp x)). pose proof (pow2_pos (- f32_ulp_exp y)).
  rewrite Qabs_pos in Ux, Ly by (apply Qmult_le_0_compat; lra).
  specialize (Ly ltac:(lia)).
  pose proof (rnd_le_pow x 1 24 ltac:(lia) ltac:(change (inject_Z 1) with 1; lra)) as A.
  pose proof (rnd_ge_pow y 1 23 ltac:(lia) ltac:(change (inject_Z 1) with 1; lra)) as B.
  pose proof (pow2_le (24 + f32_ulp_exp x) (23 + f32_ulp_exp y) ltac:(lia)).
  change (inject_Z 1) with 1 in A, B. lra.
Qed.

Lemma rnd_neg_mono (x y : Q) : y < 0 -> x <= y -> rnd x <= rnd y.
Proof.
  intros Hy H.
  assert (Nx : ~ x == 0) by lra. assert (Ny : ~ y == 0) by lra.
  pose proof (f32_ulp_exp_mono y x Ny ltac:(rewrite !Qabs_neg; lra)) as M.
  destruct (Z.eq_dec (f32_ulp_exp x) (f32_ulp_exp y)) as [E | E]; [apply rnd_same_exp; assumption|].
  destruct (scaled_bounds x Nx) as [_ Lx]. destruct (scaled_bounds y Ny) as [Uy _].
  pose proof (f32_ulp_exp_ge y). pose proof (pow2_pos (- f32_ulp_exp x)). pose proof (pow2_pos (- f32_ulp_exp y)).
  assert (Sx : x * 2 ^ (- f32_ulp_exp x) <= 0)
    by (pose proof (Qmult_le_compat_r x 0 (2 ^ (- f32_ulp_exp x)) ltac:(lra) ltac:(lra)); lra).
  assert (Sy : y * 2 ^ (- f32_ulp_exp y) <= 0)
    by (pose proof (Qmult_le_compat_r y 0 (2 ^ (- f32_ulp_exp y)) ltac:(lra) ltac:(lra)); lra).
  rewrite Qabs_neg in Lx, Uy by assumption.
  specialize (Lx ltac:(lia)).
  pose proof (rnd_le_pow x (-1) 23 ltac:(lia) ltac:(change (inject_Z (-1)) with (-1); lra)) as A.
  pose proof (rnd_ge_pow y (-1) 24 ltac:(lia) ltac:(change (inject_Z (-1)) with (-1); lra)) as B.
  pose proof (pow2_le (24 + f32_ulp_exp y) (23 + f32_ulp_exp x) ltac:(lia)).
  change (inject_Z (-1)) with (-1) in A, B. lra.
Qed.

Lemma rnd_nonneg (q : Q) : 0 <= q -> 0 <= rnd q.
Proof.
  intros H. pose proof (pow2_pos (f32_ulp_exp q)). pose proof (pow2_pos (- f32_ulp_exp q)).
  assert (R : (0 <= round_half_even (q * 2 ^ (- f32_ulp_exp q)))%Z)
    by (apply round_half_even_ge_Z; change (inject_Z 0) with 0; apply Qmult_le_0_compat; lra).
  apply Qmult_le_0_compat; [change 0 with (inject_Z 0); apply inject_Z_le; exact R | lra].
Qed.

Lemma rnd_nonpos (q : Q) : q <= 0 -> rnd q <= 0.
Proof.
  intros H. pose proof (pow2_pos (f32_ulp_exp q)). pose proof (pow2_pos (- f32_ulp_exp q)).
  assert (R : (round_half_even (q * 2 ^ (- f32_ulp_exp q)) <= 0)%Z).
  { apply round_half_even_le_Z. change (inject_Z 0) with 0.
    pose proof (Qmult_le_compat_r q 0 (2 ^ (- f32_ulp_exp q)) H ltac:(lra)). lra. }
  assert (I : inject_Z (round_half_even (q * 2 ^ (- f32_ulp_exp q))) <= 0)
    by (change 0 with (inject_Z 0); apply inject_Z_le; exact R).
  pose proof (Qmult_le_compat_r _ 0 (2 ^ f32_ulp_exp q) I ltac:(lra)). lra.
Qed.

(** The binary32 store is monotone. *)
Lemma round_f32_mono (x y : Q) : x <= y -> round_f32 x <= round_f32 y.
Proof.
  intros H. destruct (Qeq_dec x 0) as [Zx | Nx].
  - rewrite (round_f32_zero x Zx). destruct (Qeq_dec y 0) as [Zy | Ny].
    + rewrite (round_f32_zero y Zy). lra.
    + rewrite (round_f32_eq y Ny). apply rnd_nonneg. rewrite Qred_correct. lra.
  - rewrite (round_f32_eq x Nx). destruct (Qeq_dec y 0) as [Zy | Ny].
    + rewrite (round_f32_zero y Zy). apply rnd_nonpos. rewrite Qred_correct. lra.
    + rewrite (round_f32_eq y Ny).
      assert (L : Qred x <= Qred y) by (rewrite !Qred_correct; exact H).
      destruct (Qlt_le_dec 0 (Qred x)) as [P | P]; [apply rnd_pos_mono; assumption|].
      destruct (Qlt_le_dec (Qred y) 0) as [N | N]; [apply rnd_neg_mono; assumption|].
      apply Qle_trans with 0; [apply rnd_nonpos | apply rnd_nonneg]; assumption.
Qed.

(** Hence a value between two binary32 values is stored between them. *)
Lemma round_f32_between (lo hi x : Q) :
  is_f32 lo -> is_f32 hi -> lo <= x <= hi -> lo <= round_f32 x <= hi.
Proof.
  unfold is_f32. intros Hlo Hhi [A B].
  pose proof (round_f32_mono _ _ A). pose proof (round_f32_mono _ _ B).
  rewrite Hlo in *. rewrite Hhi in *. split; assumption.
Qed.

End RoundF32.
