(* ===== verification/Quantizer.v ===== *)
(** * Quantizer: float sample to 16-bit PCM

    Models line 129 of [src/lib/worklets/audio-processing.ts],
    [const int16Value = Math.max(-32768, Math.min(32767, resampled[i] * 32768));]
    and the conversion the store [this.buffer[...] = int16Value] into the
    [Int16Array] applies (line 130).  The theorems give its functional
    specification (saturating truncation toward zero, no wrap-around),
    its saturation and zero points, monotonicity, and the round trip with
    the usual PCM decoding [v / 32768]. *)

From Stdlib Require Import ZArith QArith Qround Lia Lqa Setoid Morphisms.
From S2P Require Import Prelude JsNumber.
Import Js.

Module Quantizer.

(** [int16Value] of line 129. *)
Definition int16Value (sample : Q) : Q :=
  Math_max (-32768) (Math_min 32767 (sample * 32768)).

(** The int16 that the [Int16Array] slot holds after the store. *)
Definition quantize (sample : Q) : Z := ToInt16 (int16Value sample).

Lemma Qtrunc_int16Value (s : Q) :
  Qtrunc (int16Value s) = Z.max (-32768) (Z.min 32767 (Qtrunc (s * 32768))).
Proof.
  unfold int16Value. rewrite Qtrunc_max, Qtrunc_min.
  change (-32768) with (inject_Z (-32768)). change 32767 with (inject_Z 32767).
  rewrite !Qtrunc_inject_Z. reflexivity.
Qed.

#[export] Instance quantize_proper : Proper (Qeq ==> eq) quantize.
Proof.
  intros x y H. unfold quantize, ToInt16. rewrite !Qtrunc_int16Value.
  rewrite (Qtrunc_compat (x * 32768) (y * 32768)) by (rewrite H; reflexivity).
  reflexivity.
Qed.

(** The clamp keeps the value in the int16 range, so the store does
    not wrap. *)
Lemma quantize_no_wrap (s : Q) : quantize s = Qtrunc (int16Value s).
Proof.
  unfold quantize. apply ToInt16_small. rewrite Qtrunc_int16Value. lia.
Qed.

(** ** Properties *)

(** C8: the stored PCM value is [s * 32768] truncated toward zero and
    saturated to [-32768, 32767]: the clamp runs before the store, so
    the modulo-2^16 wrap of the [Int16Array] store never fires. *)
Theorem quantize_spec (s : Q) :
  quantize s = Z.max (-32768) (Z.min 32767 (Qtrunc (s * 32768))).
Proof. rewrite quantize_no_wrap. apply Qtrunc_int16Value. Qed.

(** C16: the spec's quantization bounds: every sample at or above full
    scale [1.0] becomes [32767], every sample at or below [-1.0] becomes
    [-32768], and silence is stored as [0]. *)
Theorem quantize_bounds :
  (forall s, 1 <= s -> quantize s = 32767%Z) /\
  (forall s, s <= -1 -> quantize s = (-32768)%Z) /\
  quantize 0 = 0%Z.
Proof.
  split; [|split; [|reflexivity]]; intros s H; rewrite quantize_no_wrap, Qtrunc_int16Value.
  - assert (A : (32768 <= Qtrunc (s * 32768))%Z).
    { pose proof (Qtrunc_mono (inject_Z 32768) (s * 32768) ltac:(unfold inject_Z; lra)) as B.
      rewrite Qtrunc_inject_Z in B. exact B. }
    lia.
  - assert (A : (Qtrunc (s * 32768) <= -32768)%Z).
    { pose proof (Qtrunc_mono (s * 32768) (inject_Z (-32768)) ltac:(unfold inject_Z; lra)) as B.
      rewrite Qtrunc_inject_Z in B. exact B. }
    lia.
Qed.

(** C23: the quantizer is monotone: louder input never gives a smaller
    PCM value. *)
Theorem quantize_mono (s t : Q) : s <= t -> (quantize s <= quantize t)%Z.
Proof.
  intros H. rewrite !quantize_no_wrap, !Qtrunc_int16Value.
  assert (A : (Qtrunc (s * 32768) <= Qtrunc (t * 32768))%Z)
    by (apply Qtrunc_mono; lra).
  lia.
Qed.

(** C17: round trip with PCM decoding: every int16 [v], decoded to the
    float [v / 32768], is quantized back to [v]. *)
Theorem quantize_decode (v : Z) :
  (-32768 <= v <= 32767)%Z -> quantize (inject_Z v / 32768) = v.
Proof.
  intros H. rewrite quantize_no_wrap, Qtrunc_int16Value.
  rewrite (Qtrunc_compat _ (inject_Z v)) by (field; discriminate).
  rewrite Qtrunc_inject_Z. lia.
Qed.

(** ** Witnesses *)

Lemma quantize_mono_witness : 1 # 4 <= 1 # 2 /\ (quantize (1 # 4) <= quantize (1 # 2))%Z.
Proof. split; [lra | apply quantize_mono; lra]. Defined.

Lemma quantize_decode_witness :
  (-32768 <= -12345 <= 32767)%Z /\ quantize (inject_Z (-12345) / 32768) = (-12345)%Z.
Proof. split; [lia | apply quantize_decode; lia]. Defined.

End Quantizer.
