(* ===== verification/Resampler.v ===== *)
(** * Resampler: linear-interpolation sample-rate conversion

    Models the resampling state of [AudioProcessingWorklet]
    ([src/lib/worklets/audio-processing.ts]): the fields
    [_resampleRatio] and [_resampleBuffer] (lines 28-29), their set-up
    in the constructor (lines 35-40) and the method [resample]
    (lines 72-113), split the way the method is laid out.  Samples and
    the ratio are JS numbers, modelled as rationals; the outputs go
    through the [Float32Array] store of line 101, modelled by
    [Js.round_f32].

    Theorems: totality and the output length of every call, reads in
    bounds, the leftover being the unconsumed suffix of the stream and
    bounded by [ratio + 1] samples, exact block-splitting for integer
    ratios, the two boundary cases of a call (too few samples, and an
    exact number of strides, which keeps no leftover), and the error
    raised by a negative ratio. *)

From Stdlib Require Import List ZArith QArith Qround Lia Lqa Setoid Morphisms.
From S2P Require Import Prelude JsNumber.
Import ListNotations Js.

Module Resampler.

(** ** State and configuration *)

(** [_resampleRatio] and [_resampleBuffer]; [null] is [None]. *)
Record ResampleState := mkResampleState {
  resampleRatio : Q;
  resampleBuffer : option (list Q)
}.

(** [options.processorOptions]: sample rates that may be [undefined]. *)
Record ProcessorOptions := mkProcessorOptions {
  targetSampleRate : option Q;
  sourceSampleRate : option Q
}.

(** The [options] argument of the constructor. *)
Record NodeOptions := mkNodeOptions {
  processorOptions : option ProcessorOptions
}.

(** Lines 28-29 and 35-40. *)
Definition init_resample (options : option NodeOptions) : ResampleState :=
  let ratio :=
    match options with
    | Some o =>
        match processorOptions o with
        | Some po =>
            match sourceSampleRate po, targetSampleRate po with
            | Some source, Some target =>
                if truthy_num (Some source) && truthy_num (Some target)
                   && negb (Qeq_bool source target)
                then source / target else 1
            | _, _ => 1
            end
        | None => 1
        end
    | None => 1
    end in
  mkResampleState ratio None.

(** The samples held over, as a list ([null] holds none). *)
Definition pending (st : ResampleState) : list Q :=
  match resampleBuffer st with
  | Some l => l
  | None => []
  end.

(** ** The method [resample] *)

(** Lines 78-84: the leftover of the previous call goes first. *)
Definition prepend_leftover (st : ResampleState) (inputBuffer : list Q) : list Q :=
  match resampleBuffer st with
  | Some leftover => leftover ++ inputBuffer
  | None => inputBuffer
  end.

(** Line 86. *)
Definition output_length (ratio : Q) (n : nat) : Z :=
  Math_floor (Qnat n / ratio).

(** Lines 95-97: the two source positions read for output sample [i]
    of a buffer of [n] samples. *)
Definition interp_index (n : nat) (ratio : Q) (i : nat) : Z * Z :=
  let indexPrev := Math_floor (Qnat i * ratio) in
  (indexPrev, Z.min (indexPrev + 1) (Z.of_nat n - 1)).

(** Lines 95-103: output sample [i], stored in a [Float32Array].
    [nth] reads with a default; [interpolate_in_bounds] shows that the
    default is never used. *)
Definition interpolate (inputBuffer : list Q) (ratio : Q) (i : nat) : Q :=
  let inputIndex := Qnat i * ratio in
  let '(indexPrev, indexNext) := interp_index (length inputBuffer) ratio i in
  let fraction := inputIndex - inject_Z indexPrev in
  let prev := nth (Z.to_nat indexPrev) inputBuffer 0 in
  let next := nth (Z.to_nat indexNext) inputBuffer 0 in
  round_f32 (prev + (next - prev) * fraction).

(** Lines 107-110: the samples past [outputLength * ratio]. *)
Definition leftover_of (ratio : Q) (outputLength : Z) (inputBuffer : list Q)
  : option (list Q) :=
  let leftoverIndex := inject_Z outputLength * ratio in
  if Qltb leftoverIndex (Qnat (length inputBuffer))
  then Some (js_slice_from (Math_floor leftoverIndex) inputBuffer)
  else None.

(** Lines 72-113.  [new Float32Array(outputLength)] throws a
    [RangeError] for a negative length. *)
Definition resample (st : ResampleState) (input : list Q)
  : outcome (list Q * ResampleState) :=
  let ratio := resampleRatio st in
  if Qeq_bool ratio 1 then Ok (input, st)
  else
    let inputBuffer := prepend_leftover st input in
    let outputLength := output_length ratio (length inputBuffer) in
    if (outputLength =? 0)%Z then Ok ([], mkResampleState ratio (Some inputBuffer))
    else if (outputLength <? 0)%Z then Throw RangeError
    else Ok (map (interpolate inputBuffer ratio) (seq 0 (Z.to_nat outputLength)),
             mkResampleState ratio (leftover_of ratio outputLength inputBuffer)).

(** Successive calls on the blocks of a stream, outputs concatenated:
    what [process] does to the resampling state over many render
    quanta. *)
Fixpoint resample_blocks (st : ResampleState) (blocks : list (list Q))
  : outcome (list Q * ResampleState) :=
  match blocks with
  | [] => Ok ([], st)
  | b :: bs =>
      obind (resample st b) (fun '(o, st1) =>
      obind (resample_blocks st1 bs) (fun '(os, st2) =>
      Ok (o ++ os, st2)))
  end.

(** ** Basic facts *)

Lemma prepend_leftover_pending (st : ResampleState) (x : list Q) :
  prepend_leftover st x = pending st ++ x.
Proof. unfold prepend_leftover, pending. destruct (resampleBuffer st); reflexivity. Qed.

(** [outputLength] brackets the input: [m * r <= n < (m + 1) * r]. *)
Lemma output_length_bounds (r : Q) (n : nat) :
  0 < r ->
  (0 <= output_length r n)%Z /\
  inject_Z (output_length r n) * r <= Qnat n /\
  Qnat n < inject_Z (output_length r n + 1) * r.
Proof.
  intros Hr. unfold output_length, Math_floor.
  pose proof (Qfloor_div_bounds (Qnat n) r Hr) as [A B].
  split; [| split; assumption].
  apply Qfloor_nonneg. apply Qle_shift_div_l; [assumption|].
  rewrite Qmult_0_l. apply Qnat_nonneg.
Qed.

(** The number of input samples a call consumes:
    [floor (outputLength * ratio)]. *)
Definition consumed (r : Q) (n : nat) : nat :=
  Z.to_nat (Qfloor (inject_Z (output_length r n) * r)).

Lemma consumed_le (r : Q) (n : nat) : 0 < r -> (consumed r n <= n)%nat.
Proof.
  intros Hr. destruct (output_length_bounds r n Hr) as [A [B _]].
  unfold consumed.
  pose proof (Qfloor_resp_le _ _ B) as C. unfold Qnat in C. rewrite Qfloor_Z in C.
  lia.
Qed.

(** The stored leftover is the suffix of the combined input past the
    consumed samples ([null] stands for the empty suffix). *)
Lemma leftover_of_suffix (r : Q) (c : list Q) :
  0 < r ->
  match leftover_of r (output_length r (length c)) c with
  | Some l => l
  | None => []
  end = skipn (consumed r (length c)) c.
Proof.
  intros Hr. destruct (output_length_bounds r (length c) Hr) as [A [B _]].
  unfold leftover_of, consumed.
  set (m := output_length r (length c)) in *.
  assert (Hm : 0 <= inject_Z m * r)
    by (apply Qmult_le_0_compat; [change 0 with (inject_Z 0); apply inject_Z_le; exact A | lra]).
  case_qtest (Qltb (inject_Z m * r) (Qnat (length c))).
  - rewrite js_slice_from_nonneg by (apply Qfloor_nonneg; assumption). reflexivity.
  - assert (Eq : Qfloor (inject_Z m * r) = Z.of_nat (length c)).
    { apply Qfloor_unique; unfold Qnat in *; [lra|].
      rewrite inject_Z_plus. change (inject_Z 1) with 1. lra. }
    rewrite Eq, Nat2Z.id, skipn_all. reflexivity.
Qed.

(** The result of a call with a positive ratio other than [1]. *)
Lemma resample_shape (st : ResampleState) (x : list Q) :
  let r := resampleRatio st in
  let c := pending st ++ x in
  0 < r -> ~ r == 1 ->
  exists st',
    resample st x = Ok (map (interpolate c r) (seq 0 (Z.to_nat (output_length r (length c)))), st') /\
    resampleRatio st' = r /\
    pending st' = skipn (consumed r (length c)) c.
Proof.
  intros r c Hr H1. unfold resample. fold r.
  apply Qeq_bool_false in H1. rewrite H1. rewrite prepend_leftover_pending. fold c.
  destruct (output_length_bounds r (length c) Hr) as [A _].
  destruct (output_length r (length c) =? 0)%Z eqn:E0.
  - apply Z.eqb_eq in E0. eexists. split; [rewrite E0; reflexivity|]. split; [reflexivity|].
    unfold consumed. rewrite E0. reflexivity.
  - apply Z.eqb_neq in E0. destruct (output_length r (length c) <? 0)%Z eqn:E1;
      [apply Z.ltb_lt in E1; lia|].
    eexists. split; [reflexivity|]. split; [reflexivity|].
    apply leftover_of_suffix. assumption.
Qed.

(** The consumed count is the floor of the span [outputLength * ratio]
    the interpolation covers. *)
Lemma consumed_bounds (r : Q) (n : nat) :
  0 < r ->
  Qnat (consumed r n) <= inject_Z (output_length r n) * r < Qnat (consumed r n) + 1.
Proof.
  intros Hr. destruct (output_length_bounds r n Hr) as [A _].
  assert (Hm : 0 <= inject_Z (output_length r n) * r)
    by (apply Qmult_le_0_compat; [change 0 with (inject_Z 0); apply inject_Z_le; exact A | lra]).
  unfold consumed, Qnat. rewrite Z2Nat.id by (apply Qfloor_nonneg; assumption).
  split; [apply Qfloor_le|].
  pose proof (Qlt_floor (inject_Z (output_length r n) * r)) as B.
  rewrite inject_Z_plus in B. exact B.
Qed.

(** With a positive ratio a call succeeds and keeps the ratio. *)
Lemma resample_ok (st : ResampleState) (x : list Q) :
  0 < resampleRatio st ->
  exists out st', resample st x = Ok (out, st') /\ resampleRatio st' = resampleRatio st.
Proof.
  intros Hr. destruct (Qeq_dec (resampleRatio st) 1) as [E | E].
  - exists x, st. unfold resample. apply Qeq_bool_iff in E. rewrite E. split; reflexivity.
  - destruct (resample_shape st x Hr E) as (st' & R & Hr' & _). eauto.
Qed.

Lemma resample_ratio_kept (st st' : ResampleState) (x out : list Q) :
  resample st x = Ok (out, st') -> resampleRatio st' = resampleRatio st.
Proof.
  intros R. unfold resample in R.
  destruct (Qeq_bool _ 1); [injection R as _ <-; reflexivity|].
  destruct (_ =? 0)%Z; [injection R as _ <-; reflexivity|].
  destruct (_ <? 0)%Z; [discriminate | injection R as _ <-; reflexivity].
Qed.

(** The two positions read for an output sample [i < outputLength]
    are within the combined buffer, and [indexNext] is [indexPrev] or
    the position after it. *)
Lemma interp_index_bounds (c : list Q) (r : Q) (i : nat) :
  0 < r -> (i < Z.to_nat (output_length r (length c)))%nat ->
  (0 <= fst (interp_index (length c) r i) <= snd (interp_index (length c) r i))%Z /\
  (snd (interp_index (length c) r i) <= fst (interp_index (length c) r i) + 1)%Z /\
  (snd (interp_index (length c) r i) < Z.of_nat (length c))%Z.
Proof.
  intros Hr Hi. destruct (output_length_bounds r (length c) Hr) as [A [B _]].
  set (m := output_length r (length c)) in *.
  assert (Lt : Qnat i * r < inject_Z m * r).
  { apply Qmult_lt_compat_r; [assumption|]. unfold Qnat. apply inject_Z_lt. lia. }
  assert (P : (0 <= Qfloor (Qnat i * r))%Z)
    by (apply Qfloor_nonneg; apply Qmult_le_0_compat; [apply Qnat_nonneg | lra]).
  assert (U : (Qfloor (Qnat i * r) < Z.of_nat (length c))%Z).
  { apply inject_Z_lt. pose proof (Qfloor_le (Qnat i * r)). unfold Qnat in B. lra. }
  unfold interp_index, Math_floor. cbn [fst snd]. lia.
Qed.

(** The interpolation weight [inputIndex - indexPrev] is in [[0, 1)]. *)
Lemma interp_fraction_bounds (n : nat) (r : Q) (i : nat) :
  0 <= Qnat i * r - inject_Z (fst (interp_index n r i)) < 1.
Proof.
  unfold interp_index, Math_floor. cbn [fst].
  pose proof (Qfloor_le (Qnat i * r)). pose proof (Qlt_floor (Qnat i * r)).
  rewrite inject_Z_plus in *. change (inject_Z 1) with 1 in *. lra.
Qed.

(** ** Properties of [resample] *)

(** C12: with a positive ratio the call never throws, and it returns
    exactly [floor (n / ratio)] samples for the [n] samples of the
    leftover followed by the block (the identity when the ratio is 1). *)
Theorem resample_total (st : ResampleState) (x : list Q) :
  0 < resampleRatio st ->
  exists out st',
    resample st x = Ok (out, st') /\ resampleRatio st' = resampleRatio st /\
    (~ resampleRatio st == 1 ->
     length out = Z.to_nat (output_length (resampleRatio st) (length (pending st ++ x)))).
Proof.
  intros Hr. destruct (Qeq_dec (resampleRatio st) 1) as [E | E].
  - exists x, st. unfold resample. apply Qeq_bool_iff in E. rewrite E.
    split; [reflexivity|]. split; [reflexivity|]. intros N. apply Qeq_bool_iff in E. contradiction.
  - destruct (resample_shape st x Hr E) as (st' & R & Hr' & _).
    eexists _, st'. split; [exact R|]. split; [exact Hr'|].
    intros _. autorewrite with lens. reflexivity.
Qed.

(** C10: every read of the interpolation loop is within the combined
    buffer: for an output index below [outputLength] both
    [inputBuffer[indexPrev]] and [inputBuffer[indexNext]] exist, and the
    output sample is the binary32 rounding of their linear interpolation
    at the weight [inputIndex - indexPrev]. *)
Theorem interpolate_in_bounds (c : list Q) (r : Q) (i : nat) :
  0 < r -> (i < Z.to_nat (output_length r (length c)))%nat ->
  exists prev next,
    nth_error c (Z.to_nat (fst (interp_index (length c) r i))) = Some prev /\
    nth_error c (Z.to_nat (snd (interp_index (length c) r i))) = Some next /\
    interpolate c r i =
      round_f32 (prev + (next - prev) * (Qnat i * r - inject_Z (fst (interp_index (length c) r i)))).
Proof.
  intros Hr Hi. destruct (interp_index_bounds c r i Hr Hi) as (A & _ & B).
  unfold interpolate. destruct (interp_index (length c) r i) as [p n]. cbn [fst snd] in *.
  destruct (nth_error c (Z.to_nat p)) as [a|] eqn:Ea;
    [| apply nth_error_None in Ea; lia].
  destruct (nth_error c (Z.to_nat n)) as [b|] eqn:Eb;
    [| apply nth_error_None in Eb; lia].
  exists a, b. split; [reflexivity|]. split; [reflexivity|].
  rewrite (nth_error_nth c (Z.to_nat p) 0 Ea), (nth_error_nth c (Z.to_nat n) 0 Eb).
  reflexivity.
Qed.

(** C2: leftover conservation.  The consumed prefix followed by the
    new leftover is exactly the old leftover followed by the block: no
    sample is dropped or duplicated, and the number consumed is the
    floor of the span the outputs cover. *)
Theorem resample_conservation (st st' : ResampleState) (x out : list Q) :
  0 < resampleRatio st -> ~ resampleRatio st == 1 ->
  resample st x = Ok (out, st') ->
  let c := pending st ++ x in
  let k := consumed (resampleRatio st) (length c) in
  firstn k c ++ pending st' = c /\
  Qnat k <= inject_Z (Z.of_nat (length out)) * resampleRatio st < Qnat k + 1.
Proof.
  intros Hr H1 R c k.
  destruct (resample_shape st x Hr H1) as (st'' & R' & _ & P).
  rewrite R in R'. injection R' as Eo Es. subst out st'. fold c in P |- *.
  split; [rewrite P; apply firstn_skipn|].
  autorewrite with lens.
  destruct (output_length_bounds (resampleRatio st) (length c) Hr) as [A _].
  rewrite Z2Nat.id by assumption. apply consumed_bounds. assumption.
Qed.

(** C13: bounded memory.  After any call the leftover holds fewer than
    [ratio + 1] samples, whatever it held before. *)
Theorem resample_leftover_bound (st st' : ResampleState) (x out : list Q) :
  0 < resampleRatio st -> ~ resampleRatio st == 1 ->
  resample st x = Ok (out, st') ->
  Qnat (length (pending st')) < resampleRatio st + 1.
Proof.
  intros Hr H1 R.
  destruct (resample_shape st x Hr H1) as (st'' & R' & _ & P).
  rewrite R in R'. injection R' as Eo Es. subst out st'. rewrite P, length_skipn.
  set (c := pending st ++ x).
  pose proof (consumed_bounds (resampleRatio st) (length c) Hr) as [B1 B2].
  pose proof (consumed_le (resampleRatio st) (length c) Hr) as L.
  destruct (output_length_bounds (resampleRatio st) (length c) Hr) as [_ [_ C]].
  unfold Qnat in *. rewrite Nat2Z.inj_sub by assumption. rewrite inject_Z_minus.
  rewrite inject_Z_plus in C. change (inject_Z 1) with 1 in C.
  lra.
Qed.

(** A negative ratio makes every call on a non-empty buffer throw the
    [RangeError] of [new Float32Array(outputLength)]. *)
Theorem resample_negative_ratio_throws (st : ResampleState) (x : list Q) :
  resampleRatio st < 0 -> pending st ++ x <> [] ->
  resample st x = Throw RangeError.
Proof.
  intros Hr Hne. unfold resample.
  destruct (Qeq_bool (resampleRatio st) 1) eqn:E;
    [apply Qeq_bool_iff in E; rewrite E in Hr; discriminate|].
  rewrite prepend_leftover_pending.
  assert (Hn : 0 < Qnat (length (pending st ++ x))).
  { unfold Qnat. change 0 with (inject_Z 0). apply inject_Z_lt.
    destruct (pending st ++ x); [contradiction | simpl; lia]. }
  pose proof (Qdiv_pos_neg _ _ Hn Hr) as D.
  assert (M : (output_length (resampleRatio st) (length (pending st ++ x)) < 0)%Z).
  { unfold output_length, Math_floor. apply inject_Z_lt. pose proof (Qfloor_le (Qnat (length (pending st ++ x)) / resampleRatio st)).
    change (inject_Z 0) with 0. lra. }
  destruct (_ =? 0)%Z eqn:E0; [apply Z.eqb_eq in E0; lia|].
  destruct (_ <? 0)%Z eqn:E1; [reflexivity | apply Z.ltb_ge in E1; lia].
Qed.

(** ** Independence from the ratio's representation

    The method depends on the ratio's value only: it is a morphism for
    [Qeq], which lets the constructor's [source / target] be replaced
    by any equal rational. *)

Lemma output_length_compat (r r' : Q) (n : nat) :
  r == r' -> output_length r n = output_length r' n.
Proof. intros H. unfold output_length, Math_floor. apply Qfloor_comp. rewrite H. reflexivity. Qed.

Lemma consumed_compat (r r' : Q) (n : nat) :
  r == r' -> consumed r n = consumed r' n.
Proof.
  intros H. unfold consumed. rewrite (output_length_compat r r' n H).
  f_equal. apply Qfloor_comp. rewrite H. reflexivity.
Qed.

Lemma interpolate_compat (c : list Q) (r r' : Q) (i : nat) :
  r == r' -> interpolate c r i = interpolate c r' i.
Proof.
  intros H. unfold interpolate, interp_index, Math_floor. cbv zeta.
  assert (F : Qfloor (Qnat i * r) = Qfloor (Qnat i * r')) by (apply Qfloor_comp; rewrite H; reflexivity).
  rewrite F. apply round_f32_compat. rewrite H. reflexivity.
Qed.

#[export] Instance output_length_proper : Proper (Qeq ==> eq ==> eq) output_length.
Proof. intros r r' H n n' <-. apply output_length_compat. exact H. Qed.

#[export] Instance interpolate_proper (c : list Q) : Proper (Qeq ==> eq ==> eq) (interpolate c).
Proof. intros r r' H i i' <-. apply interpolate_compat. exact H. Qed.

(** ** Integer ratios

    When the source rate is an integer multiple [k] of the target rate
    (48 kHz to 16 kHz: [k = 3]), every interpolation position is an
    integer, and the reference behaviour is plain decimation. *)

(** Reference: every [k]-th sample, as many as fit in the buffer. *)
Definition decimate (k : nat) (c : list Q) : list Q :=
  map (fun i => nth (i * k) c 0) (seq 0 (length c / k)).

Lemma decimate_app_mult (k q : nat) (a b : list Q) :
  k <> 0%nat -> length a = (k * q)%nat ->
  decimate k (a ++ b) = decimate k a ++ decimate k b.
Proof.
  intros Hk Ha. unfold decimate. rewrite length_app, Ha.
  rewrite (Nat.mul_comm k q), Nat.div_add_l, Nat.div_mul by assumption.
  rewrite seq_app, map_app. f_equal.
  - apply map_ext_in. intros i Hi. apply in_seq in Hi.
    apply app_nth1. rewrite Ha. nia.
  - rewrite map_seq_offset. apply map_ext. intros j.
    rewrite app_nth2 by nia. f_equal. nia.
Qed.

Lemma decimate_short (k : nat) (c : list Q) :
  (length c < k)%nat -> decimate k c = [].
Proof. intros H. unfold decimate. rewrite Nat.div_small by assumption. reflexivity. Qed.

(** Splitting a buffer after its last whole stride. *)
Lemma decimate_split (k : nat) (c y : list Q) :
  k <> 0%nat ->
  let c2 := skipn (k * (length c / k)) c ++ y in
  decimate k (c ++ y) = decimate k c ++ decimate k c2 /\
  skipn (k * (length (c ++ y) / k)) (c ++ y) = skipn (k * (length c2 / k)) c2.
Proof.
  intros Hk c2.
  set (q := (length c / k)%nat).
  pose proof (Nat.div_mod_eq (length c) k) as D. pose proof (Nat.mod_upper_bound (length c) k Hk) as M.
  set (a := firstn (k * q) c). set (r := skipn (k * q) c).
  assert (Ha : length a = (k * q)%nat) by (unfold a; rewrite length_firstn; lia).
  assert (Hc : c = a ++ r) by (symmetry; apply firstn_skipn).
  assert (E1 : c ++ y = a ++ (r ++ y)) by (rewrite Hc at 1; symmetry; apply app_assoc).
  assert (E2 : decimate k c = decimate k a).
  { rewrite Hc at 1. rewrite (decimate_app_mult k q) by assumption.
    rewrite (decimate_short k r), app_nil_r by (unfold r; rewrite length_skipn; lia).
    reflexivity. }
  unfold c2. fold q. fold r. split.
  - rewrite E1, (decimate_app_mult k q), E2 by assumption. reflexivity.
  - rewrite E1, length_app, Ha, (Nat.mul_comm k q), Nat.div_add_l by assumption.
    replace (k * (q + length (r ++ y) / k))%nat with (length a + k * (length (r ++ y) / k))%nat
      by (rewrite Ha; lia).
    apply skipn_app_plus.
Qed.

Lemma Qnat_gt1 (k : nat) : (2 <= k)%nat -> 0 < Qnat k /\ ~ Qnat k == 1.
Proof.
  intros Hk. unfold Qnat. split.
  - change 0 with (inject_Z 0). apply inject_Z_lt. lia.
  - change 1 with (inject_Z 1). rewrite inject_Z_injective. lia.
Qed.

Lemma output_length_int (k n : nat) :
  (0 < k)%nat -> output_length (Qnat k) n = Z.of_nat (n / k).
Proof.
  intros Hk. unfold output_length, Math_floor, Qnat.
  rewrite Nat2Z.inj_div, Zdiv_Qdiv. reflexivity.
Qed.

Lemma consumed_int (k n : nat) :
  (0 < k)%nat -> consumed (Qnat k) n = (k * (n / k))%nat.
Proof.
  intros Hk. unfold consumed. rewrite output_length_int by assumption.
  unfold Qnat. rewrite <- inject_Z_mult, Qfloor_Z, <- Nat2Z.inj_mul, Nat2Z.id. lia.
Qed.

(** At an integer position the interpolation reads one sample, and the
    [Float32Array] store keeps it when it is a binary32 value. *)
Lemma interpolate_int (k i : nat) (c : list Q) :
  is_f32 (nth (i * k) c 0) ->
  interpolate c (Qnat k) i = nth (i * k) c 0.
Proof.
  intros Hf. unfold interpolate, interp_index, Math_floor. cbv zeta.
  assert (E : Qnat i * Qnat k = inject_Z (Z.of_nat (i * k))).
  { unfold Qnat. rewrite Nat2Z.inj_mul, inject_Z_mult. reflexivity. }
  rewrite E, Qfloor_Z, Nat2Z.id.
  transitivity (round_f32 (nth (i * k) c 0)); [apply round_f32_compat; ring | exact Hf].
Qed.

(** for an integer ratio [k >= 2] and binary32 samples, a call
    outputs exactly every [k]-th sample of the leftover followed by the
    block, and keeps the samples after the last whole stride. *)
Theorem resample_integer_ratio (st : ResampleState) (x : list Q) (k : nat) :
  (2 <= k)%nat -> resampleRatio st == Qnat k -> Forall is_f32 (pending st ++ x) ->
  exists st',
    resample st x = Ok (decimate k (pending st ++ x), st') /\
    resampleRatio st' = resampleRatio st /\
    pending st' = skipn (k * (length (pending st ++ x) / k)) (pending st ++ x).
Proof.
  intros Hk Hr Hf. destruct (Qnat_gt1 k Hk) as [Hpos H1]. rewrite <- Hr in Hpos, H1.
  destruct (resample_shape st x Hpos H1) as (st' & R & Hr' & P).
  exists st'. rewrite (consumed_compat _ _ _ Hr), consumed_int in P by lia.
  split; [|split; assumption]. rewrite R. do 2 f_equal.
  rewrite (output_length_compat _ _ _ Hr), output_length_int, Nat2Z.id by lia. unfold decimate.
  apply map_ext_in. intros i Hi. apply in_seq in Hi.
  rewrite (interpolate_compat _ _ _ _ Hr). apply interpolate_int.
  apply Forall_nth; [exact Hf|].
  pose proof (Nat.Div0.mul_div_le (length (pending st ++ x)) k). nia.
Qed.


Lemma pending_int_short (k : nat) (c : list Q) :
  k <> 0%nat -> (length (skipn (k * (length c / k)) c) < k)%nat.
Proof.
  intros Hk. rewrite length_skipn.
  pose proof (Nat.div_mod_eq (length c) k). pose proof (Nat.mod_upper_bound (length c) k Hk). lia.
Qed.

(** Many calls with an integer ratio decimate the whole stream. *)
Lemma resample_blocks_decimate (st : ResampleState) (bs : list (list Q)) (k : nat) :
  (2 <= k)%nat -> resampleRatio st == Qnat k -> (length (pending st) < k)%nat ->
  Forall is_f32 (pending st ++ concat bs) ->
  exists s, resample_blocks st bs = Ok (decimate k (pending st ++ concat bs), s) /\
    resampleRatio s = resampleRatio st /\
    pending s = skipn (k * (length (pending st ++ concat bs) / k)) (pending st ++ concat bs).
Proof.
  intros Hk. revert st. induction bs as [|b bs IH]; intros st Hr Hp Hf.
  - exists st. simpl. rewrite app_nil_r, decimate_short, Nat.div_small, Nat.mul_0_r by assumption.
    split; [reflexivity|]. split; reflexivity.
  - simpl concat in Hf |- *. rewrite app_assoc in Hf |- *.
    pose proof Hf as Hf1. apply Forall_app in Hf1 as [Hf1 Hy].
    destruct (resample_integer_ratio st b k Hk Hr Hf1) as (s1 & R1 & Hr1 & P1).
    assert (Hf2 : Forall is_f32 (pending s1 ++ concat bs))
      by (rewrite P1; apply Forall_app; split; [apply Forall_skipn_l|]; assumption).
    destruct (IH s1 ltac:(rewrite Hr1; exact Hr) ltac:(rewrite P1; apply pending_int_short; lia) Hf2)
      as (s2 & RB & Hr2 & P2).
    destruct (decimate_split k (pending st ++ b) (concat bs) ltac:(lia)) as [D S].
    exists s2. simpl. rewrite R1. simpl. rewrite RB. simpl.
    split; [rewrite D, <- P1; reflexivity|]. split; [congruence|].
    rewrite P2, P1, S. reflexivity.
Qed.

(** C3: leftover conservation across a whole stream, for integer
    ratios: running the blocks one call at a time gives exactly the
    output and the leftover of a single call on their concatenation
    (from a leftover shorter than one stride, e.g. the initial one). *)
Theorem resample_blocks_integer (st : ResampleState) (bs : list (list Q)) (k : nat) :
  (2 <= k)%nat -> resampleRatio st == Qnat k -> (length (pending st) < k)%nat ->
  Forall is_f32 (pending st ++ concat bs) ->
  exists o s s',
    resample_blocks st bs = Ok (o, s) /\ resample st (concat bs) = Ok (o, s') /\
    resampleRatio s = resampleRatio s' /\ pending s = pending s'.
Proof.
  intros Hk Hr Hp Hf.
  destruct (resample_blocks_decimate st bs k Hk Hr Hp Hf) as (s & RB & Hrs & Ps).
  destruct (resample_integer_ratio st (concat bs) k Hk Hr Hf) as (s' & R & Hrs' & Ps').
  exists (decimate k (pending st ++ concat bs)), s, s'.
  split; [exact RB|]. split; [exact R|]. split; congruence.
Qed.


(** ** The constructor *)

(** Options carrying both sample rates. *)
Definition rate_options (source target : Q) : option NodeOptions :=
  Some (mkNodeOptions (Some (mkProcessorOptions (Some target) (Some source)))).

Lemma init_resample_rates (source target : Q) :
  resampleRatio (init_resample (rate_options source target)) =
  if negb (Qeq_bool source 0) && negb (Qeq_bool target 0) && negb (Qeq_bool source target)
  then source / target else 1.
Proof. reflexivity. Qed.

Lemma init_ratio_pos (source target : Q) :
  0 < source -> 0 < target -> 0 < resampleRatio (init_resample (rate_options source target)).
Proof.
  intros Hs Ht. rewrite init_resample_rates.
  destruct (_ && _ && _); [|reflexivity]. apply Qlt_shift_div_l; [assumption|]. lra.
Qed.

Lemma init_resample_unity (source target : Q) :
  source == target -> resampleRatio (init_resample (rate_options source target)) = 1.
Proof.
  intros E. rewrite init_resample_rates. apply Qeq_bool_iff in E. rewrite E.
  rewrite Bool.andb_false_r. reflexivity.
Qed.

(** C27: the constructor: positive rates give a positive ratio, the
    precondition of [resample_total]; equal rates give ratio [1], the
    pass-through; different positive rates give [source / target]; no
    samples are held at the start. *)
Theorem init_resample_positive (source target : Q) :
  0 < source -> 0 < target ->
  0 < resampleRatio (init_resample (rate_options source target)) /\
  (source == target -> resampleRatio (init_resample (rate_options source target)) = 1) /\
  (~ source == target -> resampleRatio (init_resample (rate_options source target)) = source / target) /\
  resampleBuffer (init_resample (rate_options source target)) = None.
Proof.
  intros Hs Ht. split; [apply init_ratio_pos; assumption|].
  split; [apply init_resample_unity|]. split; [|reflexivity].
  intros N. rewrite init_resample_rates.
  destruct (Qeq_bool source 0) eqn:E1; [apply Qeq_bool_iff in E1; lra|].
  destruct (Qeq_bool target 0) eqn:E2; [apply Qeq_bool_iff in E2; lra|].
  apply Qeq_bool_false in N. rewrite N. reflexivity.
Qed.

(** Ratio [1] makes every call return its block unchanged. *)
Lemma resample_blocks_unity (st : ResampleState) (bs : list (list Q)) :
  resampleRatio st == 1 -> resample_blocks st bs = Ok (concat bs, st).
Proof.
  intros H1. apply Qeq_bool_iff in H1.
  induction bs as [|b bs IH]; [reflexivity|].
  simpl. unfold resample at 1. rewrite H1. simpl. rewrite IH. reflexivity.
Qed.

(** pass-through.  When the source and target rates are equal,
    a whole stream of blocks comes out unchanged, with no rounding and
    no state. *)
Theorem resample_passthrough (rate : Q) (bs : list (list Q)) :
  resample_blocks (init_resample (rate_options rate rate)) bs =
  Ok (concat bs, init_resample (rate_options rate rate)).
Proof.
  apply resample_blocks_unity. rewrite init_resample_unity; reflexivity.
Qed.

(** The constructor accepts rates of opposite signs, which the spec
    classes as a configuration error to reject at construction; the
    first non-empty block then throws a [RangeError] inside the audio
    callback ([Host.negative_rate_silences_node] follows it through the
    host). *)
Theorem negative_rate_accepted_then_throws (source target : Q) (x : list Q) :
  source < 0 -> 0 < target -> x <> [] ->
  resampleRatio (init_resample (rate_options source target)) < 0 /\
  resample (init_resample (rate_options source target)) x = Throw RangeError.
Proof.
  intros Hs Ht Hx.
  assert (N : resampleRatio (init_resample (rate_options source target)) < 0).
  { rewrite init_resample_rates.
    destruct (Qeq_bool source 0) eqn:E1; [apply Qeq_bool_iff in E1; lra|].
    destruct (Qeq_bool target 0) eqn:E2; [apply Qeq_bool_iff in E2; lra|].
    destruct (Qeq_bool source target) eqn:E3; [apply Qeq_bool_iff in E3; lra|].
    simpl. assert (0 < - source / target) by (apply Qlt_shift_div_l; lra).
    assert (E : - source / target == - (source / target)) by (field; lra). lra. }
  split; [exact N|]. apply resample_negative_ratio_throws; [exact N|]. exact Hx.
Qed.

(** ** Concrete behaviour *)

(** The configuration of a 44.1 kHz capture for a 16 kHz service. *)
Definition options_44100_16000 : option NodeOptions :=
  Some (mkNodeOptions (Some (mkProcessorOptions (Some 16000) (Some 44100)))).

(** C25: the two boundary cases of a call, in general.  When the
    leftover and the block together are shorter than one stride, the
    call returns nothing and holds all of them over: the spec's
    "undersized block" scenario, for every ratio and block.  When they
    fill a whole number [m >= 1] of strides of an integer ratio [k], the
    call returns [m] samples and holds nothing over, since
    [outputLength * ratio] equals the length (line 108): the spec's
    "downsample by 2" scenario, which expects the last sample to be
    held over, does not hold for any such block. *)
Theorem resample_boundaries (st : ResampleState) (x : list Q) :
  0 < resampleRatio st -> ~ resampleRatio st == 1 ->
  (Qnat (length (pending st ++ x)) < resampleRatio st ->
     resample st x = Ok ([], mkResampleState (resampleRatio st) (Some (pending st ++ x)))) /\
  (forall k m, resampleRatio st == Qnat k -> (1 <= m)%nat -> length (pending st ++ x) = (m * k)%nat ->
     exists o, resample st x = Ok (o, mkResampleState (resampleRatio st) None) /\ length o = m).
Proof.
  intros Hr H1. unfold resample. apply Qeq_bool_false in H1. rewrite H1, prepend_leftover_pending.
  set (r := resampleRatio st) in *. set (c := pending st ++ x) in *. split.
  - intros Hn. assert (E : output_length r (length c) = 0%Z).
    { unfold output_length, Math_floor. apply Qfloor_unique.
      - apply Qle_shift_div_l; [exact Hr|]. rewrite Qmult_0_l. apply Qnat_nonneg.
      - apply Qlt_shift_div_r; [exact Hr|]. change (inject_Z (0 + 1)) with 1. lra. }
    rewrite E. reflexivity.
  - intros k m Hk Hm Hc.
    assert (K : (k <> 0)%nat) by (intros ->; change (Qnat 0) with 0 in Hk; lra).
    assert (E : output_length r (length c) = Z.of_nat m).
    { rewrite (output_length_compat _ _ _ Hk), output_length_int, Hc, Nat.div_mul by lia.
      reflexivity. }
    rewrite E. replace (Z.of_nat m =? 0)%Z with false by lia. replace (Z.of_nat m <? 0)%Z with false by lia.
    assert (L : leftover_of r (Z.of_nat m) c = None).
    { unfold leftover_of. replace (Qltb (inject_Z (Z.of_nat m) * r) (Qnat (length c))) with false; [reflexivity|].
      symmetry. apply Qltb_false. rewrite Hc, Hk. unfold Qnat. rewrite Nat2Z.inj_mul, inject_Z_mult. lra. }
    rewrite L. eexists. split; [reflexivity|]. rewrite length_map, length_seq. lia.
Qed.

(** ** Witnesses *)

(** A 44.1 kHz to 16 kHz call on five samples: one output, three held. *)
Lemma resample_five_44100 :
  resample (mkResampleState (441 # 160) None) [0; 0; 0; 0; 0] =
  Ok ([0], mkResampleState (441 # 160) (Some [0; 0; 0])).
Proof. vm_compute. reflexivity. Qed.

Lemma resample_conservation_witness :
  (0 < 441 # 160 /\ ~ (441 # 160) == 1) /\
  firstn (consumed (441 # 160) 5) ([] ++ [0; 0; 0; 0; 0]) ++ [0; 0; 0] = [] ++ [0; 0; 0; 0; 0] /\
  Qnat (consumed (441 # 160) 5) <= inject_Z (Z.of_nat 1) * (441 # 160) < Qnat (consumed (441 # 160) 5) + 1.
Proof.
  split; [split; [lra | intros E; vm_compute in E; discriminate] |].
  exact (resample_conservation (mkResampleState (441 # 160) None) (mkResampleState (441 # 160) (Some [0; 0; 0]))
           [0; 0; 0; 0; 0] [0] ltac:(simpl; lra) ltac:(simpl; intros E; vm_compute in E; discriminate)
           resample_five_44100).
Defined.

Lemma resample_leftover_bound_witness :
  0 < 441 # 160 /\ Qnat 3 < (441 # 160) + 1.
Proof.
  split; [lra|].
  exact (resample_leftover_bound (mkResampleState (441 # 160) None) (mkResampleState (441 # 160) (Some [0; 0; 0]))
           [0; 0; 0; 0; 0] [0] ltac:(simpl; lra) ltac:(simpl; intros E; vm_compute in E; discriminate)
           resample_five_44100).
Defined.

Lemma resample_total_witness :
  0 < 441 # 160 /\
  exists out st',
    resample (mkResampleState (441 # 160) None) (repeat 0 128) = Ok (out, st') /\
    resampleRatio st' = 441 # 160 /\
    (~ (441 # 160) == 1 -> length out = Z.to_nat (output_length (441 # 160) (length ([] ++ repeat 0 128)))).
Proof.
  split; [lra|]. apply (resample_total (mkResampleState (441 # 160) None) (repeat 0 128)). simpl. lra.
Defined.

Lemma interpolate_in_bounds_witness :
  (0 < 441 # 160 /\ (45 < Z.to_nat (output_length (441 # 160) (length (repeat 0 128))))%nat) /\
  exists prev next,
    nth_error (repeat 0 128) (Z.to_nat (fst (interp_index (length (repeat 0 128)) (441 # 160) 45))) = Some prev /\
    nth_error (repeat 0 128) (Z.to_nat (snd (interp_index (length (repeat 0 128)) (441 # 160) 45))) = Some next /\
    interpolate (repeat 0 128) (441 # 160) 45 =
      round_f32 (prev + (next - prev) *
        (Qnat 45 * (441 # 160) - inject_Z (fst (interp_index (length (repeat 0 128)) (441 # 160) 45)))).
Proof.
  split; [split; [lra | vm_compute; lia]|].
  exact (interpolate_in_bounds (repeat 0 128) (441 # 160) 45 ltac:(lra) ltac:(vm_compute; lia)).
Defined.

Lemma resample_blocks_integer_witness :
  ((2 <= 3)%nat /\ Qnat 3 == Qnat 3 /\ (0 < 3)%nat /\ Forall is_f32 [0; 1; 0; -1; 1 # 2]) /\
  exists o s s',
    resample_blocks (mkResampleState (Qnat 3) None) [[0; 1; 0; -1]; [1 # 2]] = Ok (o, s) /\
    resample (mkResampleState (Qnat 3) None) (concat [[0; 1; 0; -1]; [1 # 2]]) = Ok (o, s') /\
    resampleRatio s = resampleRatio s' /\ pending s = pending s'.
Proof.
  assert (F : Forall is_f32 [0; 1; 0; -1; 1 # 2]) by (repeat constructor; vm_compute; reflexivity).
  split; [split; [lia | split; [reflexivity | split; [lia | exact F]]]|].
  exact (resample_blocks_integer (mkResampleState (Qnat 3) None) [[0; 1; 0; -1]; [1 # 2]] 3
           ltac:(lia) ltac:(reflexivity) ltac:(simpl; lia) F).
Defined.

Lemma init_resample_positive_witness :
  (0 < 48000 /\ 0 < 16000) /\
  0 < resampleRatio (init_resample (rate_options 48000 16000)) /\
  (48000 == 16000 -> resampleRatio (init_resample (rate_options 48000 16000)) = 1) /\
  (~ 48000 == 16000 -> resampleRatio (init_resample (rate_options 48000 16000)) = 48000 / 16000) /\
  resampleBuffer (init_resample (rate_options 48000 16000)) = None.
Proof. split; [split; lra|]. apply init_resample_positive; lra. Defined.

Lemma resample_boundaries_witness :
  (0 < resampleRatio (mkResampleState 2 None) /\ ~ resampleRatio (mkResampleState 2 None) == 1) /\
  (Qnat (length (pending (mkResampleState 2 None) ++ [0; 1; 0; -1])) < resampleRatio (mkResampleState 2 None) ->
     resample (mkResampleState 2 None) [0; 1; 0; -1] =
       Ok ([], mkResampleState (resampleRatio (mkResampleState 2 None))
                 (Some (pending (mkResampleState 2 None) ++ [0; 1; 0; -1])))) /\
  (forall k m, resampleRatio (mkResampleState 2 None) == Qnat k -> (1 <= m)%nat ->
     length (pending (mkResampleState 2 None) ++ [0; 1; 0; -1]) = (m * k)%nat ->
     exists o, resample (mkResampleState 2 None) [0; 1; 0; -1] =
                 Ok (o, mkResampleState (resampleRatio (mkResampleState 2 None)) None) /\ length o = m).
Proof.
  assert (H0 : 0 < resampleRatio (mkResampleState 2 None)) by (vm_compute; reflexivity).
  assert (H1 : ~ resampleRatio (mkResampleState 2 None) == 1) by (intros E; vm_compute in E; discriminate).
  split; [split; assumption | exact (resample_boundaries _ _ H0 H1)].
Defined.

End Resampler.
