(* ===== verification/Amplitude.v ===== *)
(** * Amplitude of the resampled signal

    The resampler of [src/lib/worklets/audio-processing.ts] (lines
    67-113) never leaves the range of its input: every output sample is
    a linear interpolation of two input samples (lines 95-102), stored
    into a [Float32Array] (line 103), and the binary32 rounding of a
    value between two binary32 bounds stays between them
    ([Float32.round_f32_between]).  So samples within [[-1, 1]], the
    nominal range of the host's capture, stay within [[-1, 1]] through
    any number of calls, the leftover included. *)

From Stdlib Require Import List ZArith QArith Qround Lia Lqa.
From S2P Require Import Prelude JsNumber Float32 Resampler.
Import ListNotations Js Resampler.

Module Amplitude.

Section Range.

(** The bounds are binary32 values, as [-1] and [1] are. *)
Variables lo hi : Q.
Hypothesis Hlo : is_f32 lo.
Hypothesis Hhi : is_f32 hi.

Local Abbreviation in_range := (fun s : Q => lo <= s <= hi).

Lemma lerp_in_range (a b t : Q) :
  in_range a -> in_range b -> 0 <= t <= 1 -> in_range (a + (b - a) * t).
Proof. cbv beta. intros [A1 A2] [B1 B2] [T1 T2]. split; nra. Qed.

Lemma Forall_nth_range (c : list Q) (k : nat) :
  Forall in_range c -> (k < length c)%nat -> in_range (nth k c 0).
Proof.
  intros F Hk. rewrite Forall_forall in F. apply F, nth_In. exact Hk.
Qed.

(** One output sample of the loop of lines 94-104. *)
Lemma interpolate_in_range (c : list Q) (r : Q) (i : nat) :
  0 < r -> (i < Z.to_nat (output_length r (length c)))%nat ->
  Forall in_range c -> in_range (interpolate c r i).
Proof.
  intros Hr Hi F. destruct (interp_index_bounds c r i Hr Hi) as (A & _ & B).
  pose proof (interp_fraction_bounds (length c) r i) as W.
  unfold interpolate. destruct (interp_index (length c) r i) as [p n]. cbn [fst snd] in *.
  apply round_f32_between; [exact Hlo | exact Hhi |].
  apply lerp_in_range; [apply Forall_nth_range; [exact F | lia] .. | lra].
Qed.

End Range.

(** ** Properties *)

(** One call keeps the range: if the held-over samples and the new
    block lie between two binary32 values, so do the output and the new
    leftover. *)
Lemma resample_in_range (lo hi : Q) (st st' : ResampleState) (x out : list Q) :
  is_f32 lo -> is_f32 hi -> 0 < resampleRatio st ->
  Forall (fun s => lo <= s <= hi) (pending st ++ x) ->
  resample st x = Ok (out, st') ->
  Forall (fun s => lo <= s <= hi) out /\ Forall (fun s => lo <= s <= hi) (pending st').
Proof.
  intros Hlo Hhi Hr F R. destruct (Qeq_dec (resampleRatio st) 1) as [E | E].
  - unfold resample in R. apply Qeq_bool_iff in E. rewrite E in R.
    injection R as <- <-. apply Forall_app in F as [F1 F2]. split; assumption.
  - destruct (resample_shape st x Hr E) as (st'' & R' & _ & P).
    rewrite R in R'. injection R' as -> ->. rewrite P. split.
    + apply Forall_map, Forall_forall. intros i Hi. apply in_seq in Hi.
      apply interpolate_in_range; [exact Hlo | exact Hhi | exact Hr | lia | exact F].
    + apply Forall_skipn_l. exact F.
Qed.

(** C11: the resampler never overshoots.  Over any sequence of blocks
    whose samples lie between two binary32 values (such as [-1] and
    [1]), every output sample and the final leftover lie between them
    too. *)
Theorem resample_blocks_in_range (lo hi : Q) (st s : ResampleState) (bs : list (list Q)) (o : list Q) :
  is_f32 lo -> is_f32 hi -> 0 < resampleRatio st ->
  Forall (fun v => lo <= v <= hi) (pending st) ->
  Forall (Forall (fun v => lo <= v <= hi)) bs ->
  resample_blocks st bs = Ok (o, s) ->
  Forall (fun v => lo <= v <= hi) o /\ Forall (fun v => lo <= v <= hi) (pending s).
Proof.
  intros Hlo Hhi. revert st o. induction bs as [|b bs IH]; intros st o Hr P F R.
  - injection R as <- <-. split; [constructor | exact P].
  - inversion F as [|? ? Fb Fbs]; subst. simpl in R.
    destruct (resample st b) as [[o1 st1]|] eqn:R1; [|discriminate]. simpl in R.
    destruct (resample_blocks st1 bs) as [[o2 st2]|] eqn:R2; [|discriminate].
    injection R as <- <-.
    destruct (resample_in_range lo hi st st1 b o1 Hlo Hhi Hr (proj2 (Forall_app _ _ _) (conj P Fb)) R1) as [O1 P1].
    rewrite <- (resample_ratio_kept _ _ _ _ R1) in Hr.
    destruct (IH st1 o2 Hr P1 Fbs R2) as [O2 P2].
    split; [apply Forall_app; split|]; assumption.
Qed.

(** ** Witnesses *)

Lemma resample_blocks_in_range_witness :
  (is_f32 (-1) /\ is_f32 1 /\ 0 < 441 # 160 /\
   Forall (fun v => -1 <= v <= 1) [] /\
   Forall (Forall (fun v => -1 <= v <= 1)) [[1; -1; 1 # 2; 1]; [-1; 0; 1]]) /\
  exists o s,
    resample_blocks (mkResampleState (441 # 160) None) [[1; -1; 1 # 2; 1]; [-1; 0; 1]] = Ok (o, s) /\
    Forall (fun v => -1 <= v <= 1) o /\ Forall (fun v => -1 <= v <= 1) (pending s).
Proof.
  assert (H1 : is_f32 (-1)) by (vm_compute; reflexivity).
  assert (H2 : is_f32 1) by (vm_compute; reflexivity).
  assert (F : Forall (Forall (fun v => -1 <= v <= 1)) [[1; -1; 1 # 2; 1]; [-1; 0; 1]])
    by (repeat constructor; vm_compute; discriminate).
  split; [split; [exact H1 | split; [exact H2 | split; [lra | split; [constructor | exact F]]]]|].
  eexists _, _. split; [vm_compute; reflexivity|].
  apply (resample_blocks_in_range (-1) 1 (mkResampleState (441 # 160) None) _
           [[1; -1; 1 # 2; 1]; [-1; 0; 1]]);
    [exact H1 | exact H2 | simpl; lra | constructor | exact F | vm_compute; reflexivity].
Defined.

End Amplitude.
