(* ===== verification/Drift.v ===== *)
(** * Output count over a stream of blocks

    How many samples [resample] of [src/lib/worklets/audio-processing.ts]
    (lines 67-113) produces over successive render quanta.  Each call
    produces [floor (n / ratio)] samples and carries over the samples
    from [floor (outputLength * ratio)] on (lines 106-110), so the
    fractional phase [outputLength * ratio - floor (...)] is dropped at
    every call.  The theorem [resample_blocks_count] bounds the effect:
    over [k] calls the outputs cover the consumed input up to less than
    [k] extra source samples, so the stream gets up to [k / ratio] extra
    output samples.  [drift_44100_linear] shows that at 44.1 kHz the
    excess is at least [5/8] of a source sample per call over any
    stream of 128-sample quanta: the held-over count cycles through 2,
    1 and 3, and three quanta give 140 samples where 139.3 are due.
    [split_drift_44100] gives concrete runs: one second of capture
    yields 16053 samples at 16 kHz where one call gives 15975. *)

From Stdlib Require Import List ZArith QArith Qround Lia Lqa.
From S2P Require Import Prelude JsNumber Resampler.
Import ListNotations Js Resampler.

Module Drift.

(** One call: the outputs span the consumed input, up to less than one
    source sample. *)
Lemma resample_count_step (st st' : ResampleState) (x out : list Q) :
  0 < resampleRatio st -> ~ resampleRatio st == 1 ->
  resample st x = Ok (out, st') ->
  Qnat (length (pending st) + length x) - Qnat (length (pending st')) <=
    Qnat (length out) * resampleRatio st <
  Qnat (length (pending st) + length x) - Qnat (length (pending st')) + 1.
Proof.
  intros Hr H1 R.
  destruct (resample_shape st x Hr H1) as (st'' & R' & _ & P).
  rewrite R in R'. injection R' as -> ->. rewrite P.
  set (r := resampleRatio st) in *. set (c := pending st ++ x).
  replace (length (pending st) + length x)%nat with (length c) by (unfold c; autorewrite with lens; reflexivity).
  pose proof (consumed_bounds r (length c) Hr) as [B1 B2].
  pose proof (consumed_le r (length c) Hr).
  destruct (output_length_bounds r (length c) Hr) as [A _].
  rewrite length_map, length_seq, Qnat_Z2Nat by exact A.
  rewrite length_skipn, Qnat_sub by assumption. lra.
Qed.

(** C4: over any sequence of blocks, with a positive ratio other than
    1, the outputs times the ratio are at least the number of input
    samples consumed (those given minus the final leftover) and exceed
    it by at most the number of calls: each call drops less than one
    source sample of phase, and never gains any. *)
Theorem resample_blocks_count (st s : ResampleState) (bs : list (list Q)) (o : list Q) :
  0 < resampleRatio st -> ~ resampleRatio st == 1 ->
  resample_blocks st bs = Ok (o, s) ->
  Qnat (length (pending st) + length (concat bs)) - Qnat (length (pending s)) <=
    Qnat (length o) * resampleRatio st <=
  Qnat (length (pending st) + length (concat bs)) - Qnat (length (pending s)) + Qnat (length bs).
Proof.
  revert st o. induction bs as [|b bs IH]; intros st o Hr H1 R.
  - injection R as <- <-. cbn [concat length]. rewrite Nat.add_0_r.
    change (Qnat 0) with 0. lra.
  - simpl in R. destruct (resample st b) as [[o1 st1]|] eqn:R1; [|discriminate]. simpl in R.
    destruct (resample_blocks st1 bs) as [[o2 st2]|] eqn:R2; [|discriminate].
    injection R as <- <-.
    pose proof (resample_count_step st st1 b o1 Hr H1 R1) as Step.
    pose proof (resample_ratio_kept _ _ _ _ R1) as K.
    rewrite <- K in Hr, H1. specialize (IH st1 o2 Hr H1 R2). rewrite K in IH.
    cbn [concat length]. autorewrite with lens in *.
    rewrite !Qnat_add in *. replace (Datatypes.S (length bs)) with (1 + length bs)%nat by reflexivity.
    rewrite Qnat_add. change (Qnat 1) with 1. lra.
Qed.

(** the drift is real.  For a non-integer ratio block splitting is
    not invisible: at 44.1 kHz to 16 kHz two 128-sample render quanta
    yield 93 output samples where one call on the same 256 samples
    yields 92, because each call restarts the interpolation at [floor
    (outputLength * ratio)] and drops the fractional phase.  Over one
    second of capture in the Web Audio API's 128-sample quanta (344
    quanta, 44032 samples) this gives 16053 samples for the 16 kHz
    service, where one call on the same samples would give [floor
    (44032 / ratio) = 15975] ([Resampler.resample_total]): 78 samples
    (0.49%) too many. *)
Theorem split_drift_44100 :
  let st0 := init_resample options_44100_16000 in
  let b := repeat 0 128 in
  ((exists o s, resample_blocks st0 [b; b] = Ok (o, s) /\ length o = 93%nat) /\
   (exists o s, resample st0 (b ++ b) = Ok (o, s) /\ length o = 92%nat)) /\
  (exists o s, resample_blocks st0 (repeat b 344) = Ok (o, s) /\
               Z.of_nat (length o) = 16053%Z) /\
  output_length (resampleRatio st0) (length (concat (repeat b 344))) = 15975%Z.
Proof.
  split; [split; apply ok_pair_exists; vm_compute; reflexivity|].
  split; [apply ok_pair_exists|]; vm_compute; reflexivity.
Qed.

(** ** The drift over a whole stream at 44.1 kHz *)

(** The counts of one call on a block of [n] samples after [p] held
    over: outputs, and samples held over after. *)
Definition call_counts (r : Q) (p n : nat) : nat * nat :=
  (Z.to_nat (output_length r (p + n)), (p + n - consumed r (p + n))%nat).

Lemma resample_counts (st : ResampleState) (b : list Q) :
  0 < resampleRatio st -> ~ resampleRatio st == 1 ->
  exists o st', resample st b = Ok (o, st') /\ resampleRatio st' = resampleRatio st /\
    (length o, length (pending st')) = call_counts (resampleRatio st) (length (pending st)) (length b).
Proof.
  intros Hr H1. destruct (resample_shape st b Hr H1) as (st' & R & E & P).
  eexists _, st'. split; [exact R|]. split; [exact E|].
  unfold call_counts. rewrite P, length_map, length_seq, length_skipn, length_app. reflexivity.
Qed.

Lemma resample_blocks_cons_ok (st s1 : ResampleState) (b : list Q) (bs : list (list Q)) (o : list Q) :
  resample st b = Ok (o, s1) ->
  resample_blocks st (b :: bs) = obind (resample_blocks s1 bs) (fun '(os, s2) => Ok (o ++ os, s2)).
Proof. intros R. simpl. rewrite R. reflexivity. Qed.

(** The counts of [n] calls on 128-sample blocks from [p] samples
    held over: outputs, and samples held over after. *)
Fixpoint quanta_counts (r : Q) (p n : nat) : nat * nat :=
  match n with
  | O => (0%nat, p)
  | S n' =>
      let '(o1, p1) := call_counts r p 128 in
      let '(os, p2) := quanta_counts r p1 n' in ((o1 + os)%nat, p2)
  end.

(** Over 128-sample quanta the counts depend only on how many samples
    are held over, whatever the samples. *)
Lemma resample_blocks_counts (st : ResampleState) (bs : list (list Q)) :
  0 < resampleRatio st -> ~ resampleRatio st == 1 -> Forall (fun b => length b = 128%nat) bs ->
  exists o s, resample_blocks st bs = Ok (o, s) /\ resampleRatio s = resampleRatio st /\
    (length o, length (pending s)) = quanta_counts (resampleRatio st) (length (pending st)) (length bs).
Proof.
  intros Hr H1 F. revert st Hr H1. induction F as [|b bs Lb F IH]; intros st Hr H1.
  - exists [], st. split; [reflexivity | split; reflexivity].
  - destruct (resample_counts st b Hr H1) as (o1 & s1 & R1 & E1 & N1).
    rewrite <- E1 in Hr, H1. destruct (IH s1 Hr H1) as (o & s & R & E & N).
    exists (o1 ++ o), s. rewrite (resample_blocks_cons_ok _ _ _ _ _ R1). cbn [obind]. rewrite R.
    cbn [obind]. split; [reflexivity|]. rewrite E1 in E, N. split; [exact E|].
    cbn [length quanta_counts]. rewrite Lb in N1. rewrite <- N1, <- N, length_app. reflexivity.
Qed.

Lemma quanta_counts_held_add (r : Q) (a b p : nat) :
  snd (quanta_counts r p (a + b)) = snd (quanta_counts r (snd (quanta_counts r p a)) b).
Proof.
  revert p. induction a as [|a IH]; intros p; [reflexivity|].
  cbn [Nat.add quanta_counts]. destruct (call_counts r p 128) as [o1 p1].
  specialize (IH p1). destruct (quanta_counts r p1 (a + b)) as [o p2] eqn:E1.
  destruct (quanta_counts r p1 a) as [o' p'] eqn:E2. exact IH.
Qed.

Section Stream44100.

Let r := resampleRatio (init_resample options_44100_16000).

Lemma r_pos : 0 < r /\ ~ r == 1.
Proof. split; [vm_compute; reflexivity | intros E; vm_compute in E; discriminate]. Qed.

(** One quantum from [p] samples held over, when the counts are known. *)
Lemma quantum_44100 (st : ResampleState) (b : list Q) (p o_n p' : nat) :
  resampleRatio st = r -> length (pending st) = p -> length b = 128%nat ->
  call_counts r p 128 = (o_n, p') ->
  exists o s1, resample st b = Ok (o, s1) /\ resampleRatio s1 = r /\
    length o = o_n /\ length (pending s1) = p'.
Proof.
  intros Er Ep Eb C. destruct r_pos as [Hr H1].
  rewrite <- Er in Hr, H1. destruct (resample_counts st b Hr H1) as (o & s1 & R & E & N).
  rewrite Er, Ep, Eb, C in N. injection N as N1 N2.
  exists o, s1. split; [exact R|]. split; [rewrite E; exact Er | split; assumption].
Qed.

(** From two samples held over, three quanta give [47 + 46 + 47]
    samples and come back to two held over. *)
Lemma stream_44100 (k : nat) : forall (st : ResampleState) (bs : list (list Q)),
  resampleRatio st = r -> length (pending st) = 2%nat ->
  Forall (fun b => length b = 128%nat) bs -> length bs = (3 * k)%nat ->
  exists o s, resample_blocks st bs = Ok (o, s) /\ length o = (140 * k)%nat.
Proof.
  induction k as [|k IH]; intros st bs Er Ep F L.
  - destruct bs; [|discriminate]. exists [], st. split; reflexivity.
  - destruct bs as [|b1 [|b2 [|b3 rest]]]; try (simpl in L; lia).
    apply Forall_cons_iff in F as [L1 F]. apply Forall_cons_iff in F as [L2 F].
    apply Forall_cons_iff in F as [L3 F].
    destruct (quantum_44100 st b1 2 47 1 Er Ep L1 ltac:(vm_compute; reflexivity))
      as (o1 & s1 & R1 & E1 & N1 & P1).
    destruct (quantum_44100 s1 b2 1 46 3 E1 P1 L2 ltac:(vm_compute; reflexivity))
      as (o2 & s2 & R2 & E2 & N2 & P2).
    destruct (quantum_44100 s2 b3 3 47 2 E2 P2 L3 ltac:(vm_compute; reflexivity))
      as (o3 & s3 & R3 & E3 & N3 & P3).
    destruct (IH s3 rest E3 P3 F ltac:(simpl in L; lia)) as (o & s & R & N).
    exists (o1 ++ o2 ++ o3 ++ o), s.
    rewrite (resample_blocks_cons_ok _ _ _ _ _ R1). cbn [obind].
    rewrite (resample_blocks_cons_ok _ _ _ _ _ R2). cbn [obind].
    rewrite (resample_blocks_cons_ok _ _ _ _ _ R3). cbn [obind].
    rewrite R. cbn [obind]. split; [reflexivity|]. rewrite !length_app. lia.
Qed.

(** From nothing held over, [3 + 3k] quanta leave 3 samples held
    over: the count goes 2 after the first quantum, cycles through
    1, 3, 2, and two more quanta give 1 and 3. *)
Lemma held_44100 (k : nat) : snd (quanta_counts r 0 (3 + 3 * k)) = 3%nat.
Proof.
  replace (3 + 3 * k)%nat with (1 + (3 * k + 2))%nat by lia.
  rewrite quanta_counts_held_add. replace (snd (quanta_counts r 0 1)) with 2%nat by (vm_compute; reflexivity).
  rewrite quanta_counts_held_add.
  assert (C : forall j, snd (quanta_counts r 2 (3 * j)) = 2%nat).
  { induction j as [|j IH]; [reflexivity|]. replace (3 * S j)%nat with (3 + 3 * j)%nat by lia.
    rewrite quanta_counts_held_add.
    replace (snd (quanta_counts r 2 3)) with 2%nat by (vm_compute; reflexivity). exact IH. }
  rewrite C. vm_compute. reflexivity.
Qed.

End Stream44100.

(** C5: the drift grows without bound.  At 44.1 kHz to 16 kHz, any
    stream of [1 + 3k] render quanta of 128 samples yields exactly [46
    + 140k] samples, whatever the samples: after the first quantum the
    held-over count cycles through 2, 1, 3.  These samples span more
    source time than was captured, by at least [15k/8 - 2] source
    samples, so the excess grows linearly with the length of the
    session.  Two quanta, for instance, give 93 samples where one call
    on the same 256 samples gives 92, and one second (344 quanta) gives
    16053 samples where one call gives 15975. *)
Theorem drift_44100_linear (k : nat) (bs : list (list Q)) :
  Forall (fun b => length b = 128%nat) bs -> length bs = (1 + 3 * k)%nat ->
  exists o s, resample_blocks (init_resample options_44100_16000) bs = Ok (o, s) /\
    length o = (46 + 140 * k)%nat /\
    Qnat (length (concat bs)) + (15 # 8) * Qnat k - 2 <=
      Qnat (length o) * resampleRatio (init_resample options_44100_16000).
Proof.
  intros F L. destruct bs as [|b0 rest]; [discriminate|].
  pose proof (length_concat_uniform _ _ F) as Lc. rewrite L in Lc.
  apply Forall_cons_iff in F as [L0 F].
  destruct (quantum_44100 (init_resample options_44100_16000) b0 0 46 2 eq_refl eq_refl L0
              ltac:(vm_compute; reflexivity)) as (o0 & s0 & R0 & E0 & N0 & P0).
  destruct (stream_44100 k s0 rest E0 P0 F ltac:(simpl in L; lia)) as (o & s & R & N).
  exists (o0 ++ o), s. rewrite (resample_blocks_cons_ok _ _ _ _ _ R0). cbn [obind]. rewrite R.
  cbn [obind]. split; [reflexivity|]. rewrite length_app, N0, N.
  split; [reflexivity|]. rewrite Lc.
  replace (resampleRatio (init_resample options_44100_16000)) with (44100 # 16000) by reflexivity.
  unfold Qnat. repeat rewrite ?Nat2Z.inj_add, ?Nat2Z.inj_mul, ?inject_Z_plus, ?inject_Z_mult.
  set (K := inject_Z (Z.of_nat k)). change (inject_Z (Z.of_nat 128)) with (128 # 1).
  change (inject_Z (Z.of_nat 1)) with (1 # 1). change (inject_Z (Z.of_nat 3)) with (3 # 1).
  change (inject_Z (Z.of_nat 46)) with (46 # 1). change (inject_Z (Z.of_nat 140)) with (140 # 1).
  assert (0 <= K) by (unfold K; change 0 with (inject_Z 0); apply inject_Z_le; lia).
  lra.
Qed.

(** ** Witnesses *)

Lemma drift_44100_linear_witness :
  (Forall (fun b => length b = 128%nat) (repeat (repeat (0 : Q) 128) 4) /\
   length (repeat (repeat (0 : Q) 128) 4) = (1 + 3 * 1)%nat) /\
  exists o s, resample_blocks (init_resample options_44100_16000) (repeat (repeat 0 128) 4) = Ok (o, s) /\
    length o = (46 + 140 * 1)%nat /\
    Qnat (length (concat (repeat (repeat 0 128) 4))) + (15 # 8) * Qnat 1 - 2 <=
      Qnat (length o) * resampleRatio (init_resample options_44100_16000).
Proof.
  assert (F : Forall (fun b => length b = 128%nat) (repeat (repeat (0 : Q) 128) 4)).
  { apply Forall_forall. intros b Hb. apply repeat_spec in Hb. subst b. apply repeat_length. }
  split; [split; [exact F | reflexivity]|].
  exact (drift_44100_linear 1 _ F eq_refl).
Defined.

Lemma resample_blocks_count_witness :
  (0 < 441 # 160 /\ ~ (441 # 160) == 1) /\
  exists o s,
    resample_blocks (mkResampleState (441 # 160) None) [repeat 0 128; repeat 0 128] = Ok (o, s) /\
    Qnat (length (@nil Q) + length (concat [repeat 0 128; repeat 0 128])) - Qnat (length (pending s)) <=
      Qnat (length o) * (441 # 160) <=
    Qnat (length (@nil Q) + length (concat [repeat 0 128; repeat 0 128])) - Qnat (length (pending s)) + Qnat 2.
Proof.
  assert (N : ~ (441 # 160) == 1) by (intros E; vm_compute in E; discriminate).
  split; [split; [lra | exact N]|].
  eexists _, _. split; [vm_compute; reflexivity|].
  exact (resample_blocks_count (mkResampleState (441 # 160) None) _ [repeat 0 128; repeat 0 128] _
           ltac:(simpl; lra) N ltac:(vm_compute; reflexivity)).
Defined.

End Drift.
