(* ===== verification/ArrayStore.v ===== *)
(** * Typed arrays as shared objects: the references [resample] keeps

    [resample] of [src/lib/worklets/audio-processing.ts] (lines
    72-113) works on [Float32Array] objects, not on values: it returns
    its argument itself when the ratio is 1 (line 74), allocates the
    concatenation of the leftover and the block (lines 79-83), the
    output (line 93) and the sliced leftover (line 109), and on an
    undersized call stores a reference to the array it was given
    (line 89).  The spec requires that the pipeline "does not retain
    references beyond the call".

    This file models the arrays as a store of locations ([Store], a
    [gmap] with a bump allocator), the field [_resampleBuffer] as a
    location ([HState]), and [resample] as [resample_h], a function of
    the store, allocation for allocation.  The host filling an array
    for each render quantum is a function [host] of the store: a fresh
    array per quantum ([alloc]) or one array refilled in place
    ([reuse]).

    Theorems: with a host that hands over fresh arrays, the heap model
    refines the value model [Resampler.resample_blocks] (same samples,
    same errors, the held-over array holding [resampleBuffer]); the
    state references the caller's array only after an undersized call
    with nothing held over; and with a host that refills one array, the
    retained reference makes the output differ from the value model. *)

From Stdlib Require Import String.
From stdpp Require Import base list gmap.
From Stdlib Require Import ZArith QArith Qround List Lia Lqa.
From S2P Require Import Prelude JsNumber Resampler.
Import Js Resampler.
Local Open Scope js_scope.

Module ArrayStore.

(** ** The store of arrays *)

Definition loc := N.

Record Store := mkStore {
  arrays : gmap loc (list Q);
  next : loc                  (* the next free location *)
}.

(** [new Float32Array(...)] and [.slice(...)]: a new object. *)
Definition alloc (vs : list Q) (h : Store) : loc * Store :=
  (next h, mkStore (<[next h := vs]> (arrays h)) (N.succ (next h))).

(** The contents of the array at [l]. *)
Definition load (l : loc) (h : Store) : list Q :=
  default [] (arrays h !! l).

(** The host overwriting the contents of an existing array. *)
Definition store (l : loc) (vs : list Q) (h : Store) : Store :=
  mkStore (<[l := vs]> (arrays h)) (next h).

(** The store only grows: old arrays keep their contents. *)
Definition extends (h h' : Store) : Prop :=
  (next h <= next h')%N /\ forall l, (l < next h)%N -> load l h' = load l h.

(** ** The resampling state with references *)

(** [_resampleRatio] and [_resampleBuffer], a reference or [null]. *)
Record HState := mkHState {
  h_ratio : Q;
  h_buffer : option loc
}.

(** Lines 28-29 and 35-40. *)
Definition h_init (options : option NodeOptions) : HState :=
  mkHState (resampleRatio (init_resample options)) None.

(** Lines 78-84: a new array holding the leftover and the block, and
    [_resampleBuffer = null]; without a leftover, the argument itself. *)
Definition prepend_h (st : HState) (inputBuffer : loc) (h : Store) : loc * HState * Store :=
  match h_buffer st with
  | Some lb =>
      let '(temp, h') := alloc (load lb h ++ load inputBuffer h) h in
      (temp, mkHState (h_ratio st) None, h')
  | None => (inputBuffer, st, h)
  end.

(** Lines 72-113, allocation for allocation.  The undersized branch
    (line 89) stores the reference [inputBuffer], which is the caller's
    array when nothing was held over. *)
Definition resample_h (st : HState) (input : loc) (h : Store) : outcome (loc * HState * Store) :=
  let ratio := h_ratio st in
  if Qeq_bool ratio 1 then Ok (input, st, h)
  else
    let '(inputBuffer, st1, h1) := prepend_h st input h in
    let xs := load inputBuffer h1 in
    let outputLength := output_length ratio (length xs) in
    if (outputLength =? 0)%Z then
      let '(empty, h2) := alloc [] h1 in
      Ok (empty, mkHState ratio (Some inputBuffer), h2)
    else if (outputLength <? 0)%Z then Throw RangeError
    else
      let '(outputBuffer, h2) := alloc (map (interpolate xs ratio) (seq 0 (Z.to_nat outputLength))) h1 in
      match leftover_of ratio outputLength xs with
      | Some rest => let '(lr, h3) := alloc rest h2 in Ok (outputBuffer, mkHState ratio (Some lr), h3)
      | None => Ok (outputBuffer, st1, h2)
      end.

(** ** The host *)

(** How the host hands over the block of a render quantum: the array it
    passes as [inputs[0][0]] and the store after filling it. *)
Definition host := list Q -> Store -> loc * Store.

(** A new array per quantum. *)
Definition fresh_host : host := alloc.

(** One array of the host, refilled in place every quantum. *)
Definition reuse_host (l0 : loc) : host := fun b h => (l0, store l0 b h).

(** Render quanta in turn; [processChunk] reads the returned array
    before the next quantum. *)
Fixpoint run_host (hst : host) (st : HState) (bs : list (list Q)) (h : Store)
  : outcome (list Q * HState * Store) :=
  match bs with
  | [] => Ok ([], st, h)
  | b :: bs' =>
      let '(li, h1) := hst b h in
      let* (lo, st1, h2) := resample_h st li h1 in
      let* (os, st2, h3) := run_host hst st1 bs' h2 in
      Ok (load lo h2 ++ os, st2, h3)
  end.

(** ** Correspondence with the value model *)

(** The heap state represents the value state: same ratio, and the
    referenced array, allocated, holds the samples held over. *)
Definition corr (h : Store) (hs : HState) (st : ResampleState) : Prop :=
  h_ratio hs = resampleRatio st /\
  match h_buffer hs with
  | Some l => (l < next h)%N /\ resampleBuffer st = Some (load l h)
  | None => resampleBuffer st = None
  end.

(** ** Lemmas on the store *)

(** What [alloc] returns: the new array holds [vs], sits below the
    new free location, and older arrays keep their contents. *)
Lemma alloc_spec (vs : list Q) (h h' : Store) (l : loc) :
  alloc vs h = (l, h') -> load l h' = vs /\ (l < next h')%N /\ l = next h /\ extends h h'.
Proof.
  intros A. injection A as <- <-. unfold load. simpl.
  split; [rewrite lookup_insert_eq; reflexivity|]. split; [lia|]. split; [reflexivity|].
  split; [simpl; lia|]. intros l Hl. unfold load. simpl. rewrite lookup_insert_ne by lia. reflexivity.
Qed.

#[export] Instance extends_preorder : PreOrder extends.
Proof.
  split.
  - intros h. split; [lia | reflexivity].
  - intros h1 h2 h3 [N12 L12] [N23 L23]. split; [lia|].
    intros l Hl. rewrite L23 by lia. apply L12. exact Hl.
Qed.

Lemma corr_extends (h h' : Store) (hs : HState) (st : ResampleState) :
  extends h h' -> corr h hs st -> corr h' hs st.
Proof.
  intros [Nx L] [R B]. split; [exact R|].
  destruct (h_buffer hs) as [l|]; [|exact B].
  destruct B as [Hl B]. split; [lia | rewrite L; assumption].
Qed.

Lemma extends_lt (h h' : Store) (l : loc) : extends h h' -> (l < next h)%N -> (l < next h')%N.
Proof. intros [Nx _] Hl. lia. Qed.

(** Lines 78-84 on a represented state: the array [resample] works on
    holds the leftover followed by the block, and [_resampleBuffer] is
    [null] afterwards. *)
Lemma prepend_h_spec (hs : HState) (st : ResampleState) (h h1 : Store) (li ib : loc) (st1 : HState) :
  corr h hs st -> (li < next h)%N -> prepend_h hs li h = (ib, st1, h1) ->
  load ib h1 = prepend_leftover st (load li h) /\ h_buffer st1 = None /\
  h_ratio st1 = h_ratio hs /\ (ib < next h1)%N /\ extends h h1.
Proof.
  intros [R B] Hli P. unfold prepend_h, prepend_leftover in *.
  destruct (h_buffer hs) as [lb|] eqn:Hb.
  - destruct B as [Hlb ->].
    destruct (alloc (load lb h ++ load li h) h) as [temp h'] eqn:A. injection P as <- <- <-.
    destruct (alloc_spec _ _ _ _ A) as (L & Lt & _ & E). auto.
  - injection P as <- <- <-. rewrite B. split; [reflexivity|].
    split; [exact Hb|]. split; [reflexivity|]. split; [exact Hli | reflexivity].
Qed.

(** One call of [resample_h] simulates one call of [resample] on the
    contents of the array it is given: the same samples or the same
    error, a represented state after, and a store that only grew. *)
Lemma resample_h_sim (hs : HState) (st : ResampleState) (h : Store) (li : loc) :
  corr h hs st -> (li < next h)%N ->
  match resample st (load li h) with
  | Ok (o, st') => exists lo hs' h', resample_h hs li h = Ok (lo, hs', h') /\
      load lo h' = o /\ corr h' hs' st' /\ extends h h'
  | Throw e => resample_h hs li h = Throw e
  end.
Proof.
  intros C Hli. pose proof C as [R _]. unfold resample, resample_h. rewrite R.
  destruct (Qeq_bool (resampleRatio st) 1).
  { exists li, hs, h. split; [reflexivity|]. split; [reflexivity|]. split; [exact C | reflexivity]. }
  destruct (prepend_h hs li h) as [[ib st1] h1] eqn:P.
  destruct (prepend_h_spec _ _ _ _ _ _ _ C Hli P) as (Lx & B1 & R1 & Hib & X1).
  rewrite <- Lx. set (xs := load ib h1).
  destruct (output_length (resampleRatio st) (length xs) =? 0)%Z.
  { destruct (alloc [] h1) as [e h2] eqn:A. destruct (alloc_spec _ _ _ _ A) as (Le & _ & _ & X2).
    exists e, (mkHState (resampleRatio st) (Some ib)), h2.
    split; [reflexivity|]. split; [exact Le|].
    split; [split; [reflexivity|] | etransitivity; eassumption].
    cbn [h_buffer resampleBuffer]. split; [apply (extends_lt h1); assumption|].
    destruct X2 as [_ X2]. rewrite X2 by exact Hib. reflexivity. }
  destruct (output_length (resampleRatio st) (length xs) <? 0)%Z; [reflexivity|].
  destruct (alloc _ h1) as [lo h2] eqn:A. destruct (alloc_spec _ _ _ _ A) as (Lo & Hlo & _ & X2).
  destruct (leftover_of (resampleRatio st) _ xs) as [rest|].
  - destruct (alloc rest h2) as [lr h3] eqn:A'. destruct (alloc_spec _ _ _ _ A') as (Lr & Hlr & _ & X3).
    exists lo, (mkHState (resampleRatio st) (Some lr)), h3. split; [reflexivity|].
    split; [destruct X3 as [_ X3]; rewrite X3 by exact Hlo; exact Lo|].
    split; [split; [reflexivity | split; [exact Hlr | rewrite Lr; reflexivity]]|].
    etransitivity; [eassumption | etransitivity; eassumption].
  - exists lo, st1, h2. split; [reflexivity|]. split; [exact Lo|].
    split; [split; [rewrite R1; exact R | rewrite B1; reflexivity] | etransitivity; eassumption].
Qed.

(** A new reference to the caller's array arises in one way only: an
    undersized call (line 89) with nothing held over, which returns an
    empty array. *)
Lemma resample_h_retains (hs hs' : HState) (h h' : Store) (li lo : loc) :
  (li < next h)%N -> h_buffer hs <> Some li ->
  resample_h hs li h = Ok (lo, hs', h') -> h_buffer hs' = Some li ->
  h_buffer hs = None /\ load lo h' = [].
Proof.
  intros Hli Nb Rh Hb'. unfold resample_h in Rh.
  destruct (Qeq_bool (h_ratio hs) 1); [injection Rh as _ <- _; contradiction|].
  unfold prepend_h in Rh. destruct (h_buffer hs) as [lb|] eqn:Hb.
  - destruct (alloc _ h) as [temp h1] eqn:A. destruct (alloc_spec _ _ _ _ A) as (_ & Ht & Et & X1).
    destruct (_ =? 0)%Z.
    + destruct (alloc [] h1) as [e h2]. injection Rh as _ <- _. cbn in Hb'. injection Hb' as ->. lia.
    + destruct (_ <? 0)%Z; [discriminate|]. destruct (alloc _ h1) as [o h2] eqn:A2.
      destruct (alloc_spec _ _ _ _ A2) as (_ & _ & E2 & X2).
      destruct (leftover_of _ _ _); [|injection Rh as _ <- _; discriminate].
      destruct (alloc _ h2) as [lr h3] eqn:A3. destruct (alloc_spec _ _ _ _ A3) as (_ & _ & E3 & _).
      injection Rh as _ <- _. cbn in Hb'. injection Hb' as ->. destruct X1 as [N1 _], X2 as [N2 _]. lia.
  - split; [reflexivity|]. destruct (_ =? 0)%Z.
    + destruct (alloc [] h) as [e h2] eqn:A. destruct (alloc_spec _ _ _ _ A) as (Le & _).
      injection Rh as <- _ <-. exact Le.
    + destruct (_ <? 0)%Z; [discriminate|]. destruct (alloc _ h) as [o h2] eqn:A2.
      destruct (alloc_spec _ _ _ _ A2) as (_ & _ & E2 & X2).
      destruct (leftover_of _ _ _); [|injection Rh as _ <- _; rewrite Hb in Hb'; discriminate].
      destruct (alloc _ h2) as [lr h3] eqn:A3. destruct (alloc_spec _ _ _ _ A3) as (_ & _ & E3 & _).
      injection Rh as _ <- _. cbn in Hb'. injection Hb' as ->. destruct X2 as [N2 _]. lia.
Qed.

(** ** Properties *)

(** C6: refinement.  With a host that hands over a new array every
    render quantum, the store-based [resample_h] implements the value
    model [resample_blocks]: from a represented state, any stream of
    blocks gives the same samples or throws the same error, and ends in
    a represented state, whose referenced array holds the samples held
    over. *)
Theorem resample_heap_refines (st : ResampleState) (hs : HState) (h : Store) (bs : list (list Q)) :
  corr h hs st ->
  match resample_blocks st bs with
  | Ok (o, st') => exists hs' h', run_host fresh_host hs bs h = Ok (o, hs', h') /\ corr h' hs' st'
  | Throw e => run_host fresh_host hs bs h = Throw e
  end.
Proof.
  revert st hs h. induction bs as [|b bs IH]; intros st hs h C; [exists hs, h; split; [reflexivity | exact C]|].
  cbn [run_host resample_blocks]. change (fresh_host b h) with (alloc b h). destruct (alloc b h) as [li h1] eqn:A.
  destruct (alloc_spec _ _ _ _ A) as (Lb & Hli & _ & X1).
  pose proof (resample_h_sim hs st h1 li (corr_extends _ _ _ _ X1 C) Hli) as S. rewrite Lb in S.
  destruct (resample st b) as [[o st1]|e]; [|rewrite S; reflexivity].
  destruct S as (lo & hs1 & h2 & Rh & Lo & C2 & _). rewrite Rh. cbn [obind]. rewrite Lo.
  specialize (IH st1 hs1 h2 C2). destruct (resample_blocks st1 bs) as [[os st2]|e]; cbn [obind].
  - destruct IH as (hs' & h' & Run & C'). exists hs', h'. rewrite Run. split; [reflexivity | exact C'].
  - rewrite IH. reflexivity.
Qed.

(** An array of the host, allocated before the first quantum. *)
Definition host_array0 : Store := mkStore {[0%N := [0; 0]]} 1%N.

(** C24: the retained reference.  Line 89 keeps the caller's array
    itself, though the spec says the pipeline retains no reference
    beyond the call.  Capturing at 64 kHz for 16 kHz (ratio 4), a
    two-sample block is held over by reference; a host that refills
    that array for the next quantum changes the held-over samples, and
    the call outputs [-1/2] where the value model, and a host with
    fresh arrays, output [1/2].  In general a call makes the state
    reference the caller's array only when nothing was held over and it
    returns no sample. *)
Theorem retained_reference_diverges :
  (forall hs hs' h h' li lo, (li < next h)%N -> h_buffer hs <> Some li ->
     resample_h hs li h = Ok (lo, hs', h') -> h_buffer hs' = Some li ->
     h_buffer hs = None /\ load lo h' = []) /\
  (exists st, resample_blocks (init_resample (rate_options 64000 16000))
                [[1 # 2; 1 # 4]; [-1 # 2; 0]] = Ok ([1 # 2], st)) /\
  (exists hs h, run_host (reuse_host 0%N) (h_init (rate_options 64000 16000))
                  [[1 # 2; 1 # 4]; [-1 # 2; 0]] host_array0 = Ok ([-1 # 2], hs, h)).
Proof.
  split; [exact resample_h_retains|].
  split; [eexists; vm_compute; reflexivity | eexists _, _; vm_compute; reflexivity].
Qed.

(** ** Witnesses *)

Lemma resample_heap_refines_witness :
  corr (mkStore empty 0%N) (h_init (rate_options 64000 16000)) (init_resample (rate_options 64000 16000)) /\
  match resample_blocks (init_resample (rate_options 64000 16000)) [[1 # 2; 1 # 4]; [-1 # 2; 0]] with
  | Ok (o, st') => exists hs' h', run_host fresh_host (h_init (rate_options 64000 16000))
                    [[1 # 2; 1 # 4]; [-1 # 2; 0]] (mkStore empty 0%N) = Ok (o, hs', h') /\ corr h' hs' st'
  | Throw e => run_host fresh_host (h_init (rate_options 64000 16000))
                 [[1 # 2; 1 # 4]; [-1 # 2; 0]] (mkStore empty 0%N) = Throw e
  end.
Proof.
  assert (C : corr (mkStore empty 0%N) (h_init (rate_options 64000 16000))
                   (init_resample (rate_options 64000 16000))) by (split; reflexivity).
  split; [exact C | exact (resample_heap_refines _ _ _ [[1 # 2; 1 # 4]; [-1 # 2; 0]] C)].
Defined.

End ArrayStore.
