(* ===== verification/Upsampling.v ===== *)
(** * Upsampling by an integer factor

    When the capture rate is below the target rate (an 8 kHz headset
    for the 16 kHz service: [ratio = 1/2]), [resample] of
    [src/lib/worklets/audio-processing.ts] (lines 67-113) produces
    [k = 1 / ratio] samples per input sample, and [leftoverIndex =
    outputLength * ratio] (line 107) is exactly the length of the
    buffer, so nothing is held over (line 108).  The resampler is then
    memoryless: each block is interpolated on its own
    ([upsample_memoryless]).  Its last [k - 1] outputs read
    [indexNext = min (indexPrev + 1, length - 1)] (line 97) clamped to
    the last sample, so they hold that sample flat instead of moving
    toward the next block's first sample ([upsample_hold]), so the
    signal depends on where the render quanta split it. *)

From Stdlib Require Import List ZArith QArith Qround Lia Lqa Setoid Morphisms.
From S2P Require Import Prelude JsNumber Resampler.
Import ListNotations Js Resampler.

Module Upsampling.

Section Factor.

Variable k : nat.
Hypothesis Hk : (2 <= k)%nat.
Variable r : Q.
Hypothesis Hr : r * Qnat k == 1.

Lemma Qnat_k_pos : 0 < Qnat k.
Proof. unfold Qnat. change 0 with (inject_Z 0). apply inject_Z_lt. lia. Qed.

Lemma up_ratio_pos : 0 < r.
Proof.
  pose proof Qnat_k_pos. destruct (Qlt_le_dec 0 r) as [P | N]; [exact P|].
  exfalso. pose proof (Qmult_le_compat_r r 0 (Qnat k) N ltac:(lra)). lra.
Qed.

Lemma up_ratio_not_1 : ~ r == 1.
Proof.
  intros E. rewrite E in Hr.
  assert (Qnat 2 <= Qnat k) by (unfold Qnat; apply inject_Z_le; lia).
  change (Qnat 2) with 2 in H. lra.
Qed.

Lemma up_output_length (n : nat) : output_length r n = Z.of_nat (n * k).
Proof.
  unfold output_length, Math_floor. rewrite Nat2Z.inj_mul.
  setoid_replace (Qnat n / r) with (inject_Z (Z.of_nat n * Z.of_nat k)).
  - apply Qfloor_Z.
  - pose proof up_ratio_pos. rewrite <- (Qmult_inj_r _ _ r) by lra.
    setoid_replace (Qnat n / r * r) with (Qnat n) by (field; lra).
    setoid_replace (inject_Z (Z.of_nat n * Z.of_nat k) * r) with (Qnat n * (r * Qnat k))
      by (rewrite inject_Z_mult; unfold Qnat; ring).
    rewrite Hr. ring.
Qed.

Lemma up_consumed (n : nat) : consumed r n = n.
Proof.
  unfold consumed. rewrite up_output_length.
  setoid_replace (inject_Z (Z.of_nat (n * k)) * r) with (inject_Z (Z.of_nat n)).
  - rewrite Qfloor_Z. apply Nat2Z.id.
  - rewrite Nat2Z.inj_mul, inject_Z_mult. fold (Qnat n) (Qnat k).
    setoid_replace (Qnat n * Qnat k * r) with (Qnat n * (r * Qnat k)) by ring.
    rewrite Hr. ring.
Qed.

(** One call on an empty leftover: [k] outputs per sample, nothing
    held over. *)
Lemma upsample_step (st : ResampleState) (b : list Q) :
  resampleRatio st = r -> pending st = [] ->
  exists st', resample st b = Ok (map (interpolate b r) (seq 0 (length b * k)), st') /\
              resampleRatio st' = r /\ pending st' = [].
Proof.
  intros Er Ep.
  destruct (resample_shape st b) as (st' & R & Hr' & P);
    [rewrite Er; apply up_ratio_pos | rewrite Er; apply up_ratio_not_1|].
  rewrite Er, Ep in *. cbn [app] in R, P.
  rewrite up_output_length, Nat2Z.id in R. exists st'.
  split; [exact R|]. split; [exact Hr'|]. rewrite P, up_consumed. apply skipn_all.
Qed.

End Factor.

(** ** Properties *)

(** C20: upsampling by an integer factor [k] is memoryless: from a
    state with nothing held over, a sequence of blocks gives the
    concatenation of each block interpolated on its own, [k] samples
    per input sample, and nothing is ever held over. *)
Theorem upsample_memoryless (k : nat) (st : ResampleState) (bs : list (list Q)) :
  (2 <= k)%nat -> resampleRatio st * Qnat k == 1 -> pending st = [] ->
  exists s,
    resample_blocks st bs =
      Ok (concat (map (fun b => map (interpolate b (resampleRatio st)) (seq 0 (length b * k))) bs), s) /\
    resampleRatio s = resampleRatio st /\ pending s = [].
Proof.
  intros Hk Hr. revert st Hr. induction bs as [|b bs IH]; intros st Hr Ep.
  - exists st. split; [reflexivity | split; [reflexivity | exact Ep]].
  - destruct (upsample_step k Hk (resampleRatio st) Hr st b eq_refl Ep) as (st1 & R1 & E1 & P1).
    rewrite <- E1 in Hr. destruct (IH st1 Hr P1) as (s & R2 & E2 & P2).
    exists s. simpl. rewrite R1. simpl. rewrite R2, E1. simpl.
    split; [reflexivity | split; [rewrite E2; exact E1 | exact P2]].
Qed.

(** C21: the boundary of every block is held flat: with [k] outputs
    per sample, the last [k] outputs of a block all read the last
    sample on both sides ([indexNext] is clamped, line 97), so they
    equal that sample instead of moving toward the next block. *)
Theorem upsample_hold (k : nat) (r : Q) (b : list Q) (i : nat) :
  (2 <= k)%nat -> r * Qnat k == 1 -> b <> [] ->
  ((length b - 1) * k <= i < length b * k)%nat ->
  interpolate b r i = round_f32 (nth (length b - 1) b 0).
Proof.
  intros Hk Hr Hb Hi. pose proof (Qnat_k_pos k Hk) as K.
  assert (Hn : (1 <= length b)%nat) by (destruct b; [contradiction | simpl; lia]).
  assert (F : Qfloor (Qnat i * r) = (Z.of_nat (length b) - 1)%Z).
  { apply Qfloor_unique.
    - apply (Qmult_le_r _ _ (Qnat k) K).
      setoid_replace (Qnat i * r * Qnat k) with (Qnat i) by (rewrite <- Qmult_assoc, Hr; ring).
      unfold Qnat. rewrite <- inject_Z_mult. apply inject_Z_le. nia.
    - apply (Qmult_lt_r _ _ (Qnat k) K).
      setoid_replace (Qnat i * r * Qnat k) with (Qnat i) by (rewrite <- Qmult_assoc, Hr; ring).
      unfold Qnat. rewrite <- inject_Z_mult. apply inject_Z_lt. nia. }
  unfold interpolate, interp_index, Math_floor. rewrite F.
  replace (Z.min (Z.of_nat (length b) - 1 + 1) (Z.of_nat (length b) - 1))
    with (Z.of_nat (length b) - 1)%Z by lia.
  replace (Z.to_nat (Z.of_nat (length b) - 1)) with (length b - 1)%nat by lia.
  apply round_f32_compat. ring.
Qed.

(** ** Witnesses *)

Lemma upsample_memoryless_witness :
  ((2 <= 2)%nat /\ (1 # 2) * Qnat 2 == 1 /\ pending (mkResampleState (1 # 2) None) = []) /\
  exists s,
    resample_blocks (mkResampleState (1 # 2) None) [[0]; [1]] =
      Ok (concat (map (fun b => map (interpolate b (1 # 2)) (seq 0 (length b * 2))) [[0]; [1]]), s) /\
    resampleRatio s = 1 # 2 /\ pending s = [].
Proof.
  assert (E : (1 # 2) * Qnat 2 == 1) by (vm_compute; reflexivity).
  split; [split; [lia | split; [exact E | reflexivity]]|].
  exact (upsample_memoryless 2 (mkResampleState (1 # 2) None) [[0]; [1]] ltac:(lia) E eq_refl).
Defined.

Lemma upsample_hold_witness :
  ((2 <= 2)%nat /\ (1 # 2) * Qnat 2 == 1 /\ [0; 1 # 4] <> [] /\
   ((length [0%Q; (1 # 4)%Q] - 1) * 2 <= 3 < length [0%Q; (1 # 4)%Q] * 2)%nat) /\
  interpolate [0; 1 # 4] (1 # 2) 3 = round_f32 (nth (length [0; 1 # 4] - 1) [0; 1 # 4] 0).
Proof.
  assert (E : (1 # 2) * Qnat 2 == 1) by (vm_compute; reflexivity).
  split; [split; [lia | split; [exact E | split; [discriminate | simpl; lia]]]|].
  exact (upsample_hold 2 (1 # 2) [0; 1 # 4] 3 ltac:(lia) E ltac:(discriminate) ltac:(simpl; lia)).
Defined.

End Upsampling.
