(* ===== verification/ChunkBuffer.v ===== *)
(** * ChunkBuffer: batching PCM samples into 2048-sample messages

    Models the output side of [AudioProcessingWorklet]
    ([src/lib/worklets/audio-processing.ts]): the fields [buffer]
    ([new Int16Array(2048)]) and [bufferWriteIndex] (lines 24-25), the
    method [sendAndClearBuffer] (lines 55-65), which posts
    [this.buffer.slice(0, bufferWriteIndex)] on the message port, and
    the store-and-flush step of the loop of [processChunk]
    (lines 130-133).  The port is modelled as the list of the messages
    posted so far.  The [Int16Array] is a list updated with stdpp's
    [<[i:=x]>], which, like a typed-array store, does nothing out of
    range.

    Theorems: the write index stays below the capacity between
    samples and the buffer holds int16 values only; the buffer refines
    an abstract FIFO batcher; pushing any sequence of samples posts
    exactly the consecutive 2048-sample runs of it, in order, and keeps
    the rest pending; and whatever samples follow, the pending ones are
    eventually posted. *)

From Stdlib Require Import String.
From stdpp Require Import base list.
From Stdlib Require Import ZArith QArith List.
From S2P Require Import Prelude JsNumber.
Import Js.

Module ChunkBuffer.

(** ** State *)

(** [{ event: 'chunk', data: { int16arrayBuffer } }], its buffer seen
    as the int16 samples it holds. *)
Record PortMessage := mkPortMessage {
  event : String.string;
  int16arrayBuffer : list Z
}.

Record ChunkBuffer := mkChunkBuffer {
  buffer : list Z;
  bufferWriteIndex : nat;
  port : list PortMessage
}.

(** [new Int16Array(2048)] *)
Definition BUFFER_LENGTH : nat := 2048.

(** Lines 24-25: a zero-filled buffer and index [0]; nothing posted. *)
Definition init_chunk_buffer : ChunkBuffer :=
  mkChunkBuffer (replicate BUFFER_LENGTH 0%Z) 0 [].

(** ** Operations *)

(** Lines 55-65. *)
Definition sendAndClearBuffer (cb : ChunkBuffer) : ChunkBuffer :=
  if (0 <? bufferWriteIndex cb)%nat then
    mkChunkBuffer (buffer cb) 0
      (port cb ++ [mkPortMessage "chunk"%string (take (bufferWriteIndex cb) (buffer cb))])
  else cb.

(** Lines 130-133: [this.buffer[this.bufferWriteIndex++] = int16Value;]
    (the [Int16Array] store applies ToInt16) and the flush when the
    index reaches the length. *)
Definition store_sample (int16Value : Q) (cb : ChunkBuffer) : ChunkBuffer :=
  let i := bufferWriteIndex cb in
  let cb1 := mkChunkBuffer (<[i := ToInt16 int16Value]> (buffer cb)) (S i) (port cb) in
  if (length (buffer cb1) <=? bufferWriteIndex cb1)%nat then sendAndClearBuffer cb1 else cb1.

(** Storing a sequence of values, one loop iteration each. *)
Definition store_all (vs : list Q) (cb : ChunkBuffer) : ChunkBuffer :=
  fold_left (fun acc v => store_sample v acc) vs cb.

(** ** Invariant and abstraction *)

(** The buffer keeps its length and the index stays below it. *)
Definition cb_wf (cb : ChunkBuffer) : Prop :=
  length (buffer cb) = BUFFER_LENGTH /\ (bufferWriteIndex cb < BUFFER_LENGTH)%nat.

(** The samples written since the last flush. *)
Definition pending_samples (cb : ChunkBuffer) : list Z :=
  take (bufferWriteIndex cb) (buffer cb).

(** The chunks posted so far. *)
Definition posted (cb : ChunkBuffer) : list (list Z) :=
  map int16arrayBuffer (port cb).

(** Reference: a FIFO batcher that holds a list of pending samples and
    emits them as one chunk when they reach the capacity. *)
Definition batch_push (cap : nat) (v : Z) (st : list Z * list (list Z)) : list Z * list (list Z) :=
  let '(pend, out) := st in
  if (cap <=? length (pend ++ [v]))%nat then ([], out ++ [pend ++ [v]])
  else (pend ++ [v], out).

(** Type invariant of the [Int16Array]: the buffer and every posted
    message hold int16 values only. *)
Definition cb_typed (cb : ChunkBuffer) : Prop :=
  Forall is_int16 (buffer cb) /\ Forall (fun m => Forall is_int16 (int16arrayBuffer m)) (port cb).

(** The next store, whatever sample the loop brings: every successor
    [store_sample v cb] is possible. *)
Definition store_step (cb : ChunkBuffer) (mid : ChunkBuffer -> Prop) : Prop :=
  forall v, mid (store_sample v cb).

(** A message holding [pend] followed by later samples has been posted
    after the messages [port0]. *)
Definition posted_from (pend : list Z) (port0 : list PortMessage) (cb : ChunkBuffer) : Prop :=
  exists rest msgs, port cb = port0 ++ mkPortMessage "chunk"%string (pend ++ rest) :: msgs.

(** ** Lemmas *)

Lemma BUFFER_LENGTH_pos : (0 < BUFFER_LENGTH)%nat.
Proof. unfold BUFFER_LENGTH. lia. Qed.

Lemma init_chunk_buffer_wf : cb_wf init_chunk_buffer.
Proof. split; [apply length_replicate | apply BUFFER_LENGTH_pos]. Qed.

(** One store on a well-formed buffer, in terms of the abstraction. *)
Lemma store_sample_step (v : Q) (cb : ChunkBuffer) :
  cb_wf cb ->
  let pend := pending_samples cb ++ [ToInt16 v] in
  (length pend = BUFFER_LENGTH ->
     pending_samples (store_sample v cb) = [] /\ bufferWriteIndex (store_sample v cb) = 0%nat /\
     port (store_sample v cb) = port cb ++ [mkPortMessage "chunk"%string pend]) /\
  (length pend <> BUFFER_LENGTH ->
     pending_samples (store_sample v cb) = pend /\ port (store_sample v cb) = port cb /\
     bufferWriteIndex (store_sample v cb) = length pend) /\
  length (buffer (store_sample v cb)) = BUFFER_LENGTH.
Proof.
  intros [Hl Hi] pend.
  assert (Hp : take (S (bufferWriteIndex cb)) (<[bufferWriteIndex cb := ToInt16 v]> (buffer cb)) = pend).
  { rewrite (take_S_r _ _ (ToInt16 v)) by (apply list_lookup_insert_eq; lia).
    rewrite take_insert. destruct (decide _); [lia|]. reflexivity. }
  assert (Hlen : length pend = S (bufferWriteIndex cb))
    by (unfold pend, pending_samples; rewrite length_app, length_take; simpl; lia).
  unfold store_sample. simpl. rewrite length_insert, Hl.
  destruct (BUFFER_LENGTH <=? S (bufferWriteIndex cb))%nat eqn:E;
    [apply Nat.leb_le in E | apply Nat.leb_gt in E].
  - unfold sendAndClearBuffer. simpl. rewrite Hp.
    split; [intros _; split; [reflexivity | split; reflexivity]|].
    split; [intros N; lia | rewrite length_insert; exact Hl].
  - unfold pending_samples. simpl. rewrite Hp.
    split; [intros N; lia|]. split; [intros _; split; [reflexivity | split; [reflexivity | lia]]|].
    rewrite length_insert. exact Hl.
Qed.

Lemma pending_samples_length (cb : ChunkBuffer) :
  cb_wf cb -> length (pending_samples cb) = bufferWriteIndex cb.
Proof. intros [Hl Hi]. unfold pending_samples. rewrite length_take. lia. Qed.

(** the write index stays below the capacity and the buffer
    keeps its 2048 slots between samples: the flush fires as soon as
    the index reaches the length, before any further write. *)
Theorem store_sample_wf (v : Q) (cb : ChunkBuffer) :
  cb_wf cb -> cb_wf (store_sample v cb).
Proof.
  intros W. pose proof (pending_samples_length cb W) as L.
  destruct (store_sample_step v cb W) as [Full [Part Len]].
  split; [exact Len|].
  destruct (decide (length (pending_samples cb ++ [ToInt16 v]) = BUFFER_LENGTH)) as [E | E].
  - destruct (Full E) as [_ [-> _]]. apply BUFFER_LENGTH_pos.
  - destruct (Part E) as [_ [_ ->]]. rewrite length_app in E |- *. simpl in *.
    destruct W as [_ Hi]. lia.
Qed.

Lemma init_chunk_buffer_typed : cb_typed init_chunk_buffer.
Proof. split; [apply Forall_replicate; unfold is_int16; lia | constructor]. Qed.

Lemma store_sample_typed (v : Q) (cb : ChunkBuffer) : cb_typed cb -> cb_typed (store_sample v cb).
Proof.
  intros [B P]. assert (B1 : Forall is_int16 (<[bufferWriteIndex cb := ToInt16 v]> (buffer cb)))
    by (apply Forall_insert; [exact B | apply ToInt16_is_int16]).
  unfold store_sample. destruct (_ <=? _)%nat; [|split; assumption].
  unfold sendAndClearBuffer. destruct (0 <? _)%nat; cbn [buffer port]; [|split; assumption].
  split; [exact B1|]. apply Forall_app; split; [exact P|]. constructor; [apply Forall_take, B1 | constructor].
Qed.

Lemma store_all_typed (vs : list Q) (cb : ChunkBuffer) : cb_typed cb -> cb_typed (store_all vs cb).
Proof.
  revert cb. induction vs as [|v vs IH]; intros cb T; [exact T|].
  apply IH, store_sample_typed, T.
Qed.

(** Induction on the free slots left in the buffer. *)
Lemma pending_posted_within (n : nat) (cb : ChunkBuffer) :
  cb_wf cb -> (BUFFER_LENGTH - bufferWriteIndex cb <= n)%nat ->
  eventually store_step (posted_from (pending_samples cb) (port cb)) cb.
Proof.
  revert cb. induction n as [|n IH]; intros cb W Hn; [destruct W; lia|].
  apply (eventually_step _ _ _ (fun c => exists v, c = store_sample v cb)); [intros v; eauto|].
  intros c [v ->]. pose proof (pending_samples_length cb W) as L.
  destruct (store_sample_step v cb W) as [Full [Part _]].
  destruct (decide (length (pending_samples cb ++ [ToInt16 v]) = BUFFER_LENGTH)) as [E | E].
  - apply eventually_done. destruct (Full E) as [_ [_ P]].
    exists [ToInt16 v], []. exact P.
  - destruct (Part E) as [P1 [P2 I]].
    pose proof (store_sample_wf v cb W) as W1.
    apply (eventually_weaken _ (posted_from (pending_samples (store_sample v cb)) (port (store_sample v cb)))).
    + apply IH; [exact W1|]. rewrite I, length_app, L. simpl. lia.
    + intros c (rest & msgs & Hc). rewrite P1, P2, <- app_assoc in Hc.
      exists ([ToInt16 v] ++ rest), msgs. exact Hc.
Qed.

(** C7: refinement.  Seen through [pending_samples] and [posted], a
    store is the reference batcher's push of the converted sample. *)
Theorem store_sample_refines (v : Q) (cb : ChunkBuffer) :
  cb_wf cb ->
  (pending_samples (store_sample v cb), posted (store_sample v cb)) =
  batch_push BUFFER_LENGTH (ToInt16 v) (pending_samples cb, posted cb).
Proof.
  intros W. pose proof (pending_samples_length cb W) as L. destruct W as [Hl Hi].
  destruct (store_sample_step v cb (conj Hl Hi)) as [Full [Part _]].
  unfold batch_push, posted.
  destruct (BUFFER_LENGTH <=? length (pending_samples cb ++ [ToInt16 v]))%nat eqn:E;
    [apply Nat.leb_le in E | apply Nat.leb_gt in E];
    rewrite length_app in E; simpl in E.
  - destruct Full as [-> [_ ->]]; [rewrite length_app; simpl; lia|].
    rewrite map_app. reflexivity.
  - destruct Part as [-> [-> _]]; [rewrite length_app; simpl; lia|]. reflexivity.
Qed.

(** batching of a whole sample sequence.  Storing [vs] posts
    "chunk" messages whose contents, concatenated and followed by the
    samples left pending, are exactly the pending samples before
    followed by the converted [vs]: in order, none lost, none
    duplicated; every posted chunk holds exactly 2048 samples (never an
    empty one) and fewer than 2048 remain pending. *)
Theorem store_all_exact (vs : list Q) (cb : ChunkBuffer) :
  cb_wf cb ->
  let cb' := store_all vs cb in
  cb_wf cb' /\
  exists chunks,
    port cb' = port cb ++ map (mkPortMessage "chunk"%string) chunks /\
    Forall (fun c => length c = BUFFER_LENGTH) chunks /\
    concat chunks ++ pending_samples cb' = pending_samples cb ++ map ToInt16 vs.
Proof.
  revert cb. induction vs as [|v vs IH]; intros cb W cb'.
  - split; [exact W|]. exists []. rewrite !app_nil_r. split; [reflexivity|]. split; [constructor | reflexivity].
  - pose proof (store_sample_wf v cb W) as W1.
    destruct (IH (store_sample v cb) W1) as [W' (chunks & Hport & Hlen & Hcat)].
    split; [exact W'|]. unfold cb'. simpl.
    destruct (store_sample_step v cb W) as [Full [Part _]].
    destruct (decide (length (pending_samples cb ++ [ToInt16 v]) = BUFFER_LENGTH)) as [E | E].
    + destruct (Full E) as [P1 [_ Port1]].
      exists ((pending_samples cb ++ [ToInt16 v]) :: chunks).
      rewrite Hport, Port1, <- app_assoc. split; [reflexivity|].
      split; [constructor; assumption|].
      simpl. rewrite <- app_assoc, Hcat, P1. simpl. rewrite <- app_assoc. reflexivity.
    + destruct (Part E) as [P1 [Port1 _]].
      exists chunks. rewrite Hport, Port1. split; [reflexivity|]. split; [exact Hlen|].
      rewrite Hcat, P1, <- app_assoc. reflexivity.
Qed.

(** C14: flush exactness.  From the initial buffer, storing [2048 + m]
    samples with [m < 2048] posts exactly one chunk, the first 2048
    converted samples in order, and leaves the other [m] pending, with
    no chunk for them yet ([m = 0]: exactly one chunk and an empty
    buffer; [m = 1]: one chunk and one pending sample). *)
Theorem flush_exactness (vs : list Q) (m : nat) :
  length vs = (BUFFER_LENGTH + m)%nat -> (m < BUFFER_LENGTH)%nat ->
  port (store_all vs init_chunk_buffer) =
    [mkPortMessage "chunk"%string (map ToInt16 (take BUFFER_LENGTH vs))] /\
  pending_samples (store_all vs init_chunk_buffer) = map ToInt16 (drop BUFFER_LENGTH vs).
Proof.
  intros Hv Hm. pose proof BUFFER_LENGTH_pos as Bp.
  destruct (store_all_exact vs init_chunk_buffer init_chunk_buffer_wf)
    as [W (chunks & Hport & Hlen & Hcat)].
  pose proof (pending_samples_length _ W) as PL. destruct W as [_ Hi].
  change (pending_samples init_chunk_buffer) with (@nil Z) in Hcat.
  pose proof (f_equal length Hcat) as L. simpl app in Hcat, L.
  rewrite length_app, (length_concat_uniform _ _ Hlen), length_map in L.
  destruct chunks as [|c [|c' rest]]; simpl length in L; [nia | | nia].
  inversion Hlen as [|? ? Hc _]; subst. simpl concat in Hcat. rewrite app_nil_r in Hcat.
  assert (Ec : c = map ToInt16 (take BUFFER_LENGTH vs)).
  { rewrite <- firstn_map, <- Hcat, take_app_length' by lia. reflexivity. }
  split; [rewrite Hport, Ec; reflexivity|].
  rewrite <- skipn_map, <- Hcat, drop_app_length' by lia. reflexivity.
Qed.

(** C15: liveness of the output.  From any well-formed buffer, whatever
    samples arrive next, a message is eventually posted that starts
    with the samples pending now: no stored sample waits forever once
    the stream goes on (at most [2048] further stores, since the index
    rises by one per store and the buffer flushes at [2048]). *)
Theorem pending_eventually_posted (cb : ChunkBuffer) :
  cb_wf cb -> eventually store_step (posted_from (pending_samples cb) (port cb)) cb.
Proof. intros W. apply (pending_posted_within BUFFER_LENGTH cb W). lia. Qed.

(** ** Witnesses *)

Lemma pending_eventually_posted_witness :
  cb_wf init_chunk_buffer /\
  eventually store_step (posted_from (pending_samples init_chunk_buffer) (port init_chunk_buffer)) init_chunk_buffer.
Proof. split; [exact init_chunk_buffer_wf | exact (pending_eventually_posted _ init_chunk_buffer_wf)]. Defined.

Lemma store_sample_refines_witness :
  cb_wf init_chunk_buffer /\
  (pending_samples (store_sample (1 # 2) init_chunk_buffer), posted (store_sample (1 # 2) init_chunk_buffer)) =
  batch_push BUFFER_LENGTH (ToInt16 (1 # 2)) (pending_samples init_chunk_buffer, posted init_chunk_buffer).
Proof.
  assert (W : cb_wf init_chunk_buffer) by (split; [reflexivity | unfold BUFFER_LENGTH; simpl; lia]).
  split; [exact W | exact (store_sample_refines (1 # 2) init_chunk_buffer W)].
Defined.

Lemma flush_exactness_witness :
  (length (repeat (1 # 2) 2049) = (BUFFER_LENGTH + 1)%nat /\ (1 < BUFFER_LENGTH)%nat) /\
  port (store_all (repeat (1 # 2) 2049) init_chunk_buffer) =
    [mkPortMessage "chunk"%string (map ToInt16 (take BUFFER_LENGTH (repeat (1 # 2) 2049)))] /\
  pending_samples (store_all (repeat (1 # 2) 2049) init_chunk_buffer) =
    map ToInt16 (drop BUFFER_LENGTH (repeat (1 # 2) 2049)).
Proof.
  assert (L : length (repeat (1 # 2) 2049) = (BUFFER_LENGTH + 1)%nat) by (rewrite repeat_length; reflexivity).
  assert (M : (1 < BUFFER_LENGTH)%nat) by (unfold BUFFER_LENGTH; lia).
  split; [split; assumption | exact (flush_exactness (repeat (1 # 2) 2049) 1 L M)].
Defined.

End ChunkBuffer.
