(* ===== verification/Worklet.v ===== *)
(** * Worklet: the audio processor as a whole

    Models [AudioProcessingWorklet] of
    [src/lib/worklets/audio-processing.ts]: its state (the
    [ChunkBuffer] fields, the [Resampler] fields and [hasAudio]), the
    constructor (lines 22-41), [process] (lines 46-53) and
    [processChunk] (lines 120-135), which composes [resample], the
    quantizer and the store-and-flush step.  The host's sequence of
    render quanta is a reachability relation over [process] steps.

    Theorems: the invariant of every reachable state (bounded buffers,
    fixed ratio, only full chunks ever posted), the end-to-end contract
    (the posted chunks are the 2048-sample runs of the quantized
    resampled stream), its integer ratio and unity ratio instances,
    totality for positive rates, and, at 44.1 kHz, the leftover that
    outgrows a stride and makes an empty quantum emit a sample. *)

From Stdlib Require Import String.
From stdpp Require Import base list.
From Stdlib Require Import ZArith QArith Qround List Lia Lqa.
From S2P Require Import Prelude JsNumber Quantizer Resampler Drift ChunkBuffer.
Import Js Quantizer Resampler Drift ChunkBuffer.
Local Open Scope js_scope.

Module Worklet.

(** ** State *)

Record Worklet := mkWorklet {
  outbuf : ChunkBuffer.ChunkBuffer;        (* buffer, bufferWriteIndex, port *)
  resampler : Resampler.ResampleState;     (* _resampleRatio, _resampleBuffer *)
  hasAudio : bool
}.

(** Lines 22-41. *)
Definition init_worklet (options : option NodeOptions) : Worklet :=
  mkWorklet init_chunk_buffer (init_resample options) false.

(** ** Methods *)

(** Lines 120-135: resample, then quantize and store every sample,
    flushing each time the buffer fills. *)
Definition processChunk (w : Worklet) (float32Array : list Q) : outcome Worklet :=
  let* (resampled, rs') := resample (resampler w) float32Array in
  if (length resampled =? 0)%nat then Ok (mkWorklet (outbuf w) rs' (hasAudio w))
  else Ok (mkWorklet (store_all (map int16Value resampled) (outbuf w)) rs' (hasAudio w)).

(** Lines 46-53: [inputs[input][channel][sample]]; the first channel of
    the first input is processed when both exist, and the processor
    asks to be kept alive. *)
Definition process (w : Worklet) (inputs : list (list (list Q))) : outcome (Worklet * bool) :=
  match inputs with
  | (channel0 :: _) :: _ =>
      let* w' := processChunk w channel0 in Ok (w', true)
  | _ => Ok (w, true)
  end.

(** The host calling [process] once per render quantum, each carrying
    one mono block. *)
Fixpoint run_blocks (w : Worklet) (bs : list (list Q)) : outcome Worklet :=
  match bs with
  | [] => Ok w
  | b :: bs => let* (w1, _) := process w [[b]] in run_blocks w1 bs
  end.

(** States the processor reaches from its construction with
    [options]. *)
Inductive reachable (options : option NodeOptions) : Worklet -> Prop :=
| reach_init : reachable options (init_worklet options)
| reach_process w inputs w' alive :
    reachable options w -> process w inputs = Ok (w', alive) -> reachable options w'.

(** The invariant. *)
Definition worklet_inv (options : option NodeOptions) (w : Worklet) : Prop :=
  cb_wf (outbuf w) /\
  resampleRatio (resampler w) = resampleRatio (init_resample options) /\
  Forall (fun c => length c = BUFFER_LENGTH) (posted (outbuf w)) /\
  hasAudio w = false.

(** ** Lemmas *)

(** The early return of line 123 is the loop over no samples. *)
Lemma processChunk_ok (w : Worklet) (x out : list Q) (rs : ResampleState) :
  resample (resampler w) x = Ok (out, rs) ->
  processChunk w x = Ok (mkWorklet (store_all (map int16Value out) (outbuf w)) rs (hasAudio w)).
Proof.
  intros R. unfold processChunk. rewrite R. simpl.
  destruct out; reflexivity.
Qed.

(** The two outcomes of a successful [process] call: nothing to
    process, or one [processChunk] on a block the resampler accepted. *)
Lemma process_shape (w w' : Worklet) (inputs : list (list (list Q))) (alive : bool) :
  process w inputs = Ok (w', alive) ->
  alive = true /\
  (w' = w \/ exists x out rs, resample (resampler w) x = Ok (out, rs) /\
     w' = mkWorklet (store_all (map int16Value out) (outbuf w)) rs (hasAudio w)).
Proof.
  intros Hp. destruct inputs as [|[|channel0 chans] ins]; simpl in Hp;
    try (injection Hp as <- <-; split; [reflexivity | left; reflexivity]).
  destruct (resample (resampler w) channel0) as [[out rs]|e] eqn:R;
    [|unfold processChunk in Hp; rewrite R in Hp; discriminate].
  rewrite (processChunk_ok w channel0 out rs R) in Hp. simpl in Hp. injection Hp as <- <-.
  split; [reflexivity | right; eauto].
Qed.

Lemma posted_store_all (vs : list Q) (cb : ChunkBuffer.ChunkBuffer) :
  cb_wf cb ->
  exists chunks, posted (store_all vs cb) = posted cb ++ chunks /\
    Forall (fun c => length c = BUFFER_LENGTH) chunks /\
    concat chunks ++ pending_samples (store_all vs cb) = pending_samples cb ++ map ToInt16 vs.
Proof.
  intros W. destruct (store_all_exact vs cb W) as [_ (chunks & P & L & C)].
  exists chunks. unfold posted at 1. rewrite P, map_app, map_map. simpl. rewrite map_id.
  split; [reflexivity|]. split; assumption.
Qed.

(** One render quantum with a mono block, when the resampler succeeds. *)
Lemma run_blocks_cons (w : Worklet) (b : list Q) (bs : list (list Q)) (o : list Q) (rs : ResampleState) :
  resample (resampler w) b = Ok (o, rs) ->
  run_blocks w (b :: bs) = run_blocks (mkWorklet (store_all (map int16Value o) (outbuf w)) rs (hasAudio w)) bs.
Proof. intros R. simpl. rewrite (processChunk_ok w b o rs R). reflexivity. Qed.

Lemma resample_blocks_total (st : ResampleState) (bs : list (list Q)) :
  0 < resampleRatio st -> exists o s, resample_blocks st bs = Ok (o, s).
Proof.
  revert st. induction bs as [|b bs IH]; intros st Hr; [eexists _, _; reflexivity|].
  destruct (resample_ok st b Hr) as (o1 & s1 & R1 & Hr1).
  rewrite <- Hr1 in Hr. destruct (IH s1 Hr) as (o2 & s2 & R2).
  eexists _, _. simpl. rewrite R1. simpl. rewrite R2. reflexivity.
Qed.

(** ** Properties *)

(** C9: the invariant holds in every reachable state: the output
    buffer is well formed, the ratio is the one fixed at construction,
    every message ever posted is a full 2048-sample chunk, and
    [hasAudio] keeps its initial [false]. *)
Theorem reachable_inv (options : option NodeOptions) (w : Worklet) :
  reachable options w -> worklet_inv options w.
Proof.
  induction 1 as [|w inputs w' alive Hr IH Hp].
  - split; [apply init_chunk_buffer_wf|]. split; [reflexivity|]. split; [constructor | reflexivity].
  - destruct IH as (W & Hratio & Hfull & Ha).
    destruct (process_shape _ _ _ _ Hp) as [_ [-> | (x & out & rs & R & ->)]];
      [split; [|split; [|split]]; assumption|].
    destruct (posted_store_all (map int16Value out) (outbuf w) W) as (chunks & P & L & _).
    split; [apply store_all_exact; exact W|]. simpl.
    split; [rewrite (resample_ratio_kept _ _ _ _ R); exact Hratio|].
    split; [rewrite P; apply Forall_app; split; assumption | exact Ha].
Qed.

(** The end-to-end contract of the processor.  Whenever the
    resampler accepts the stream of blocks [bs] (it always does for a
    positive ratio), running the blocks through [process] succeeds, and
    the chunks it posts, concatenated and followed by the samples still
    buffered, are the samples buffered before followed by the quantized
    resampled stream; each posted chunk holds 2048 samples. *)
Theorem run_blocks_contract (w : Worklet) (bs : list (list Q)) (out : list Q) (rs : ResampleState) :
  cb_wf (outbuf w) -> resample_blocks (resampler w) bs = Ok (out, rs) ->
  exists w' chunks,
    run_blocks w bs = Ok w' /\ resampler w' = rs /\ cb_wf (outbuf w') /\
    posted (outbuf w') = posted (outbuf w) ++ chunks /\
    Forall (fun c => length c = BUFFER_LENGTH) chunks /\
    concat chunks ++ pending_samples (outbuf w') = pending_samples (outbuf w) ++ map quantize out.
Proof.
  revert w out rs. induction bs as [|b bs IH]; intros w out rs W RB.
  - injection RB as <- <-. exists w, []. rewrite !app_nil_r.
    split; [reflexivity|]. split; [reflexivity|]. split; [exact W|]. split; [reflexivity|].
    split; [constructor | reflexivity].
  - simpl in RB. destruct (resample (resampler w) b) as [[o1 rs1]|e] eqn:R1; [|discriminate].
    simpl in RB. destruct (resample_blocks rs1 bs) as [[os rs2]|e] eqn:R2; [|discriminate].
    injection RB as <- <-.
    destruct (posted_store_all (map int16Value o1) (outbuf w) W) as (c1 & P1 & L1 & C1).
    pose proof (proj1 (store_all_exact (map int16Value o1) (outbuf w) W)) as W1.
    destruct (IH (mkWorklet (store_all (map int16Value o1) (outbuf w)) rs1 (hasAudio w)) os rs2 W1 R2)
      as (w' & c2 & Run & Rs & W' & P2 & L2 & C2).
    exists w', (c1 ++ c2). rewrite (run_blocks_cons w b bs o1 rs1 R1).
    split; [exact Run|]. split; [exact Rs|]. split; [exact W'|].
    simpl in P2, C2. rewrite P2, P1, app_assoc. split; [reflexivity|].
    split; [apply Forall_app; split; assumption|].
    rewrite concat_app, <- app_assoc, C2, app_assoc, C1, map_app, map_map, app_assoc. reflexivity.
Qed.

(** C1: the processor as constructed by the host.  With positive
    sample rates, running any stream of render quanta never throws, and
    the chunks posted, concatenated and followed by the samples still
    buffered, are the quantized output of the resampler on that stream,
    each chunk a full 2048 samples. *)
Theorem pipeline_stream (source target : Q) (bs : list (list Q)) :
  0 < source -> 0 < target ->
  exists out rs w',
    resample_blocks (init_resample (rate_options source target)) bs = Ok (out, rs) /\
    run_blocks (init_worklet (rate_options source target)) bs = Ok w' /\
    Forall (fun c => length c = BUFFER_LENGTH) (posted (outbuf w')) /\
    concat (posted (outbuf w')) ++ pending_samples (outbuf w') = map quantize out.
Proof.
  intros Hs Ht.
  destruct (resample_blocks_total _ bs (init_ratio_pos source target Hs Ht)) as (o & s & RB).
  destruct (run_blocks_contract (init_worklet (rate_options source target)) bs o s
              init_chunk_buffer_wf RB) as (w' & chunks & Run & _ & _ & P & L & C).
  exists o, s, w'. simpl in P, C. rewrite P.
  split; [exact RB|]. split; [exact Run|]. split; [exact L | exact C].
Qed.

Lemma init_ratio_int (source target : Q) (k : nat) :
  (2 <= k)%nat -> 0 < target -> source == Qnat k * target ->
  resampleRatio (init_resample (rate_options source target)) == Qnat k.
Proof.
  intros Hk Ht Hs. destruct (Qnat_gt1 k Hk) as [Hpos H1].
  rewrite init_resample_rates.
  destruct (Qeq_bool source 0) eqn:E1; [apply Qeq_bool_iff in E1; exfalso; nra|].
  destruct (Qeq_bool target 0) eqn:E2; [apply Qeq_bool_iff in E2; lra|].
  destruct (Qeq_bool source target) eqn:E3.
  - apply Qeq_bool_iff in E3. exfalso. apply H1.
    apply (Qmult_inj_r _ _ target); [lra|]. rewrite <- Hs, E3. ring.
  - simpl. rewrite Hs. field. lra.
Qed.

(** C18: for a source rate [k >= 2] times the target (48 kHz capture
    for a 16 kHz service: [k = 3]) and binary32 input, the PCM the
    processor posts and buffers is exactly the quantized decimation of
    the whole input stream, whatever its split into render quanta. *)
Theorem pipeline_integer_ratio (source target : Q) (k : nat) (bs : list (list Q)) :
  (2 <= k)%nat -> 0 < target -> source == Qnat k * target -> Forall is_f32 (concat bs) ->
  exists w',
    run_blocks (init_worklet (rate_options source target)) bs = Ok w' /\
    Forall (fun c => length c = BUFFER_LENGTH) (posted (outbuf w')) /\
    concat (posted (outbuf w')) ++ pending_samples (outbuf w') = map quantize (decimate k (concat bs)).
Proof.
  intros Hk Ht Hs Hf. set (st := init_resample (rate_options source target)).
  pose proof (init_ratio_int source target k Hk Ht Hs) as Hr. fold st in Hr.
  destruct (resample_blocks_decimate st bs k Hk Hr ltac:(simpl; lia) Hf) as (s & RB & _ & _).
  destruct (run_blocks_contract (init_worklet (rate_options source target)) bs _ s
              init_chunk_buffer_wf RB) as (w' & chunks & Run & _ & _ & P & L & C).
  exists w'. simpl in P, C. rewrite P. split; [exact Run|]. split; [exact L | exact C].
Qed.

(** C19: pass-through.  With equal rates the resampler returns a whole
    stream of blocks unchanged, with no rounding and no state, and end
    to end the PCM posted and buffered is the quantized input stream
    itself. *)
Theorem pipeline_unity (rate : Q) (bs : list (list Q)) :
  resample_blocks (init_resample (rate_options rate rate)) bs =
    Ok (concat bs, init_resample (rate_options rate rate)) /\
  exists w',
    run_blocks (init_worklet (rate_options rate rate)) bs = Ok w' /\
    Forall (fun c => length c = BUFFER_LENGTH) (posted (outbuf w')) /\
    concat (posted (outbuf w')) ++ pending_samples (outbuf w') = map quantize (concat bs).
Proof.
  split; [apply resample_passthrough|].
  destruct (run_blocks_contract (init_worklet (rate_options rate rate)) bs _ _
              init_chunk_buffer_wf (resample_passthrough rate bs))
    as (w' & chunks & Run & _ & _ & P & L & C).
  exists w'. simpl in P, C. rewrite P. split; [exact Run|]. split; [exact L | exact C].
Qed.

(** C26: at 44.1 kHz the held-over samples outgrow one stride, and then
    an empty quantum is not a no-op.  For every stream of [3 + 3k]
    render quanta of 128 samples, whatever the samples, the resampler
    ends holding 3 samples, more than the ratio [2.75625], though the
    spec bounds a leftover by one stride.  A following quantum whose
    block is empty, which the spec calls a legal no-op, passes the test
    of line 48 (an empty [Float32Array] is truthy) and stores exactly
    one sample. *)
Theorem empty_quantum_after_stream_44100 (k : nat) (bs : list (list Q)) :
  Forall (fun b => length b = 128%nat) bs -> length bs = (3 + 3 * k)%nat ->
  exists w, run_blocks (init_worklet options_44100_16000) bs = Ok w /\
    length (pending (resampler w)) = 3%nat /\
    resampleRatio (resampler w) < Qnat (length (pending (resampler w))) /\
    exists x rs, process w [[[]]] = Ok (mkWorklet (store_all (map int16Value [x]) (outbuf w)) rs (hasAudio w), true).
Proof.
  intros F L. destruct r_pos as [Hr H1].
  destruct (resample_blocks_counts _ bs Hr H1 F) as (o & s & RB & Es & N).
  assert (Hk : length (pending s) = 3%nat).
  { pose proof (f_equal snd N) as N2. cbn [snd] in N2. rewrite N2, L.
    change (length (pending (init_resample options_44100_16000))) with 0%nat. exact (held_44100 k). }
  destruct (run_blocks_contract (init_worklet options_44100_16000) bs o s init_chunk_buffer_wf RB)
    as (w & chunks & Run & Rw & _).
  exists w. split; [exact Run|]. rewrite Rw. split; [exact Hk|].
  split; [rewrite Hk, Es; vm_compute; reflexivity|].
  rewrite <- Es in Hr, H1. destruct (resample_counts s [] Hr H1) as (o' & s' & R' & _ & N').
  rewrite Es, Hk in N'.
  replace (call_counts (resampleRatio (init_resample options_44100_16000)) 3 (length (@nil Q)))
    with (1%nat, 1%nat) in N' by (vm_compute; reflexivity).
  injection N' as N1 _. destruct o' as [|x [|]]; try discriminate.
  exists x, s'. cbn [process]. rewrite <- Rw in R'. rewrite (processChunk_ok w [] [x] s' R'). reflexivity.
Qed.

(** ** Witnesses *)

Lemma reachable_inv_witness :
  reachable None (init_worklet None) /\ worklet_inv None (init_worklet None).
Proof.
  split; [apply reach_init | exact (reachable_inv None (init_worklet None) (reach_init None))].
Defined.

Lemma pipeline_stream_witness :
  (0 < 44100 /\ 0 < 16000) /\
  exists out rs w',
    resample_blocks (init_resample (rate_options 44100 16000)) [repeat 0 128] = Ok (out, rs) /\
    run_blocks (init_worklet (rate_options 44100 16000)) [repeat 0 128] = Ok w' /\
    Forall (fun c => length c = BUFFER_LENGTH) (posted (outbuf w')) /\
    concat (posted (outbuf w')) ++ pending_samples (outbuf w') = map quantize out.
Proof. split; [split; lra | apply pipeline_stream; lra]. Defined.

Lemma pipeline_integer_ratio_witness :
  ((2 <= 3)%nat /\ 0 < 16000 /\ 48000 == Qnat 3 * 16000 /\
   Forall is_f32 (concat [[0; 1; 0; -1]; [1 # 2]])) /\
  exists w',
    run_blocks (init_worklet (rate_options 48000 16000)) [[0; 1; 0; -1]; [1 # 2]] = Ok w' /\
    Forall (fun c => length c = BUFFER_LENGTH) (posted (outbuf w')) /\
    concat (posted (outbuf w')) ++ pending_samples (outbuf w') =
      map quantize (decimate 3 (concat [[0; 1; 0; -1]; [1 # 2]])).
Proof.
  assert (F : Forall is_f32 (concat [[0; 1; 0; -1]; [1 # 2]]))
    by (simpl; repeat constructor; vm_compute; reflexivity).
  assert (E : 48000 == Qnat 3 * 16000) by (vm_compute; reflexivity).
  split; [split; [lia | split; [lra | split; [exact E | exact F]]]|].
  exact (pipeline_integer_ratio 48000 16000 3 _ ltac:(lia) ltac:(lra) E F).
Defined.

Lemma empty_quantum_after_stream_44100_witness :
  (Forall (fun b => length b = 128%nat) (repeat (repeat (0 : Q) 128) 3) /\
   length (repeat (repeat (0 : Q) 128) 3) = (3 + 3 * 0)%nat) /\
  exists w, run_blocks (init_worklet options_44100_16000) (repeat (repeat 0 128) 3) = Ok w /\
    length (pending (resampler w)) = 3%nat /\
    resampleRatio (resampler w) < Qnat (length (pending (resampler w))) /\
    exists x rs, process w [[[]]] = Ok (mkWorklet (store_all (map int16Value [x]) (outbuf w)) rs (hasAudio w), true).
Proof.
  assert (F : Forall (fun b => length b = 128%nat) (repeat (repeat (0 : Q) 128) 3)).
  { apply Forall_forall. intros b Hb. apply repeat_spec in Hb. subst b. apply repeat_length. }
  split; [split; [exact F | reflexivity]|].
  exact (empty_quantum_after_stream_44100 0 _ F eq_refl).
Defined.

End Worklet.
