(* ===== verification/Host.v ===== *)
(** * The host: the audio worklet node that calls [process]

    The processor of [src/lib/worklets/audio-processing.ts] is driven
    by the Web Audio rendering thread, which calls [process] once per
    render quantum (lines 46-53).  What the host needs of a processor
    is the interface [AudioWorkletProcessor]: a [process] step that may
    throw.  [Worklet] implements it ([worklet_processor]).

    The node ([Node]) follows the rendering algorithm of the Web Audio
    API: while its processor is callable, each render quantum calls
    [process]; an exception marks the processor as no longer callable
    and queues a [processorerror] event, and the node renders silence
    from then on without calling [process] again.  An exception leaves
    the processor's state as it was: the only state [resample] touches
    before throwing is [_resampleBuffer] (line 83), which no later call
    can read.

    Theorems: against the interface, an errored node stays silent; for
    [Worklet], rates of opposite signs, which the constructor accepts,
    silence the node at its first non-empty block, so no chunk is ever
    posted. *)

From Stdlib Require Import String.
From stdpp Require Import base list.
From Stdlib Require Import ZArith QArith Qround List Lia Lqa.
From S2P Require Import Prelude JsNumber Quantizer Resampler ChunkBuffer Worklet.
Import Js Resampler ChunkBuffer Worklet.
Local Open Scope js_scope.

Module Host.

(** ** What the host needs of a processor *)

Class AudioWorkletProcessor (S : Type) := {
  wp_process : S -> list (list (list Q)) -> outcome (S * bool)
}.

#[export] Instance worklet_processor : AudioWorkletProcessor Worklet := {| wp_process := process |}.

(** ** The node *)

Section Node.

Context {S : Type} `{AudioWorkletProcessor S}.

(** The processor, its [[callable process]] flag, and the
    [processorerror] events queued so far. *)
Record Node := mkNode {
  n_proc : S;
  n_callable : bool;
  n_errors : list js_error
}.

Definition node_of (s : S) : Node := mkNode s true [].

(** One render quantum. *)
Definition render_quantum (n : Node) (inputs : list (list (list Q))) : Node :=
  if n_callable n then
    match wp_process (n_proc n) inputs with
    | Ok (s', _) => mkNode s' true (n_errors n)
    | Throw e => mkNode (n_proc n) false (n_errors n ++ [e])
    end
  else n.

(** Render quanta in turn. *)
Definition render (n : Node) (qs : list (list (list (list Q)))) : Node :=
  fold_left render_quantum qs n.

(** ** Lemmas against the interface *)

(** A processor that threw is never called again. *)
Lemma render_errored (n : Node) (qs : list (list (list (list Q)))) :
  n_callable n = false -> render n qs = n.
Proof.
  unfold render. revert n. induction qs as [|i qs IH]; intros n F; [reflexivity|].
  simpl. unfold render_quantum at 2. rewrite F. apply IH, F.
Qed.

End Node.

Arguments Node S : clear implicits.

(** ** Properties *)

(** C22: rates of opposite signs, which the constructor accepts
    though the spec classes them as a configuration error, silence the
    node: the first non-empty block throws a [RangeError] inside
    [process], the host stops calling it, and whatever quanta follow,
    no chunk is ever posted. *)
Theorem negative_rate_silences_node (source target : Q) (b : list Q) (qs : list (list (list (list Q)))) :
  source < 0 -> 0 < target -> b <> [] ->
  let n := render (node_of (init_worklet (rate_options source target))) ([[b]] :: qs) in
  n_callable n = false /\ n_errors n = [RangeError] /\ port (outbuf (n_proc n)) = [].
Proof.
  intros Hs Ht Hb. cbv zeta. change (render ?n (?i :: ?qs)) with (render (render_quantum n i) qs).
  assert (P : process (init_worklet (rate_options source target)) [[b]] = Throw RangeError).
  { simpl. unfold processChunk. simpl.
    rewrite (proj2 (negative_rate_accepted_then_throws source target b Hs Ht Hb)). reflexivity. }
  assert (R1 : render_quantum (node_of (init_worklet (rate_options source target))) [[b]] =
               mkNode (init_worklet (rate_options source target)) false [RangeError]).
  { unfold render_quantum. cbn [n_callable node_of n_proc n_errors].
    change (wp_process ?s ?i) with (process s i). rewrite P. reflexivity. }
  rewrite R1, render_errored by reflexivity. split; [reflexivity | split; reflexivity].
Qed.

(** ** Witnesses *)

Lemma negative_rate_silences_node_witness :
  ((-16000 < 0 /\ 0 < 16000) /\ [1 # 2] <> []) /\
  let n := render (node_of (init_worklet (rate_options (-16000) 16000))) ([[[1 # 2]]] :: [[[[0]]]]) in
  n_callable n = false /\ n_errors n = [RangeError] /\ port (outbuf (n_proc n)) = [].
Proof.
  split; [split; [split; lra | discriminate]|].
  exact (negative_rate_silences_node (-16000) 16000 [1 # 2] [[[[0]]]] ltac:(lra) ltac:(lra) ltac:(discriminate)).
Defined.

End Host.
