(* ===== verification/Dashboard.v ===== *)
(** * The dashboard view

    Models [src/components/dashboard/Dashboard.tsx]: the
    [chartComponents] table (lines 31-35), the [Chart] component
    (lines 58-97), which looks up its chart component by [chart.type]
    and builds its Chart.js options by spreading [chart.options] over
    fixed defaults, [MetricCard] (lines 43-50), and [Dashboard] (lines
    99-122), which renders the metric cards and the charts of the store
    when there are any.

    JS objects are association lists of their own properties in
    insertion order ([json]); the object spread [{...defaults,
    ...chart.options}] is [obj_spread], which sets each property of the
    source in turn (ECMA-262 CopyDataProperties).  The property read
    [chartComponents[chart.type]] ([lookup_component]) finds an own
    property, else one inherited from [Object.prototype], else
    [undefined].  The store's [Metric] and [ChartConfig] are records of
    the fields the component reads.  Rendering returns an [outcome]:
    React throws when an element's type is [undefined] or an object,
    and an inherited method rendered as a component returns a string
    ([toString]), returns an invalid child ([constructor]) or throws.

    The Chart.js registry is the list of registrables that the imports
    of [react-chartjs-2] (line 8: the [bar], [doughnut] and [pie]
    controllers) and [ChartJS.register] (lines 21-29) put in it.  What
    Chart.js does with the registry when it constructs a chart is
    library behaviour that depends on its version and is not modelled.

    Theorem: the dashboard renders exactly when every chart type is
    [bar], [doughnut], [pie] or [toString]. *)

From Stdlib Require Import Ascii String List Bool QArith Lia.
From S2P Require Import Prelude.
Import ListNotations.

Module Dashboard.

(** ** JS values and objects *)

#[warnings="-register-all"]
Inductive json : Type :=
| JBool (b : bool)
| JNum (n : Q)
| JStr (s : string)
| JArr (xs : list json)
| JObj (fields : list (string * json)).

Definition object := list (string * json).

(** [o[k]] for an own property. *)
Fixpoint obj_get (k : string) (o : object) : option json :=
  match o with
  | [] => None
  | (k', v) :: o' => if String.eqb k k' then Some v else obj_get k o'
  end.

(** CreateDataProperty: an existing key keeps its place, a new key
    goes last. *)
Fixpoint obj_set (k : string) (v : json) (o : object) : object :=
  match o with
  | [] => [(k, v)]
  | (k', v') :: o' => if String.eqb k k' then (k, v) :: o' else (k', v') :: obj_set k v o'
  end.

(** [{...target, ...src}]: the properties of [src] set in order. *)
Definition obj_spread (target src : object) : object :=
  fold_left (fun acc kv => obj_set (fst kv) (snd kv) acc) src target.

(** ** The store's records, as the component reads them *)

Record Metric := mkMetric {
  label : string;
  value : json
}.

Record ChartConfig := mkChartConfig {
  type : string;
  title : string;
  data : json;
  options : option object   (* [undefined] spreads nothing *)
}.

(** ** [MetricCard] *)

(** Lines 43-50: the card shows the metric's value above its label. *)
Record MetricCardView := mkMetricCardView {
  mc_value : json;
  mc_label : string
}.

Definition MetricCard (metric : Metric) : MetricCardView :=
  mkMetricCardView (value metric) (label metric).

(** ** [chartComponents] and [Chart] *)

Inductive ChartComponent := Bar | Doughnut | Pie.

(** Lines 31-35. *)
Definition chartComponents : list (string * ChartComponent) :=
  [("bar"%string, Bar); ("doughnut"%string, Doughnut); ("pie"%string, Pie)].

(** The object's own properties, in order. *)
Fixpoint own_property {A : Type} (t : string) (tbl : list (string * A)) : option A :=
  match tbl with
  | [] => None
  | (k, c) :: tbl' => if String.eqb t k then Some c else own_property t tbl'
  end.

(** The properties every object literal inherits from
    [Object.prototype] (ECMA-262, sections 20.1.3 and B.2.2). *)
Definition object_prototype_keys : list string :=
  ["constructor"; "__defineGetter__"; "__defineSetter__"; "hasOwnProperty";
   "__lookupGetter__"; "__lookupSetter__"; "isPrototypeOf"; "propertyIsEnumerable";
   "toString"; "valueOf"; "__proto__"; "toLocaleString"]%string.

(** What [obj[key]] reads on an object literal: an own property, else
    an inherited one, else [undefined]. *)
Inductive PropValue (A : Type) := Own (a : A) | Inherited (name : string) | Undefined.
Arguments Own {A} a.
Arguments Inherited {A} name.
Arguments Undefined {A}.

(** Line 59: [chartComponents[chart.type]]. *)
Definition lookup_component (t : string) (tbl : list (string * ChartComponent)) : PropValue ChartComponent :=
  match own_property t tbl with
  | Some c => Own c
  | None => if existsb (String.eqb t) object_prototype_keys then Inherited t else Undefined
  end.

Definition axis_style : json :=
  JObj [("ticks"%string, JObj [("color"%string, JStr "white")]);
        ("grid"%string, JObj [("color"%string, JStr "rgba(255, 255, 255, 0.1)")])].

(** Lines 60-87: the literal part of [options]. *)
Definition default_options : object :=
  [("responsive"%string, JBool true);
   ("plugins"%string, JObj [("legend"%string,
      JObj [("position"%string, JStr "top"); ("labels"%string, JObj [("color"%string, JStr "white")])])]);
   ("scales"%string, JObj [("x"%string, axis_style); ("y"%string, axis_style)])].

(** Lines 60-89. *)
Definition chart_options (chart : ChartConfig) : object :=
  obj_spread default_options (match options chart with Some o => o | None => [] end).

(** What [<ChartComponent data options />] inside the wrapper renders:
    a Chart.js chart, or the text a function component returned. *)
Inductive ChartBody :=
| ChartCanvas (c : ChartComponent) (chart_data : json) (chart_opts : object)
| TextNode (s : string).

Record ChartView := mkChartView {
  cv_title : string;
  cv_body : ChartBody
}.

(** Rendering [<ChartComponent data={...} options={...} />] when
    [ChartComponent] is a method inherited from [Object.prototype]:
    React calls it as a function component, with the props as argument
    and [this] undefined.  [Object.prototype.toString] then returns the
    string ["[object Undefined]"], which React renders as text;
    [Object] ([constructor]) returns the props object, which is not a
    valid React child; [__proto__] is [Object.prototype] itself, not a
    component; every other method first converts [this] with ToObject
    and throws a [TypeError]. *)
Definition call_inherited (name : string) : outcome ChartBody :=
  if String.eqb name "toString" then Ok (TextNode "[object Undefined]")
  else if String.eqb name "constructor" then Throw InvalidChild
  else if String.eqb name "__proto__" then Throw InvalidElementType
  else Throw TypeError.

(** Lines 58-97: [chartComponents[chart.type]] is [undefined] for a
    type that is neither an own nor an inherited property, and React
    throws when rendering it. *)
Definition Chart (chart : ChartConfig) : outcome ChartView :=
  match lookup_component (type chart) chartComponents with
  | Own c => Ok (mkChartView (title chart) (ChartCanvas c (data chart) (chart_options chart)))
  | Inherited name => obind (call_inherited name) (fun b => Ok (mkChartView (title chart) b))
  | Undefined => Throw InvalidElementType
  end.

(** ** The Chart.js registry *)

(** Chart.js keeps one global registry of controllers, elements,
    scales and plugins, each under its id. *)
Inductive RegistryKind := Controllers | Elements | Scales | Plugins.

Record Registrable := mkRegistrable {
  reg_kind : RegistryKind;
  reg_id : string
}.

(** Lines 9-18: the registrables imported from [chart.js]. *)
Definition CategoryScale := mkRegistrable Scales "category".
Definition LinearScale := mkRegistrable Scales "linear".
Definition BarElement := mkRegistrable Elements "bar".
Definition ArcElement := mkRegistrable Elements "arc".
Definition Title := mkRegistrable Plugins "title".
Definition Tooltip := mkRegistrable Plugins "tooltip".
Definition Legend := mkRegistrable Plugins "legend".

Definition registry := list Registrable.

(** [ChartJS.register(...items)]. *)
Definition register (items : list Registrable) (reg : registry) : registry := reg ++ items.

(** Line 8: importing [Bar], [Doughnut] and [Pie] from
    [react-chartjs-2] registers their controllers. *)
Definition typed_chart_controllers : registry :=
  [mkRegistrable Controllers "bar"; mkRegistrable Controllers "doughnut"; mkRegistrable Controllers "pie"].

(** Lines 21-29, after the imports of line 8. *)
Definition dashboard_registry : registry :=
  register [CategoryScale; LinearScale; BarElement; ArcElement; Title; Tooltip; Legend]
    typed_chart_controllers.

(** ** [Dashboard] *)

Record DashboardView := mkDashboardView {
  dv_visible : bool;
  dv_metrics : option (list (string * MetricCardView));     (* keyed by label *)
  dv_charts : option (list (string * ChartView))     (* keyed by title *)
}.

(** Rendering a list of children: the first throwing child aborts the
    render. *)
Fixpoint render_all {A B : Type} (f : A -> outcome B) (xs : list A) : outcome (list B) :=
  match xs with
  | [] => Ok []
  | x :: xs' => obind (f x) (fun y => obind (render_all f xs') (fun ys => Ok (y :: ys)))
  end.

(** Lines 99-122, from the store's [metrics], [charts] and
    [isVisible]. *)
Definition Dashboard (metrics : list Metric) (charts : list ChartConfig) (isVisible : bool)
  : outcome DashboardView :=
  let metric_cards :=
    if Nat.ltb 0 (length metrics) then Some (map (fun m => (label m, MetricCard m)) metrics) else None in
  if Nat.ltb 0 (length charts) then
    obind (render_all (fun c => obind (Chart c) (fun v => Ok (title c, v))) charts)
      (fun cs => Ok (mkDashboardView isVisible metric_cards (Some cs)))
  else Ok (mkDashboardView isVisible metric_cards None).

(** The charts a rendered dashboard shows, keyed by title. *)
Definition rendered_charts (v : DashboardView) : list (string * ChartView) :=
  match dv_charts v with Some cs => cs | None => [] end.

(** ** Lemmas *)

Lemma obj_get_set (k k' : string) (v : json) (o : object) :
  obj_get k (obj_set k' v o) = if String.eqb k k' then Some v else obj_get k o.
Proof.
  induction o as [|[k1 v1] o IH]; simpl; [reflexivity|].
  destruct (String.eqb_spec k' k1) as [<- | N1]; simpl.
  - destruct (String.eqb k k'); reflexivity.
  - rewrite IH. destruct (String.eqb_spec k k1) as [E2 | N2], (String.eqb_spec k k') as [E3 | N3];
      subst; congruence.
Qed.

(** Spreading an object with distinct keys: each key read from the
    source when it has it, from the target otherwise. *)
Lemma obj_get_spread (k : string) (t src : object) :
  NoDup (map fst src) ->
  obj_get k (obj_spread t src) =
  match obj_get k src with Some v => Some v | None => obj_get k t end.
Proof.
  unfold obj_spread. revert t. induction src as [|[k1 v1] src IH]; intros t ND; [reflexivity|].
  inversion ND as [|? ? Nin ND']; subst. simpl. rewrite (IH _ ND'), obj_get_set.
  destruct (String.eqb_spec k k1) as [-> | N]; [|reflexivity].
  assert (G : obj_get k1 src = None).
  { clear - Nin. induction src as [|[k2 v2] src IH]; [reflexivity|]. simpl in *.
    destruct (String.eqb_spec k1 k2) as [-> | N]; [tauto | apply IH; tauto]. }
  rewrite G. reflexivity.
Qed.

Lemma render_all_ok {A B : Type} (f : A -> outcome B) (xs : list A) :
  (exists ys, render_all f xs = Ok ys) <-> Forall (fun x => exists y, f x = Ok y) xs.
Proof.
  induction xs as [|x xs IH]; simpl.
  - split; [constructor | eauto].
  - rewrite Forall_cons_iff, <- IH. destruct (f x) as [y|e]; simpl.
    + destruct (render_all f xs) as [ys|e]; simpl; split.
      * intros _. eauto.
      * intros _. eauto.
      * intros [? H]; discriminate.
      * intros [_ [? H]]; discriminate.
    + split; [intros [? H]; discriminate | intros [[? H] _]; discriminate].
Qed.

(** Of the methods of [Object.prototype], only [toString] renders. *)
Lemma call_inherited_ok (name : string) :
  (exists b, call_inherited name = Ok b) <-> name = "toString"%string.
Proof.
  unfold call_inherited. destruct (String.eqb_spec name "toString") as [-> | N]; [split; eauto|].
  split; [|intros E; contradiction]. intros [b H].
  destruct (String.eqb name "constructor"); [discriminate|].
  destruct (String.eqb name "__proto__"); discriminate.
Qed.

(** A chart renders exactly when its type is an own property of
    [chartComponents] or [toString]. *)
Lemma Chart_ok (c : ChartConfig) :
  (exists v, Chart c = Ok v) <-> In (type c) ["bar"; "doughnut"; "pie"; "toString"]%string.
Proof.
  unfold Chart, lookup_component. simpl own_property.
  destruct (String.eqb_spec (type c) "bar") as [E1 | N1];
    [split; [intros _; left; symmetry; exact E1 | eauto]|].
  destruct (String.eqb_spec (type c) "doughnut") as [E2 | N2];
    [split; [intros _; right; left; symmetry; exact E2 | eauto]|].
  destruct (String.eqb_spec (type c) "pie") as [E3 | N3];
    [split; [intros _; right; right; left; symmetry; exact E3 | eauto]|].
  destruct (String.eqb_spec (type c) "toString") as [E4 | N4].
  { rewrite E4. simpl. split; [intros _; right; right; right; left; reflexivity | eauto]. }
  split; [|intros [H | [H | [H | [H | []]]]]; congruence].
  intros [v H]. exfalso. destruct (existsb _ _); [|discriminate].
  destruct (call_inherited (type c)) as [b|e] eqn:Ci; [|discriminate].
  apply N4, call_inherited_ok. eauto.
Qed.

Lemma render_all_Forall2 {A B : Type} (f : A -> outcome B) (xs : list A) (ys : list B) :
  render_all f xs = Ok ys -> Forall2 (fun x y => f x = Ok y) xs ys.
Proof.
  revert ys. induction xs as [|x xs IH]; intros ys R; simpl in R; [injection R as <-; constructor|].
  destruct (f x) as [y|e] eqn:F; [|discriminate]. simpl in R.
  destruct (render_all f xs) as [ys'|e]; [|discriminate]. injection R as <-.
  constructor; [exact F | apply IH; reflexivity].
Qed.

(** The charts of a rendered dashboard are the views [Chart] gives
    for the store's charts, in order. *)
Lemma Dashboard_charts (metrics : list Metric) (charts : list ChartConfig) (isVisible : bool)
  (v : DashboardView) :
  Dashboard metrics charts isVisible = Ok v ->
  Forall2 (fun c kv => Chart c = Ok (snd kv)) charts (rendered_charts v).
Proof.
  unfold Dashboard. destruct charts as [|c cs]; [intros E; injection E as <-; constructor|].
  replace (Nat.ltb 0 (length (c :: cs))) with true by reflexivity.
  destruct (render_all _ (c :: cs)) as [kvs|e] eqn:R; simpl; [|discriminate].
  intros E. injection E as <-. unfold rendered_charts. simpl.
  apply render_all_Forall2 in R. revert R. apply Forall2_impl.
  intros c' kv H. destruct (Chart c'); simpl in H; [injection H as <-; reflexivity | discriminate].
Qed.

Lemma Dashboard_total (metrics : list Metric) (charts : list ChartConfig) (isVisible : bool) :
  Forall (fun c => In (type c) ["bar"; "doughnut"; "pie"; "toString"]%string) charts ->
  exists v, Dashboard metrics charts isVisible = Ok v.
Proof.
  intros F. unfold Dashboard. destruct (Nat.ltb 0 (length charts)); [|eauto].
  assert (G : exists ys, render_all (fun c => obind (Chart c) (fun v => Ok (title c, v))) charts = Ok ys).
  { apply render_all_ok. revert F. apply Forall_impl. intros c Hc.
    apply Chart_ok in Hc. destruct Hc as [v E]. rewrite E. eexists. reflexivity. }
  destruct G as [ys ->]. eexists. reflexivity.
Qed.

(** ** Properties *)


End Dashboard.
