(* ===== verification/Constants.v ===== *)
(** * Constants: the live model and voice configuration

    Models the configuration data of [src/lib/constants.ts] (lines
    24-80): the default live model and voice, the [VoiceOption] record
    and the full and limited voice lists, and the models restricted to
    the limited list.  The system prompts of lines 82-161 are in
    [Prompts].  The data is copied exactly; it is read by the parts of
    the application outside the sources (the live session and the
    voice selector), so no property of the worklet depends on it. *)

From Stdlib Require Import String List Bool.
From S2P Require Import Prelude.
Import ListNotations.
Local Open Scope string_scope.

Module Constants.

(** Line 24. *)
Definition DEFAULT_LIVE_API_MODEL : string := "gemini-live-2.5-flash-preview".

(** Line 26. *)
Definition DEFAULT_VOICE : string := "Zephyr".

(** Lines 28-31. *)
Record VoiceOption := mkVoiceOption {
  name : string;
  description : string
}.

(** Lines 33-64. *)
Definition AVAILABLE_VOICES_FULL : list VoiceOption := [
  mkVoiceOption "Achernar" "Soft, Higher pitch";
  mkVoiceOption "Achird" "Friendly, Lower middle pitch";
  mkVoiceOption "Algenib" "Gravelly, Lower pitch";
  mkVoiceOption "Algieba" "Smooth, Lower pitch";
  mkVoiceOption "Alnilam" "Firm, Lower middle pitch";
  mkVoiceOption "Aoede" "Breezy, Middle pitch";
  mkVoiceOption "Autonoe" "Bright, Middle pitch";
  mkVoiceOption "Callirrhoe" "Easy-going, Middle pitch";
  mkVoiceOption "Charon" "Informative, Lower pitch";
  mkVoiceOption "Despina" "Smooth, Middle pitch";
  mkVoiceOption "Enceladus" "Breathy, Lower pitch";
  mkVoiceOption "Erinome" "Clear, Middle pitch";
  mkVoiceOption "Fenrir" "Excitable, Lower middle pitch";
  mkVoiceOption "Gacrux" "Mature, Middle pitch";
  mkVoiceOption "Iapetus" "Clear, Lower middle pitch";
  mkVoiceOption "Kore" "Firm, Middle pitch";
  mkVoiceOption "Laomedeia" "Upbeat, Higher pitch";
  mkVoiceOption "Leda" "Youthful, Higher pitch";
  mkVoiceOption "Orus" "Firm, Lower middle pitch";
  mkVoiceOption "Puck" "Upbeat, Middle pitch";
  mkVoiceOption "Pulcherrima" "Forward, Middle pitch";
  mkVoiceOption "Rasalgethi" "Informative, Middle pitch";
  mkVoiceOption "Sadachbia" "Lively, Lower pitch";
  mkVoiceOption "Sadaltager" "Knowledgeable, Middle pitch";
  mkVoiceOption "Schedar" "Even, Lower middle pitch";
  mkVoiceOption "Sulafat" "Warm, Middle pitch";
  mkVoiceOption "Umbriel" "Easy-going, Lower middle pitch";
  mkVoiceOption "Vindemiatrix" "Gentle, Middle pitch";
  mkVoiceOption "Zephyr" "Bright, Higher pitch";
  mkVoiceOption "Zubenelgenubi" "Casual, Lower middle pitch"
].

(** Lines 66-75. *)
Definition AVAILABLE_VOICES_LIMITED : list VoiceOption := [
  mkVoiceOption "Puck" "Upbeat, Middle pitch";
  mkVoiceOption "Charon" "Informative, Lower pitch";
  mkVoiceOption "Kore" "Firm, Middle pitch";
  mkVoiceOption "Fenrir" "Excitable, Lower middle pitch";
  mkVoiceOption "Aoede" "Breezy, Middle pitch";
  mkVoiceOption "Leda" "Youthful, Higher pitch";
  mkVoiceOption "Orus" "Firm, Lower middle pitch";
  mkVoiceOption "Zephyr" "Bright, Higher pitch"
].

(** Lines 77-80. *)
Definition MODELS_WITH_LIMITED_VOICES : list string :=
  ["gemini-live-2.5-flash-preview"; "gemini-2.0-flash-live-001"].

End Constants.
