(* ===== verification/PopUp.v ===== *)
(** * The onboarding pop-up

    Models [src/components/popup/PopUp.tsx]: the [PopUp] component
    renders a fixed dialog (a heading, two paragraphs, an ordered list
    of five steps, each with a Material icon name and a text) and a
    button whose [onClick] is the [onClose] callback it receives.  The
    text is the one React renders from the JSX: each line trimmed, the
    lines of one text joined by a space, [&nbsp;] kept as [Nbsp], and
    [<strong>] as [Strong].  Markup and CSS classes are not modelled.
    The view is polymorphic in the callback, which it stores and never
    calls: dismissing the dialog is left to the parent. *)

From Stdlib Require Import String Ascii List.
From S2P Require Import Prelude.
Import ListNotations.
Local Open Scope string_scope.

Module PopUp.

Definition dq : string := String (ascii_of_nat 34) EmptyString.

(** Inline content of a step. *)
Inductive Inline : Type :=
| Text (s : string)
| Nbsp
| Strong (xs : list Inline).

(** Lines 25-48: one [<li>]: its icon [<span>] and its [<div>]. *)
Record Step := mkStep {
  icon : string;
  body : list Inline
}.

(** Lines 15-54: the rendered dialog, with the button's handler. *)
Record PopUpView (A : Type) := mkPopUpView {
  heading : string;
  paragraphs : list string;
  steps : list Step;
  button_label : string;
  on_click : A
}.
Arguments mkPopUpView {A}.
Arguments on_click {A}.

(** Lines 14-55. *)
Definition PopUp {A : Type} (onClose : A) : PopUpView A :=
  mkPopUpView
    "Welcome to CityVibe: AI City Insights"
    ["This interactive demo uses Gemini to analyze business environments and consumer trends for any city. Ask for an analysis, and watch as key insights and data visualizations appear on the dashboard.";
     "To get started:"]
    [mkStep "play_circle"
       [Text "Press the "; Strong [Nbsp; Text " Play "; Nbsp];
        Text " button to start the conversation."];
     mkStep "record_voice_over"
       [Strong [Text "Speak naturally "; Nbsp];
        Text ("to analyze a market. Try saying, " ++ dq ++
              "Analyze the coffee shop market in Seattle." ++ dq)];
     mkStep "dashboard"
       [Text "Watch as the dashboard "; Strong [Nbsp; Text " dynamically updates "; Nbsp];
        Text " with charts and key metrics."];
     mkStep "keyboard"
       [Text "Alternatively, "; Strong [Nbsp; Text " type your requests "; Nbsp];
        Text " into the message box."];
     mkStep "tune"
       [Text "Click the "; Strong [Nbsp; Text " Settings "; Nbsp];
        Text " icon to customize the AI's voice and behavior."]]
    "Got It, Let's Analyze!"
    onClose.

End PopUp.
